(** * Gamification engine of progress_api (src/progress/gamification.py,
    src/progress/models.py): a shallow embedding.

    Python floats are IEEE-754 binary64 numbers; they are modelled with
    the Standard Library's [SpecFloat] at precision 53 and [emax] 1024,
    so every float multiplication, division and comparison of the source
    is the correctly rounded one.  Datetimes are integers of microseconds
    (UTC), dates are integers of days, timedeltas integers of
    microseconds.  Raised exceptions are the [Err] case of [res]. *)

From Stdlib Require Import Reals Lra.
From Stdlib Require Import ZArith List String Bool Lia.
From Stdlib Require Import Floats.SpecFloat.
From Stdlib Require Import Ascii Sorting.Sorted Sorting.Permutation.
Import ListNotations.
Open Scope Z_scope.

(** ** Python runtime: errors, floats, ints *)

Inductive py_error :=
| ZeroDivisionError
| OverflowError
| ValueError
| IntegrityError
| FieldError (name : string)
| AttributeError (name : string)
| OutOfFuel.  (* not a Python error: bound of the recursion depth *)

Inductive res (A : Type) :=
| Ok (a : A)
| Err (e : py_error).
Arguments Ok {A} a.
Arguments Err {A} e.

Definition bind {A B} (m : res A) (k : A -> res B) : res B :=
  match m with Ok a => k a | Err e => Err e end.

Notation "'let*' x ':=' m 'in' k" := (bind m (fun x => k))
  (at level 200, x name, m at level 100, k at level 200).
Notation "'let*' ' p ':=' m 'in' k" := (bind m (fun x => match x with p => k end))
  (at level 200, p pattern, m at level 100, k at level 200).

Definition pyfloat := spec_float.
Definition prec : Z := 53.
Definition emax : Z := 1024.

(** [float(n)] for a Python int [n]: correctly rounded. *)
Definition float_of_Z (n : Z) : pyfloat := binary_normalize prec emax n 0 false.

Definition fmul (x y : pyfloat) : pyfloat := SFmul prec emax x y.
Definition fadd (x y : pyfloat) : pyfloat := SFadd prec emax x y.

Definition is_zero (x : pyfloat) : bool :=
  match x with S754_zero _ => true | _ => false end.

(** [x / y] on floats raises [ZeroDivisionError] when [y] is zero. *)
Definition fdiv (x y : pyfloat) : res pyfloat :=
  if is_zero y then Err ZeroDivisionError else Ok (SFdiv prec emax x y).

(** A decimal literal [n / d] is the float nearest to it. *)
Definition lit (n d : Z) : pyfloat := SFdiv prec emax (float_of_Z n) (float_of_Z d).

(** [x >= y] and [x < y] on floats (false when a NaN is involved). *)
Definition fge (x y : pyfloat) : bool := SFleb y x.
Definition flt (x y : pyfloat) : bool := SFltb x y.

(** [int(x)]: truncation toward zero; infinities overflow, NaN is a
    [ValueError]. *)
Definition py_int (x : pyfloat) : res Z :=
  match x with
  | S754_zero _ => Ok 0
  | S754_infinity _ => Err OverflowError
  | S754_nan => Err ValueError
  | S754_finite s m e =>
      let a := if 0 <=? e then Z.shiftl (Zpos m) e else Z.shiftr (Zpos m) (- e) in
      Ok (if s then - a else a)
  end.

(** [min(a, b)] returns [a] unless [b < a]. *)
Definition fmin (a b : pyfloat) : pyfloat := if flt b a then b else a.

(** [timedelta.total_seconds()]: the microsecond count divided by 10^6,
    correctly rounded (exact division of two ints, both representable
    below 2^53 microseconds, i.e. for spans under 285 years). *)
Definition total_seconds (us : Z) : pyfloat :=
  SFdiv prec emax (float_of_Z us) (float_of_Z 1000000).

(** Decimal rendering of an int, as in an f-string. *)
Fixpoint digits_of_nat (fuel : nat) (n : Z) (acc : string) : string :=
  match fuel with
  | O => acc
  | S f =>
      let d := Z.modulo n 10 in
      let c := Ascii.ascii_of_nat (48 + Z.to_nat d) in
      if n <? 10 then String c acc else digits_of_nat f (Z.div n 10) (String c acc)
  end.

Definition str_of_Z (n : Z) : string :=
  if n <? 0 then String (Ascii.ascii_of_nat 45) (digits_of_nat 64 (- n) EmptyString)
  else digits_of_nat 64 n EmptyString.

(** ** Data model (models.py) *)

(** [Task] with the fields the engine reads; the category is inlined as
    its id, name and [xp_multiplier]. *)
Record Task := mkTask {
  task_id : Z;
  difficulty : string;
  priority : string;
  category_id : Z;
  category_name : string;
  xp_multiplier : pyfloat;
  is_completed : bool;
  due_date : option Z;
  completed_at : option Z;
  created_at : Z
}.

Definition us_per_minute : Z := 60000000.
Definition us_per_hour : Z := 3600000000.
Definition us_per_day : Z := 86400000000.

(** ** XP Calculator (GamificationEngine.calculate_task_xp and friends) *)

Definition base_xp (d : string) : Z :=
  if String.eqb d "easy" then 10
  else if String.eqb d "medium" then 20
  else if String.eqb d "hard" then 40
  else if String.eqb d "expert" then 100
  else 25.

Definition priority_bonus (p : string) : pyfloat :=
  if String.eqb p "low" then lit 10 10
  else if String.eqb p "medium" then lit 11 10
  else if String.eqb p "high" then lit 125 100
  else if String.eqb p "urgent" then lit 25 10
  else lit 10 10.

(** The time-remaining ratio of [get_timing_modifier] and
    [get_timing_status]. *)
Definition time_remaining_ratio (t : Task) (due now : Z) : res pyfloat :=
  fdiv (total_seconds (due - now)) (total_seconds (due - created_at t)).

Definition get_timing_modifier (t : Task) (now : Z) : res pyfloat :=
  match due_date t with
  | None => Ok (lit 10 10)
  | Some due =>
      let* r := time_remaining_ratio t due now in
      Ok (if fge r (lit 5 10) then lit 13 10
          else if fge r (lit 25 100) then lit 115 100
          else if fge r (lit 0 1) then lit 10 10
          else if fge r (lit (-25) 100) then lit 8 10
          else if fge r (lit (-5) 10) then lit 6 10
          else lit 4 10)
  end.

Definition get_timing_status (t : Task) (now : Z) : res string :=
  match due_date t with
  | None => Ok "no deadline"%string
  | Some due =>
      let* r := time_remaining_ratio t due now in
      Ok (if fge r (lit 5 10) then "completed early - bonus XP!"%string
          else if fge r (lit 25 100) then "good timing - bonus XP!"%string
          else if fge r (lit 0 1) then "completed on time"%string
          else if fge r (lit (-25) 100) then "slightly late - XP penalty"%string
          else if fge r (lit (-5) 10) then "late - XP penalty"%string
          else "very late - major XP penalty"%string)
  end.

(** [int * float] converts the int to a float first. *)
Definition mul_trunc (x : Z) (f : pyfloat) : res Z := py_int (fmul (float_of_Z x) f).

(** The float [binary_round_aux] returns for a positive mantissa [m1]
    (at most [2^53]) at exponent [e], once it is rounded to 53 digits. *)
Definition round_out (m1 e : Z) : spec_float :=
  if m1 <? 2 ^ 53 then (if e <=? 971 then S754_finite false (Z.to_pos m1) e else S754_infinity false)
  else (if e + 1 <=? 971 then S754_finite false (Z.to_pos (2 ^ 52)) (e + 1) else S754_infinity false).

Definition calculate_task_xp (t : Task) (now : Z) : res Z :=
  let xp := base_xp (difficulty t) in
  let* xp := mul_trunc xp (xp_multiplier t) in
  let* xp := mul_trunc xp (priority_bonus (priority t)) in
  let* tm := get_timing_modifier t now in
  let* xp := mul_trunc xp tm in
  Ok (Z.max xp 1).

(** [can_complete_task]: minimum dwell time by difficulty. *)
Definition min_time_requirement (d : string) : Z :=
  if String.eqb d "easy" then 15 * us_per_minute
  else if String.eqb d "medium" then us_per_hour
  else if String.eqb d "hard" then 4 * us_per_hour
  else if String.eqb d "expert" then us_per_day
  else us_per_hour.

(** The remaining wait as rendered by the source.  The source floor-divides
    [remaining_time.total_seconds()] by 3600 and takes [% 3600 // 60];
    the remaining time is a whole number of microseconds of at most one
    day, so its float seconds lie within 2^-36 of the exact quotient and no
    floor crosses a boundary: the division of the microsecond count below
    gives the same hours and minutes. *)
Definition wait_time (remaining : Z) : string :=
  let hours := remaining / us_per_hour in
  let minutes := (remaining mod us_per_hour) / us_per_minute in
  if 0 <? hours then (str_of_Z hours ++ " hours and " ++ str_of_Z minutes ++ " minutes")%string
  else (str_of_Z minutes ++ " minutes")%string.

Definition can_complete_task (t : Task) (now : Z) : bool * string :=
  match due_date t with
  | None => (true, "Task can be completed"%string)
  | Some _ =>
      let min_time := min_time_requirement (difficulty t) in
      let time_since_created := now - created_at t in
      if time_since_created <? min_time then
        let remaining_time := min_time - time_since_created in
        (false, ("Task created too recently. Wait " ++ wait_time remaining_time
                 ++ " before completing this " ++ difficulty t ++ " task.")%string)
      else (true, "Task can be completed"%string)
  end.

(** ** Progression store *)

Record Profile := mkProfile {
  total_xp : Z;
  current_level : Z;
  current_streak : Z;
  longest_streak : Z;
  last_activity_date : option Z;
  total_early_completions : Z;
  total_on_time_completions : Z;
  total_late_completions : Z
}.

(** A row created by [ProgressProfile.objects.create(user=...)]: the
    field defaults of models.py. *)
Definition fresh_profile : Profile := mkProfile 0 0 0 0 None 0 0 0.

Definition set_total (p : Profile) (x : Z) : Profile :=
  mkProfile x (current_level p) (current_streak p) (longest_streak p)
    (last_activity_date p) (total_early_completions p)
    (total_on_time_completions p) (total_late_completions p).
Definition set_level (p : Profile) (l : Z) : Profile :=
  mkProfile (total_xp p) l (current_streak p) (longest_streak p)
    (last_activity_date p) (total_early_completions p)
    (total_on_time_completions p) (total_late_completions p).
Definition set_streaks (p : Profile) (cur longest : Z) (last : option Z) : Profile :=
  mkProfile (total_xp p) (current_level p) cur longest last
    (total_early_completions p) (total_on_time_completions p)
    (total_late_completions p).

Record XPLog := mkXPLog {
  action : string;
  xp_earned : Z;
  log_task : option Z
}.

Record Achievement := mkAchievement {
  achievement_id : Z;
  achievement_type : string;
  threshold : Z;
  xp_reward : Z
}.

(** The rows of one user: the profile, the XP ledger, the achievement
    definitions, the unlocked (achievement id, progress) pairs, and the
    user's tasks. *)
Record DB := mkDB {
  db_profile : Profile;
  xp_logs : list XPLog;
  achievements : list Achievement;
  user_achievements : list (Z * Z);
  tasks : list Task
}.

Definition save (p : Profile) (db : DB) : DB :=
  mkDB p (xp_logs db) (achievements db) (user_achievements db) (tasks db).
Definition add_log (l : XPLog) (db : DB) : DB :=
  mkDB (db_profile db) (xp_logs db ++ [l]) (achievements db) (user_achievements db) (tasks db).
Definition add_user_achievement (ua : Z * Z) (db : DB) : DB :=
  mkDB (db_profile db) (xp_logs db) (achievements db) (user_achievements db ++ [ua]) (tasks db).

(** [XPLog.objects.filter(user=...).aggregate(Sum('xp_earned'))]. *)
Definition ledger_total (db : DB) : Z := fold_left Z.add (map xp_earned (xp_logs db)) 0.

Definition date_of (dt : Z) : Z := dt / us_per_day.

(** ** Streak Tracker *)

Definition opt_eqZ (o : option Z) (d : Z) : bool :=
  match o with Some x => x =? d | None => false end.

Definition update_streak (today : Z) (p : Profile) (db : DB) : Z * Profile * DB :=
  if opt_eqZ (last_activity_date p) today then (0, p, db) else
  let cur :=
    match last_activity_date p with
    | None => 1
    | Some d => if d =? today - 1 then current_streak p + 1 else 1
    end in
  let longest := if longest_streak p <? cur then cur else longest_streak p in
  let '(bonus, db) :=
    if (0 <? cur) && (cur mod 7 =? 0)
    then (cur * 5, add_log (mkXPLog "streak_bonus" (cur * 5) None) db)
    else (0, db) in
  let p := set_streaks p cur longest (Some today) in
  (bonus, p, save p db).

(** [list(set(dates)); sort()]: the distinct dates in increasing order. *)
Fixpoint insert_unique (d : Z) (l : list Z) : list Z :=
  match l with
  | [] => [d]
  | x :: r => if d <? x then d :: l else if d =? x then l else x :: insert_unique d r
  end.

Definition sorted_unique (l : list Z) : list Z := fold_right insert_unique [] l.

(** The loop of [recalculate_streak] over the sorted dates:
    state (current_streak, longest_streak, last_date). *)
Definition recalc_step (s : Z * Z * option Z) (date : Z) : Z * Z * option Z :=
  let '(cur, longest, last) := s in
  match last with
  | None => (cur + 1, longest, Some date)
  | Some l =>
      if date =? l + 1 then (cur + 1, longest, Some date)
      else (1, Z.max longest cur, Some date)
  end.

(** [recalculate_streak] on the completion datetimes of the user's
    completed tasks (ordered by [completed_at]).  The new profile, and the
    returned dict as (current, longest, last_activity) ([None] for the
    early return on an empty history). *)
Definition recalculate_streak (completions : list Z) (p : Profile) (db : DB)
  : option (Z * Z * option Z) * Profile * DB :=
  match completions with
  | [] =>
      let p := set_streaks p 0 0 None in (None, p, save p db)
  | _ =>
      let dates := sorted_unique (map date_of completions) in
      let '(cur, longest, _) := fold_left recalc_step dates (0, 0, None) in
      let longest := Z.max longest cur in
      let last := last dates 0 in
      let p := set_streaks p cur longest (Some last) in
      (Some (cur, longest, Some last), p, save p db)
  end.

(** ** Level / Progression (ProgressProfile) *)

(** Python's [range(a, b)]. *)
Definition py_range (a b : Z) : list Z :=
  map (fun k => a + Z.of_nat k) (seq 0 (Z.to_nat (b - a))).

Definition calculate_xp_for_level (level : Z) : Z :=
  if level <=? 1 then 0
  else fold_left Z.add (map (fun i => i * 100) (py_range 2 (level + 1))) 0.

(** [while total_xp >= calculate_xp_for_level(level + 1): level += 1],
    run with a bound on the iterations; [level_of] gives it
    [total_xp + 1] rounds, which the level theorems below show is never
    reached. *)
Fixpoint level_loop (fuel : nat) (total level : Z) : Z :=
  match fuel with
  | O => level
  | S f =>
      if calculate_xp_for_level (level + 1) <=? total
      then level_loop f total (level + 1) else level
  end.

Definition level_of (total : Z) : Z := level_loop (S (Z.to_nat total)) total 1.

(** ** Achievement Evaluator *)

Definition completed_tasks (db : DB) : list Task := filter is_completed (tasks db).

Fixpoint bump_count (k : Z) (l : list (Z * Z)) : list (Z * Z) :=
  match l with
  | [] => [(k, 1)]
  | (k', n) :: r => if k =? k' then (k', n + 1) :: r else (k', n) :: bump_count k r
  end.

Definition completed_early (t : Task) : bool :=
  match completed_at t, due_date t with
  | Some c, Some d => c <? d
  | _, _ => false
  end.

Definition get_achievement_progress (p : Profile) (db : DB) (a : Achievement) : Z :=
  let ty := achievement_type a in
  if String.eqb ty "task_count" then Z.of_nat (List.length (completed_tasks db))
  else if String.eqb ty "streak" then longest_streak p
  else if String.eqb ty "level" then current_level p
  else if String.eqb ty "xp" then total_xp p
  else if String.eqb ty "category" then
    let counts := fold_left (fun c t => bump_count (category_id t) c) (completed_tasks db) [] in
    match counts with
    | [] => 0
    | (_, n) :: r => fold_left Z.max (map snd r) n
    end
  else if String.eqb ty "timing" then Z.of_nat (List.length (filter completed_early (completed_tasks db)))
  else 0.

Definition unlocked (db : DB) (a : Achievement) : bool :=
  existsb (fun ua => fst ua =? achievement_id a) (user_achievements db).

(** [unlock_achievement], with the [update_level] it ends in as a
    parameter [ul] (the two are mutually recursive through
    [check_level_achievements]). *)
Definition unlock_with (ul : Profile -> DB -> res (Profile * DB))
  (p : Profile) (db : DB) (a : Achievement) : res (Profile * DB) :=
  let progress := get_achievement_progress p db a in
  (* unique_together = ['user', 'achievement'] *)
  if unlocked db a then Err IntegrityError else
  let db := add_user_achievement (achievement_id a, progress) db in
  let db := add_log (mkXPLog "achievement" (xp_reward a) None) db in
  let p := set_total p (total_xp p + xp_reward a) in
  let db := save p db in
  ul p db.

Definition is_level_achievement_in (old new : Z) (a : Achievement) : bool :=
  String.eqb (achievement_type a) "level" && (threshold a <=? new) && (old <? threshold a).

Fixpoint unlock_each (ul : Profile -> DB -> res (Profile * DB))
  (l : list Achievement) (p : Profile) (db : DB) : res (Profile * DB) :=
  match l with
  | [] => Ok (p, db)
  | a :: r =>
      if unlocked db a then unlock_each ul r p db
      else let* '(p, db) := unlock_with ul p db a in unlock_each ul r p db
  end.

Definition check_level_with (ul : Profile -> DB -> res (Profile * DB))
  (p : Profile) (db : DB) (old new : Z) : res (Profile * DB) :=
  unlock_each ul (filter (is_level_achievement_in old new) (achievements db)) p db.

(** [ProgressProfile.update_level]: on a level-up it saves and runs
    [check_level_achievements] on a NEW engine, whose profile is a fresh
    copy loaded from the store; that copy, not [p], receives the rewards
    of the level achievements. *)
Fixpoint update_level (fuel : nat) (p : Profile) (db : DB) : res (Profile * DB) :=
  let old_level := current_level p in
  let p := set_level p (level_of (total_xp p)) in
  if old_level <? current_level p then
    let db := save p db in
    match fuel with
    | O => Err OutOfFuel
    | S f =>
        let engine_profile := db_profile db in
        let* '(_, db) := check_level_with (update_level f) engine_profile db old_level (current_level p) in
        Ok (p, db)
    end
  else Ok (p, db).

Definition unlock_achievement (fuel : nat) := unlock_with (update_level fuel).

Fixpoint check_all_loop (fuel : nat) (l : list Achievement) (p : Profile) (db : DB)
  : res (list Achievement * Profile * DB) :=
  match l with
  | [] => Ok ([], p, db)
  | a :: r =>
      if negb (unlocked db a) && (threshold a <=? get_achievement_progress p db a) then
        let* '(p, db) := unlock_achievement fuel p db a in
        let* '(newly, p, db) := check_all_loop fuel r p db in
        Ok (a :: newly, p, db)
      else check_all_loop fuel r p db
  end.

Definition check_all_achievements (fuel : nat) (p : Profile) (db : DB)
  : res (list Achievement * Profile * DB) :=
  check_all_loop fuel (achievements db) p db.

(** ** Gamification Engine: task completion *)

Definition award_task_xp (fuel : nat) (t : Task) (now : Z) (p : Profile) (db : DB)
  : res (Z * string * Profile * DB) :=
  let '(can_complete, message) := can_complete_task t now in
  if negb can_complete then Ok (0, message, p, db) else
  let* xp := calculate_task_xp t now in
  let '(streak_bonus, p, db) := update_streak (date_of now) p db in
  let xp := if 0 <? streak_bonus then xp + streak_bonus else xp in
  let* timing_status := get_timing_status t now in
  let db := add_log (mkXPLog "task_complete" xp (Some (task_id t))) db in
  let p := set_total p (total_xp p + xp) in
  let db := save p db in
  let* '(p, db) := update_level fuel p db in
  let* '(_, p, db) := check_all_achievements fuel p db in
  Ok (xp, ("Task completed! Earned " ++ str_of_Z xp ++ " XP (" ++ timing_status ++ ")")%string, p, db).

(** ** Weekly Review Generator *)

(** The counters and the score of [generate_weekly_review] (the XP total,
    the category breakdown and the suggestions do not enter the score and
    are left out). *)
Record WeeklyReview := mkWeeklyReview {
  week_start : Z;
  week_end : Z;
  total_tasks : Z;
  early_completions : Z;
  on_time_completions : Z;
  late_completions : Z;
  performance_score : Z
}.

(** One task of the timing loop: counters (early, on_time, late). *)
Definition timing_step (c : Z * Z * Z) (t : Task) : res (Z * Z * Z) :=
  let '(early, on_time, late) := c in
  match completed_at t, due_date t with
  | Some comp, Some due =>
      if comp <=? due then
        let* time_ratio := fdiv (total_seconds (due - comp)) (total_seconds (due - created_at t)) in
        if fge time_ratio (lit 25 100) then Ok (early + 1, on_time, late)
        else Ok (early, on_time + 1, late)
      else Ok (early, on_time, late + 1)
  | _, _ => Ok c
  end.

Fixpoint timing_loop (c : Z * Z * Z) (l : list Task) : res (Z * Z * Z) :=
  match l with
  | [] => Ok c
  | t :: r => let* c := timing_step c t in timing_loop c r
  end.

(** [timing_score], [productivity_score] and [int(timing + productivity)]. *)
Definition performance_score_of (total early on_time : Z) : res Z :=
  let* timing_score :=
    if 0 <? total then
      let* q := fdiv (fadd (float_of_Z (early * 2)) (fmul (float_of_Z on_time) (lit 15 10)))
                     (float_of_Z total) in
      Ok (fmin (fmul q (float_of_Z 50)) (float_of_Z 100))
    else Ok (float_of_Z 0) in
  let* per_day := fdiv (float_of_Z total) (float_of_Z 7) in
  let productivity_score := fmin (fmul per_day (float_of_Z 20)) (float_of_Z 50) in
  py_int (fadd timing_score productivity_score).

Definition in_week (start_date end_date : Z) (t : Task) : bool :=
  is_completed t &&
  match completed_at t with
  | Some c => (start_date <=? date_of c) && (date_of c <=? end_date)
  | None => false
  end.

Definition has_due_date (t : Task) : bool :=
  match due_date t with Some _ => true | None => false end.

Definition generate_weekly_review (now : Z) (db : DB) : res WeeklyReview :=
  let end_date := date_of now in
  let start_date := end_date - 7 in
  let week_tasks := filter (in_week start_date end_date) (tasks db) in
  let total := Z.of_nat (List.length week_tasks) in
  let* '(early, on_time, late) := timing_loop (0, 0, 0) (filter has_due_date week_tasks) in
  let* score := performance_score_of total early on_time in
  Ok (mkWeeklyReview start_date end_date total early on_time late score).

(** ** Mission Service *)

Record UserMission := mkUserMission {
  mission_id : Z;
  mission_user_id : Z;
  template_mission_type : string;
  mission_target_value : Z;
  mission_current_progress : Z;
  mission_status : string;
  mission_xp_reward : Z;
  mission_completed_at : option Z
}.

(** Field names of the models (models.py), as the ORM resolves them in a
    lookup: concrete fields, their [_id] attnames, and many-to-many fields. *)
Definition usermission_fields : list string :=
  ["id"; "user"; "user_id"; "template"; "template_id"; "title"; "description";
   "target_value"; "current_progress"; "start_date"; "end_date"; "completed_at";
   "status"; "xp_reward"; "bonus_multiplier"; "category"; "category_id";
   "related_tasks"; "created_at"; "updated_at"]%string.

Definition missiontemplate_fields : list string :=
  ["id"; "name"; "description"; "mission_type"; "difficulty"; "target_value";
   "duration_days"; "xp_reward"; "bonus_multiplier"; "category"; "category_id";
   "min_user_level"; "max_user_level"; "is_active"; "is_repeatable"; "weight";
   "created_at"; "usermission"]%string.

Definition mem (s : string) (l : list string) : bool := existsb (String.eqb s) l.

(** A lookup keyword split at [__]; [template__...] follows the foreign key
    to [MissionTemplate]. *)
Definition resolves_usermission (path : list string) : res unit :=
  match path with
  | [f] => if mem f usermission_fields then Ok tt else Err (FieldError f)
  | [f; g] =>
      if String.eqb f "template" then
        if mem g missiontemplate_fields then Ok tt else Err (FieldError g)
      else Err (FieldError f)
  | _ => Err (FieldError "")
  end.

Inductive field_value := VInt (z : Z) | VBool (b : bool) | VStr (s : string).

(** The value of a resolved lookup on a row. *)
Definition usermission_get (m : UserMission) (path : list string) : option field_value :=
  match path with
  | ["user_id"] => Some (VInt (mission_user_id m))
  | ["status"] => Some (VStr (mission_status m))
  | ["template"; "mission_type"] => Some (VStr (template_mission_type m))
  | _ => None
  end%string.

Definition field_value_eqb (a b : field_value) : bool :=
  match a, b with
  | VInt x, VInt y => x =? y
  | VBool x, VBool y => Bool.eqb x y
  | VStr x, VStr y => String.eqb x y
  | _, _ => false
  end.

Fixpoint resolve_all (ls : list (list string * field_value)) : res unit :=
  match ls with
  | [] => Ok tt
  | (path, _) :: r => let* _ := resolves_usermission path in resolve_all r
  end.

(** [UserMission.objects.filter(...)]: every keyword must resolve
    (else [FieldError]), then the rows matching all of them. *)
Definition usermission_filter (ls : list (list string * field_value)) (rows : list UserMission)
  : res (list UserMission) :=
  let* _ := resolve_all ls in
  Ok (filter (fun m => forallb (fun '(path, v) =>
         match usermission_get m path with
         | Some w => field_value_eqb w v
         | None => false
         end) ls) rows).

(** [_award_mission_rewards]: a ledger entry, then a profile loaded from the
    store gets the reward, is saved and re-levelled. *)
Definition award_mission_rewards (fuel : nat) (m : UserMission) (db : DB) : res DB :=
  let db := add_log (mkXPLog "mission_complete" (mission_xp_reward m) None) db in
  let profile := db_profile db in
  let profile := set_total profile (total_xp profile + mission_xp_reward m) in
  let db := save profile db in
  let* '(_, db) := update_level fuel profile db in
  Ok db.

Definition set_progress (m : UserMission) (v : Z) (c : option Z) : UserMission :=
  mkUserMission (mission_id m) (mission_user_id m) (template_mission_type m)
    (mission_target_value m) v (mission_status m) (mission_xp_reward m) c.

(** The loop body.  [mission.is_completed = True] sets an attribute that is
    no field of [UserMission]: [mission.save()] does not store it and
    [status] is left as it was. *)
Fixpoint mission_loop (fuel : nat) (now : Z) (progress_value : Z) (l : list UserMission) (db : DB)
  : res (list UserMission * list UserMission * DB) :=
  match l with
  | [] => Ok ([], [], db)
  | m :: r =>
      let m := set_progress m (Z.min (mission_current_progress m + progress_value)
                                     (mission_target_value m)) (mission_completed_at m) in
      let* '(m, done, db) :=
        if mission_target_value m <=? mission_current_progress m then
          let m := set_progress m (mission_current_progress m) (Some now) in
          let* db := award_mission_rewards fuel m db in
          Ok (m, [m], db)
        else Ok (m, [], db) in
      let* '(saved, completed, db) := mission_loop fuel now progress_value r db in
      Ok (m :: saved, done ++ completed, db)
  end.

(** [MissionService.update_mission_progress]: the rows after the call and
    the list of missions completed in it. *)
Definition update_mission_progress (fuel : nat) (now : Z) (user_id : Z) (mission_type : string)
  (progress_value : Z) (rows : list UserMission) (db : DB)
  : res (list UserMission * list UserMission * DB) :=
  let* active_missions :=
    usermission_filter [(["user_id"], VInt user_id);
                        (["is_completed"], VBool false);
                        (["template"; "mission_type"], VStr mission_type)]%string rows in
  mission_loop fuel now progress_value active_missions db.

(** ** Drivers and the spec's reference definitions *)

(** A sequence of task completions [(task, now)], each one
    [award_task_xp] on the engine of the one user. *)
Fixpoint award_sequence (fuel : nat) (ops : list (Task * Z)) (p : Profile) (db : DB)
  : res (Profile * DB) :=
  match ops with
  | [] => Ok (p, db)
  | (t, now) :: r =>
      let* '(_, _, p, db) := award_task_xp fuel t now p db in
      award_sequence fuel r p db
  end.

(** One [update_streak] call on day [d]. *)
Definition streak_day (s : Profile * DB) (d : Z) : Profile * DB :=
  let '(_, p, db) := update_streak d (fst s) (snd s) in (p, db).

(** One [update_streak] call per completion, on the day of the completion. *)
Definition daily_updates (completions : list Z) (p : Profile) (db : DB) : Profile * DB :=
  fold_left (fun s c => streak_day s (date_of c)) completions (p, db).

Fixpoint nondecreasing (l : list Z) : bool :=
  match l with
  | x :: ((y :: _) as r) => (x <=? y) && nondecreasing r
  | _ => true
  end.

Definition with_multiplier (t : Task) (m : pyfloat) : Task :=
  mkTask (task_id t) (difficulty t) (priority t) (category_id t) (category_name t) m
    (is_completed t) (due_date t) (completed_at t) (created_at t).

Definition with_difficulty (t : Task) (d : string) : Task :=
  mkTask (task_id t) d (priority t) (category_id t) (category_name t) (xp_multiplier t)
    (is_completed t) (due_date t) (completed_at t) (created_at t).

(** The spec's order on difficulties: easy < medium < hard < expert. *)
Definition difficulty_rank (d : string) : option Z :=
  if String.eqb d "easy" then Some 0
  else if String.eqb d "medium" then Some 1
  else if String.eqb d "hard" then Some 2
  else if String.eqb d "expert" then Some 3
  else None.

Definition difficulty_lt (d1 d2 : string) : bool :=
  match difficulty_rank d1, difficulty_rank d2 with
  | Some a, Some b => a <? b
  | _, _ => false
  end.

(** The spec's curve: [sum(i*100 for i in 2..level)], level by level. *)
Fixpoint spec_cumulative_xp (n : nat) : Z :=
  match n with
  | O | S O => 0
  | S m => spec_cumulative_xp m + 100 * Z.of_nat (S m)
  end.

Definition spec_xp_for_level (level : Z) : Z := spec_cumulative_xp (Z.to_nat level).

(** [current_level = largest L such that total_xp >= cumulative_xp_for_level(L)]. *)
Definition is_level_for (total level : Z) : Prop :=
  calculate_xp_for_level level <= total /\
  forall l, calculate_xp_for_level l <= total -> l <= level.

(** The spec's dwell times: easy 15 min, medium 1 h, hard 4 h, expert 1 day,
    1 h otherwise, in microseconds. *)
Definition spec_min_dwell (d : string) : Z :=
  let minutes :=
    if String.eqb d "easy" then 15
    else if String.eqb d "medium" then 60
    else if String.eqb d "hard" then 4 * 60
    else if String.eqb d "expert" then 24 * 60
    else 60 in
  minutes * 60 * 1000000.

(** Concrete inputs: a week of completions and a fresh user. *)
Definition easy_task (i : Z) : Task :=
  mkTask i "easy" "medium" 1 "Development" (lit 1 1) true None None 0.

Definition fresh_db : DB := mkDB fresh_profile [] [] [] [].

(** Seven completions on seven consecutive days. *)
Definition seven_days : list (Task * Z) :=
  map (fun i => (easy_task i, (100 + i) * us_per_day + 1000)) [0; 1; 2; 3; 4; 5; 6].

(** Seven tasks of one week, each completed with two of its three days
    left. *)
Definition early_task (i : Z) : Task :=
  mkTask i "easy" "medium" 1 "Development" (lit 1 1) true
    (Some ((1002 + i) * us_per_day)) (Some ((1000 + i) * us_per_day)) ((999 + i) * us_per_day).

Definition early_week_db : DB := mkDB fresh_profile [] [] [] (map early_task [0; 1; 2; 3; 4; 5; 6]).

(** ** Derived quantities of the models (models.py) *)

(** [a / b] on two Python ints: the correctly rounded quotient of the
    exact integers (not of their float conversions), [-0.0] for a zero
    numerator over a negative divisor, [ZeroDivisionError] for [b = 0] and
    [OverflowError] when the quotient is too large for a float. *)
Definition int_truediv (a b : Z) : res pyfloat :=
  if b =? 0 then Err ZeroDivisionError else
  match a with
  | Z0 => Ok (S754_zero (b <? 0))
  | _ =>
      let '(mz, ez, lz) := SFdiv_core_binary prec emax (Z.abs a) 0 (Z.abs b) 0 in
      match binary_round_aux prec emax (xorb (a <? 0) (b <? 0)) mz ez lz with
      | S754_infinity _ => Err OverflowError
      | r => Ok r
      end
  end.

(** The properties of [ProgressProfile]. *)
Definition xp_for_current_level (p : Profile) : Z := calculate_xp_for_level (current_level p).

Definition xp_for_next_level (p : Profile) : Z := calculate_xp_for_level (current_level p + 1).

Definition xp_progress_in_current_level (p : Profile) : Z := total_xp p - xp_for_current_level p.

Definition progress_percentage (p : Profile) : res pyfloat :=
  let xp_needed_for_level_segment := xp_for_next_level p - xp_for_current_level p in
  if xp_needed_for_level_segment <=? 0 then Ok (float_of_Z 100) else
  let* q := int_truediv (xp_progress_in_current_level p) xp_needed_for_level_segment in
  Ok (fmul q (float_of_Z 100)).

Definition xp_needed_for_next_level (p : Profile) : Z := xp_for_next_level p - total_xp p.

Definition punctuality_rate (p : Profile) : res Z :=
  let total_timed_tasks :=
    total_early_completions p + total_on_time_completions p + total_late_completions p in
  if total_timed_tasks =? 0 then Ok 100 else
  let* q := int_truediv (total_early_completions p + total_on_time_completions p) total_timed_tasks in
  py_int (fmul q (float_of_Z 100)).

(** The properties of [WeeklyReview]. *)
Definition completion_rate (r : WeeklyReview) : res Z :=
  let total_timed_tasks := early_completions r + on_time_completions r + late_completions r in
  if total_timed_tasks =? 0 then Ok 0 else
  let* q := int_truediv (early_completions r + on_time_completions r) total_timed_tasks in
  py_int (fmul q (float_of_Z 100)).

Definition punctuality_score (r : WeeklyReview) : res Z :=
  let total_timed_tasks := early_completions r + on_time_completions r + late_completions r in
  if total_timed_tasks =? 0 then Ok 100 else
  let* q := int_truediv (early_completions r * 2 + on_time_completions r) (total_timed_tasks * 2) in
  py_int (fmul q (float_of_Z 100)).

Definition performance_grade (r : WeeklyReview) : string :=
  let s := performance_score r in
  if 90 <=? s then "A+"
  else if 85 <=? s then "A"
  else if 80 <=? s then "B+"
  else if 75 <=? s then "B"
  else if 70 <=? s then "C+"
  else if 65 <=? s then "C"
  else if 60 <=? s then "D"
  else "F".

(** The grades from worst to best, to compare two of them. *)
Definition grade_order : list string := ["F"; "D"; "C"; "C+"; "B"; "B+"; "A"; "A+"]%string.

Fixpoint index_of (s : string) (l : list string) : nat :=
  match l with
  | [] => O
  | x :: r => if String.eqb s x then O else S (index_of s r)
  end.

Definition grade_rank (g : string) : nat := index_of g grade_order.

(** ** Further code of the engine, the models and the services *)

(** The (modifier, status) pairs of [get_timing_modifier] and
    [get_timing_status] (gamification.py), branch by branch. *)

Definition timing_pairs : list (pyfloat * string) :=
  [(lit 10 10, "no deadline"); (lit 13 10, "completed early - bonus XP!");
   (lit 115 100, "good timing - bonus XP!"); (lit 10 10, "completed on time");
   (lit 8 10, "slightly late - XP penalty"); (lit 6 10, "late - XP penalty");
   (lit 4 10, "very late - major XP penalty")]%string.

(** The store only grows: the ids of unlocked achievements, and the
    relation between a store and a later one in which achievements and
    tasks are unchanged, the ledger and the unlocked rows only extended
    at their end, and no achievement unlocked twice. *)

Definition unlocked_ids (db : DB) : list Z := map fst (user_achievements db).

Definition db_extends (db db' : DB) : Prop :=
  achievements db' = achievements db /\ tasks db' = tasks db /\
  (exists l, xp_logs db' = xp_logs db ++ l) /\
  (exists u, user_achievements db' = user_achievements db ++ u) /\
  (NoDup (unlocked_ids db) -> NoDup (unlocked_ids db')).

(** [Task.complete_task] (models.py): [save()] replaces the row with
    the same id (or adds it), then [award_task_xp] on a fresh engine
    whose profile is the stored one. *)

Fixpoint replace_task (t : Task) (ts : list Task) : list Task :=
  match ts with
  | [] => [t]
  | x :: r => if task_id x =? task_id t then t :: r else x :: replace_task t r
  end.

Definition save_task (t : Task) (db : DB) : DB :=
  mkDB (db_profile db) (xp_logs db) (achievements db) (user_achievements db) (replace_task t (tasks db)).

Definition mark_completed (t : Task) (now : Z) : Task :=
  mkTask (task_id t) (difficulty t) (priority t) (category_id t) (category_name t)
    (xp_multiplier t) true (due_date t) (Some now) (created_at t).

Definition complete_task (fuel : nat) (t : Task) (now : Z) (db : DB) : res (bool * string * Task * DB) :=
  if is_completed t then Ok (false, "Task is already completed"%string, t, db) else
  let engine_profile := db_profile db in
  let '(can_complete, message) := can_complete_task t now in
  if negb can_complete then Ok (false, message, t, db) else
  let t := mark_completed t now in
  let db := save_task t db in
  let* '(_, xp_message, _, db) := award_task_xp fuel t now engine_profile db in
  Ok (true, xp_message, t, db).

(** [UserMission.progress_percentage], [update_progress],
    [complete_mission] and [fail_mission] (models.py).  The store holds the
    mission rows and the created notifications (kind, mission id).
    [complete_mission] calls [engine.award_mission_xp], which
    [GamificationEngine] does not define: [AttributeError] after the
    save. *)

Definition mission_progress_percentage (m : UserMission) : res Z :=
  if mission_target_value m <=? 0 then Ok 100 else
  let* q := int_truediv (mission_current_progress m) (mission_target_value m) in
  let* v := py_int (fmul q (float_of_Z 100)) in
  Ok (Z.min 100 v).

Record MissionStore := mkMissionStore {
  mission_rows : list UserMission;
  notifications : list (string * Z)
}.

Definition set_status (m : UserMission) (s : string) : UserMission :=
  mkUserMission (mission_id m) (mission_user_id m) (template_mission_type m)
    (mission_target_value m) (mission_current_progress m) s (mission_xp_reward m)
    (mission_completed_at m).

Fixpoint replace_mission (m : UserMission) (rows : list UserMission) : list UserMission :=
  match rows with
  | [] => [m]
  | x :: r => if mission_id x =? mission_id m then m :: r else x :: replace_mission m r
  end.

Definition save_mission (m : UserMission) (st : MissionStore) : MissionStore :=
  mkMissionStore (replace_mission m (mission_rows st)) (notifications st).

Definition notify (kind : string) (m : UserMission) (st : MissionStore) : MissionStore :=
  mkMissionStore (mission_rows st) (notifications st ++ [(kind, mission_id m)]).

Definition is_active (m : UserMission) : bool := String.eqb (mission_status m) "active".

Definition complete_mission (now : Z) (m : UserMission) (st : MissionStore)
  : res bool * UserMission * MissionStore :=
  if negb (is_active m) then (Ok false, m, st) else
  let m := set_status m "completed" in
  let m := set_progress m (mission_current_progress m) (Some now) in
  let st := save_mission m st in
  (Err (AttributeError "award_mission_xp"), m, st).

Definition update_progress (now : Z) (increment : Z) (m : UserMission) (st : MissionStore)
  : res bool * UserMission * MissionStore :=
  if negb (is_active m) then (Ok false, m, st) else
  let m := set_progress m (mission_current_progress m + increment) (mission_completed_at m) in
  if mission_target_value m <=? mission_current_progress m then
    let '(r, m, st) := complete_mission now m st in
    (let* _ := r in Ok true, m, st)
  else (Ok true, m, save_mission m st).

Definition fail_mission (m : UserMission) (st : MissionStore) : res bool * UserMission * MissionStore :=
  if negb (is_active m) then (Ok false, m, st) else
  let m := set_status m "failed" in
  let st := save_mission m st in
  (Ok true, m, notify "mission_failed" m st).

(** [MissionService.assign_daily_missions] and [get_user_missions]
    (gamification.py).  [has_profile] tells whether a profile row exists;
    [order_rows] is the [-assigned_date, -created_at] ordering, which is
    only reached once its field names resolve. *)

Definition assign_daily_missions (today user_id : Z) (has_profile : bool) (rows : list UserMission)
  : res (list UserMission) :=
  if negb has_profile then Ok [] else
  let* existing_missions :=
    usermission_filter [(["user_id"], VInt user_id); (["assigned_date"], VInt today);
                        (["mission_type"], VStr "daily")]%string rows in
  match existing_missions with
  | _ :: _ => Ok existing_missions
  | [] => Err (AttributeError "level")
  end.

Definition get_user_missions (order_rows : list UserMission -> list UserMission)
  (user_id : Z) (mission_type : option string) (rows : list UserMission) : res (list UserMission) :=
  let* queryset := usermission_filter [(["user_id"], VInt user_id)]%string rows in
  let* queryset :=
    match mission_type with
    | Some mt => if String.eqb mt "" then Ok queryset
                 else usermission_filter [(["mission_type"], VStr mt)]%string queryset
    | None => Ok queryset
    end in
  let* _ := resolves_usermission ["assigned_date"]%string in
  let* _ := resolves_usermission ["is_completed"]%string in
  Ok (order_rows queryset).

(** [SystemService.run_daily_maintenance]: the results dictionary.
    [rankings_outcome] is the outcome of [update_rankings('weekly')];
    [active_users] pairs each user id with whether it has a profile. *)

Record MaintenanceResults := mkMaintenanceResults {
  leaderboards_updated : bool;
  missions_assigned : Z;
  notifications_cleaned : Z;
  maintenance_error : option py_error;
  old_notifications_deleted : bool;
  last_maintenance_run_set : bool
}.

Fixpoint assign_loop (today : Z) (users : list (Z * bool)) (rows : list UserMission) (acc : Z)
  : Z * option py_error :=
  match users with
  | [] => (acc, None)
  | (uid, has_profile) :: r =>
      match assign_daily_missions today uid has_profile rows with
      | Ok missions => assign_loop today r rows (acc + Z.of_nat (List.length missions))
      | Err e => (acc, Some e)
      end
  end.

Definition run_daily_maintenance (rankings_outcome : res unit) (today : Z)
  (active_users : list (Z * bool)) (rows : list UserMission) (old_notifications : Z)
  : MaintenanceResults :=
  match rankings_outcome with
  | Err e => mkMaintenanceResults false 0 0 (Some e) false false
  | Ok _ =>
      match assign_loop today active_users rows 0 with
      | (n, Some e) => mkMaintenanceResults true n 0 (Some e) false false
      | (n, None) => mkMaintenanceResults true n old_notifications None true true
      end
  end.

(** [LeaderboardService._calculate_user_scores] and [update_rankings]
    (gamification.py).  [activity uid] is what the queries of the period
    return for user [uid]: the completed tasks, the XP earned and the
    profile, if any.  [sorted(..., reverse=True)] is stable: an element goes
    after the ones with a score at least its own. *)

Record UserActivity := mkUserActivity {
  period_tasks_completed : Z;
  period_xp_earned : Z;
  activity_profile : option Profile
}.

Record ScoreData := mkScoreData {
  total_score : Z;
  score_tasks_completed : Z;
  score_total_xp : Z;
  score_current_streak : Z;
  score_punctuality_rate : Z
}.

Definition score_of (a : UserActivity) : res ScoreData :=
  let* '(current_streak, punctuality_rate) :=
    match activity_profile a with
    | Some p => let* r := punctuality_rate p in Ok (current_streak p, r)
    | None => Ok (0, 100)
    end in
  let tasks_completed := period_tasks_completed a in
  let base_score := tasks_completed * 10 + period_xp_earned a in
  let streak_bonus := current_streak * 5 in
  let punctuality_bonus := punctuality_rate * 2 in
  Ok (mkScoreData (base_score + streak_bonus + punctuality_bonus) tasks_completed
        (period_xp_earned a) current_streak punctuality_rate).

Fixpoint dict_set {A} (k : Z) (v : A) (d : list (Z * A)) : list (Z * A) :=
  match d with
  | [] => [(k, v)]
  | (k', v') :: r => if k =? k' then (k, v) :: r else (k', v') :: dict_set k v r
  end.

Fixpoint insert_desc (x : Z * ScoreData) (l : list (Z * ScoreData)) : list (Z * ScoreData) :=
  match l with
  | [] => [x]
  | y :: r => if total_score (snd y) <? total_score (snd x) then x :: l else y :: insert_desc x r
  end.

Definition sort_desc (l : list (Z * ScoreData)) : list (Z * ScoreData) :=
  fold_left (fun acc x => insert_desc x acc) l [].

Fixpoint scores_loop (activity : Z -> UserActivity) (users : list Z) (d : list (Z * ScoreData))
  : res (list (Z * ScoreData)) :=
  match users with
  | [] => Ok d
  | uid :: r => let* s := score_of (activity uid) in scores_loop activity r (dict_set uid s d)
  end.

Definition calculate_user_scores (activity : Z -> UserActivity) (active_users : list Z)
  : res (list (Z * ScoreData)) :=
  let* user_scores := scores_loop activity active_users [] in
  Ok (sort_desc user_scores).

Definition rank_entries (scores : list (Z * ScoreData)) : list (Z * Z * Z) :=
  map (fun '(rank, (uid, s)) => (uid, rank, total_score s))
      (combine (py_range 1 (Z.of_nat (List.length scores) + 1)) scores).

Definition update_rankings (activity : Z -> UserActivity) (active_users : list Z)
  : res (list (Z * Z * Z)) :=
  let* user_scores := calculate_user_scores activity active_users in
  Ok (rank_entries user_scores).

Definition score_ge (a b : Z * ScoreData) : Prop := total_score (snd b) <= total_score (snd a).

(** Python's [int(str)] on ASCII text: surrounding whitespace, an
    optional sign, decimal digits with single underscores between them. *)

Definition is_py_space (c : ascii) : bool :=
  let n := nat_of_ascii c in
  ((9 <=? n) && (n <=? 13))%nat || ((28 <=? n) && (n <=? 32))%nat.

Definition digit_val (c : ascii) : option Z :=
  let n := nat_of_ascii c in
  if ((48 <=? n) && (n <=? 57))%nat then Some (Z.of_nat n - 48) else None.

Fixpoint parse_digits (l : list ascii) (acc : Z) : Z * list ascii :=
  match l with
  | [] => (acc, [])
  | c :: r =>
      match digit_val c with
      | Some d => parse_digits r (acc * 10 + d)
      | None =>
          if Ascii.eqb c "_"%char then
            match r with
            | c2 :: r2 =>
                match digit_val c2 with
                | Some d => parse_digits r2 (acc * 10 + d)
                | None => (acc, l)
                end
            | [] => (acc, l)
            end
          else (acc, l)
      end
  end.

Fixpoint drop_spaces (l : list ascii) : list ascii :=
  match l with
  | c :: r => if is_py_space c then drop_spaces r else l
  | [] => []
  end.

Definition py_int_of_string (s : string) : res Z :=
  let l := drop_spaces (list_ascii_of_string s) in
  let '(neg, l) :=
    match l with
    | c :: r => if Ascii.eqb c "-"%char then (true, r)
                else if Ascii.eqb c "+"%char then (false, r) else (false, l)
    | [] => (false, l)
    end in
  match l with
  | c :: r =>
      match digit_val c with
      | Some d =>
          let '(n, rest) := parse_digits r d in
          if forallb is_py_space rest then Ok (if neg then - n else n) else Err ValueError
      | None => Err ValueError
      end
  | [] => Err ValueError
  end.

Definition digit_step (a : Z) (c : ascii) : Z :=
  match digit_val c with Some d => a * 10 + d | None => a end.

(** [SystemSetting.get_value] (models.py), [SystemService.get_setting]
    and [set_setting] (gamification.py); [str(value)] as [py_str].  The
    float and JSON parsers are parameters of the section. *)

Record SystemSetting := mkSystemSetting {
  setting_key : string;
  setting_value : string;
  setting_description : string;
  setting_data_type : string
}.

Inductive py_value := PyInt (z : Z) | PyBool (b : bool) | PyStr (s : string).

Definition py_str (v : py_value) : string :=
  match v with
  | PyInt z => str_of_Z z
  | PyBool true => "True"
  | PyBool false => "False"
  | PyStr s => s
  end.

Definition ascii_lower (c : ascii) : ascii :=
  let n := nat_of_ascii c in
  if ((65 <=? n) && (n <=? 90))%nat then ascii_of_nat (n + 32) else c.

Definition str_lower (s : string) : string :=
  string_of_list_ascii (map ascii_lower (list_ascii_of_string s)).

Section Settings.

Variable json : Type.
Variable py_float_of_string : string -> res pyfloat.
Variable json_loads : string -> res json.

Inductive setting_result :=
| RInt (z : Z) | RFloat (f : pyfloat) | RBool (b : bool) | RJson (j : json) | RStr (s : string).

Definition get_value (s : SystemSetting) : res setting_result :=
  let dt := setting_data_type s in
  if String.eqb dt "integer" then let* z := py_int_of_string (setting_value s) in Ok (RInt z)
  else if String.eqb dt "float" then let* f := py_float_of_string (setting_value s) in Ok (RFloat f)
  else if String.eqb dt "boolean" then
    Ok (RBool (existsb (String.eqb (str_lower (setting_value s))) ["true"; "1"; "yes"; "on"]%string))
  else if String.eqb dt "json" then let* j := json_loads (setting_value s) in Ok (RJson j)
  else Ok (RStr (setting_value s)).

Definition find_setting (key : string) (st : list SystemSetting) : option SystemSetting :=
  find (fun s => String.eqb (setting_key s) key) st.

Definition get_setting (key : string) (default : option setting_result) (st : list SystemSetting)
  : res (option setting_result) :=
  match find_setting key st with
  | Some s => let* v := get_value s in Ok (Some v)
  | None => Ok default
  end.

Fixpoint update_setting (key : string) (value description : string) (st : list SystemSetting)
  : list SystemSetting :=
  match st with
  | [] => []
  | s :: r =>
      if String.eqb (setting_key s) key
      then mkSystemSetting key value description (setting_data_type s) :: r
      else s :: update_setting key value description r
  end.

Definition set_setting (key : string) (value : py_value) (description : string) (st : list SystemSetting)
  : list SystemSetting :=
  match find_setting key st with
  | Some _ => update_setting key (py_str value) description st
  | None => st ++ [mkSystemSetting key (py_str value) description "string"]
  end.

End Settings.

(** [GamificationEngine.generate_suggestions]: the suggestion texts as
    the source has them (UTF-8 bytes read as Latin-1 characters). *)

Definition sugg_few_tasks : string := "ðŸ“ˆ Try to complete at least 5 tasks per week to maintain good productivity.".

Definition sugg_many_tasks : string := "ðŸŒŸ Excellent productivity! You completed a high number of tasks this week.".

Definition sugg_late_deadlines : string := "â° Consider setting more realistic deadlines - 30%+ of your tasks were completed late.".

Definition sugg_late_chunks : string := "ðŸ’¡ Try breaking larger tasks into smaller, more manageable chunks.".

Definition sugg_early_management : string := "ðŸš€ Great time management! You're completing tasks early consistently.".

Definition sugg_early_challenge : string := "ðŸŽ¯ Consider taking on more challenging tasks to maximize your XP potential.".

Definition sugg_perfect_timing : string := "â­ Perfect timing! No late completions this week - keep it up!".

Definition sugg_keep_up : string := "âœ¨ Keep up the good work! Your task management is on track.".

Definition sugg_most_category (name : string) : string := ("ðŸ”¥ You're crushing it in " ++ name ++ "! Consider leveraging this momentum.")%string.

Definition sugg_least_category (name : string) : string := ("ðŸ“š Consider focusing more on " ++ name ++ " tasks for better balance.")%string.

Definition category_count (e : string * (Z * Z)) : Z := fst (snd e).

Definition py_max_by_count (l : list (string * (Z * Z))) : option (string * (Z * Z)) :=
  match l with
  | [] => None
  | x :: r => Some (fold_left (fun best y => if category_count best <? category_count y then y else best) r x)
  end.

Definition py_min_by_count (l : list (string * (Z * Z))) : option (string * (Z * Z)) :=
  match l with
  | [] => None
  | x :: r => Some (fold_left (fun best y => if category_count y <? category_count best then y else best) r x)
  end.

(** The three groups of [generate_suggestions], in the order the source
    appends them. *)
Definition productivity_suggestions (total_tasks : Z) : list string :=
  if total_tasks <? 5 then [sugg_few_tasks]
  else if 20 <=? total_tasks then [sugg_many_tasks] else [].

Definition timing_suggestions (early_tasks on_time_tasks late_tasks : Z) : res (list string) :=
  let total_timed_tasks := early_tasks + on_time_tasks + late_tasks in
  if 0 <? total_timed_tasks then
    let* lq := int_truediv late_tasks total_timed_tasks in
    let* eq := int_truediv early_tasks total_timed_tasks in
    let late_percentage := fmul lq (float_of_Z 100) in
    let early_percentage := fmul eq (float_of_Z 100) in
    Ok (if flt (float_of_Z 30) late_percentage then [sugg_late_deadlines; sugg_late_chunks]
        else if flt (float_of_Z 60) early_percentage then [sugg_early_management; sugg_early_challenge]
        else if is_zero late_percentage && flt (float_of_Z 0) early_percentage then [sugg_perfect_timing]
        else [])
  else Ok [].

Definition category_suggestions (category_performance : list (string * (Z * Z))) : list string :=
  match py_max_by_count category_performance, py_min_by_count category_performance with
  | Some most, Some least =>
      (if 3 <=? category_count most then [sugg_most_category (fst most)] else []) ++
      (if (1 <? List.length category_performance)%nat && (category_count least =? 1)
       then [sugg_least_category (fst least)] else [])
  | _, _ => []
  end.

Definition generate_suggestions (total_tasks early_tasks on_time_tasks late_tasks : Z)
  (category_performance : list (string * (Z * Z))) : res (list string) :=
  let* timing := timing_suggestions early_tasks on_time_tasks late_tasks in
  let suggestions := productivity_suggestions total_tasks ++ timing ++
                     category_suggestions category_performance in
  Ok (match suggestions with [] => [sugg_keep_up] | _ => suggestions end).

(** [Notification.mark_as_read], [archive] and [is_expired]
    (models.py). *)

Record Notification := mkNotification {
  notification_is_read : bool;
  notification_read_at : option Z;
  notification_is_archived : bool;
  notification_expires_at : option Z
}.

Definition mark_as_read (now : Z) (n : Notification) : Notification :=
  if negb (notification_is_read n)
  then mkNotification true (Some now) (notification_is_archived n) (notification_expires_at n)
  else n.

Definition archive (n : Notification) : Notification :=
  mkNotification (notification_is_read n) (notification_read_at n) true (notification_expires_at n).

Definition notification_is_expired (now : Z) (n : Notification) : bool :=
  match notification_expires_at n with
  | None => false
  | Some e => e <? now
  end.

(** A sequence of calls on one notification: [mark_as_read()] at a time,
    or [archive()]. *)
Inductive NotificationOp := OpMarkAsRead (now : Z) | OpArchive.

Definition apply_notification_op (n : Notification) (op : NotificationOp) : Notification :=
  match op with
  | OpMarkAsRead now => mark_as_read now n
  | OpArchive => archive n
  end.

Definition run_notification_ops (ops : list NotificationOp) (n : Notification) : Notification :=
  fold_left apply_notification_op ops n.

(** The time of the first [mark_as_read] call of a sequence. *)
Fixpoint first_read_time (ops : list NotificationOp) : option Z :=
  match ops with
  | [] => None
  | OpMarkAsRead now :: _ => Some now
  | OpArchive :: r => first_read_time r
  end.

Definition has_archive (ops : list NotificationOp) : bool :=
  existsb (fun op => match op with OpArchive => true | _ => false end) ops.

(** Concrete inputs. *)

Definition two_achievements_db : DB :=
  mkDB fresh_profile [] [mkAchievement 1 "task_count" 1 50; mkAchievement 2 "level" 2 30] []
    (map easy_task [0; 1; 2; 3; 4; 5; 6]).

Definition open_task : Task :=
  mkTask 1 "easy" "medium" 1 "Development" (lit 1 1) false None None 0.

Definition active_mission : UserMission := mkUserMission 1 1 "daily" 3 0 "active" 50 None.

Definition empty_store : MissionStore := mkMissionStore [] [].

Definition sample_activity (uid : Z) : UserActivity := mkUserActivity uid (uid * 3) None.

(** * Theorems *)

(** ** Arithmetic of the level curve *)

Lemma fold_add_shift (l : list Z) (a : Z) :
  fold_left Z.add l a = a + fold_left Z.add l 0.
Proof.
  revert a; induction l as [|x r IH]; intro a; simpl; [lia|].
  rewrite (IH (a + x)), (IH x); lia.
Qed.

Lemma calc_xp_step (n : nat) :
  calculate_xp_for_level (Z.of_nat n + 2) =
  calculate_xp_for_level (Z.of_nat n + 1) + 100 * (Z.of_nat n + 2).
Proof.
  unfold calculate_xp_for_level, py_range.
  destruct n as [|n].
  - reflexivity.
  - assert (E1 : (Z.of_nat (S n) + 2 <=? 1) = false) by (apply Z.leb_gt; lia).
    assert (E2 : (Z.of_nat (S n) + 1 <=? 1) = false) by (apply Z.leb_gt; lia).
    rewrite E1, E2.
    replace (Z.to_nat (Z.of_nat (S n) + 2 + 1 - 2)) with (S (S n)) by lia.
    replace (Z.to_nat (Z.of_nat (S n) + 1 + 1 - 2)) with (S n) by lia.
    rewrite (seq_S (S n)), map_app, map_app, fold_left_app.
    cbn [map fold_left]. rewrite Nat.add_0_l. lia.
Qed.

Lemma calc_xp_closed (n : nat) :
  calculate_xp_for_level (Z.of_nat n + 1) = 50 * (Z.of_nat n + 1) * (Z.of_nat n + 2) - 100.
Proof.
  induction n as [|n IH]; [reflexivity|].
  replace (Z.of_nat (S n) + 1) with (Z.of_nat n + 2) by lia.
  rewrite calc_xp_step, IH; lia.
Qed.

Lemma calc_xp_low (l : Z) : l <= 1 -> calculate_xp_for_level l = 0.
Proof. intro H; unfold calculate_xp_for_level; rewrite (proj2 (Z.leb_le _ _) H); reflexivity. Qed.

Lemma calc_xp_formula (l : Z) : 1 <= l -> calculate_xp_for_level l = 50 * l * (l + 1) - 100.
Proof.
  intro H. replace l with (Z.of_nat (Z.to_nat (l - 1)) + 1) at 1 by lia.
  rewrite calc_xp_closed. nia.
Qed.

Lemma calc_xp_nonneg (l : Z) : 0 <= calculate_xp_for_level l.
Proof.
  destruct (Z.le_gt_cases l 1) as [H|H]; [rewrite calc_xp_low; lia|].
  rewrite calc_xp_formula by lia. nia.
Qed.

Lemma calc_xp_mono (a b : Z) : a <= b -> calculate_xp_for_level a <= calculate_xp_for_level b.
Proof.
  intro H. destruct (Z.le_gt_cases a 1) as [Ha|Ha].
  - rewrite (calc_xp_low a Ha). apply calc_xp_nonneg.
  - rewrite !calc_xp_formula by lia. nia.
Qed.

Lemma calc_xp_ge (l : Z) : 2 <= l -> l <= calculate_xp_for_level l.
Proof. intro H; rewrite calc_xp_formula by lia; nia. Qed.

Lemma level_loop_spec (n : nat) (total l : Z) :
  1 <= l -> calculate_xp_for_level l <= total -> total < Z.of_nat n + l ->
  let r := level_loop n total l in
  1 <= r /\ calculate_xp_for_level r <= total /\ total < calculate_xp_for_level (r + 1).
Proof.
  revert l; induction n as [|f IH]; intros l H1 H2 H3; simpl.
  - split; [lia|split; [lia|]]. pose proof (calc_xp_ge (l + 1)); lia.
  - destruct (calculate_xp_for_level (l + 1) <=? total) eqn:E.
    + apply Z.leb_le in E. apply IH; lia.
    + apply Z.leb_gt in E. lia.
Qed.

Lemma level_of_spec (total : Z) :
  0 <= total ->
  1 <= level_of total /\ calculate_xp_for_level (level_of total) <= total /\
  total < calculate_xp_for_level (level_of total + 1).
Proof.
  intro H. unfold level_of. apply level_loop_spec; [lia| |lia].
  rewrite calc_xp_low; lia.
Qed.

Lemma level_of_largest (total : Z) : 0 <= total -> is_level_for total (level_of total).
Proof.
  intro H. destruct (level_of_spec total H) as (H1 & H2 & H3).
  split; [exact H2|]. intros l Hl.
  destruct (Z.le_gt_cases l (level_of total)) as [|Hgt]; [assumption|].
  pose proof (calc_xp_mono (level_of total + 1) l ltac:(lia)). lia.
Qed.

Lemma spec_cumulative_step (n : nat) :
  spec_cumulative_xp (S (S n)) = spec_cumulative_xp (S n) + 100 * (Z.of_nat n + 2).
Proof. change (spec_cumulative_xp (S (S n))) with (spec_cumulative_xp (S n) + 100 * Z.of_nat (S (S n))). lia. Qed.

Lemma calc_xp_refines_spec (level : Z) : calculate_xp_for_level level = spec_xp_for_level level.
Proof.
  unfold spec_xp_for_level.
  destruct (Z.le_gt_cases level 1) as [H|H].
  - rewrite calc_xp_low by exact H.
    destruct (Z.to_nat level) as [|[|k]] eqn:E; [reflexivity|reflexivity|lia].
  - replace level with (Z.of_nat (Z.to_nat (level - 2)) + 2) by lia.
    replace (Z.to_nat (Z.of_nat (Z.to_nat (level - 2)) + 2)) with (S (S (Z.to_nat (level - 2)))) by lia.
    induction (Z.to_nat (level - 2)) as [|k IH]; [reflexivity|].
    rewrite calc_xp_step, spec_cumulative_step.
    replace (Z.of_nat (S k) + 1) with (Z.of_nat k + 2) by lia.
    rewrite IH. lia.
Qed.

(** ** C5 *)

(** C5 (counterexample): the claim's value [calculate_xp_for_level(3) = 600]
    is not the code's, which is 200 + 300 = 500. *)
Lemma C5_level_3_is_not_600 : calculate_xp_for_level 3 <> 600.
Proof. vm_compute. discriminate. Qed.

(** C5 (amended): for every level >= 1 (in fact every level),
    [calculate_xp_for_level(level)] is [sum(i*100 for i in 2..level)],
    i.e. 50*level*(level+1) - 100; the first values are 0, 200, 500, 900. *)
Theorem C5_calculate_xp_for_level (level : Z) (H : 1 <= level) :
  calculate_xp_for_level level = spec_xp_for_level level /\
  calculate_xp_for_level level = 50 * level * (level + 1) - 100 /\
  calculate_xp_for_level 1 = 0 /\ calculate_xp_for_level 2 = 200 /\
  calculate_xp_for_level 3 = 500 /\ calculate_xp_for_level 4 = 900.
Proof.
  split; [apply calc_xp_refines_spec|].
  split; [apply calc_xp_formula; exact H|].
  repeat split; vm_compute; reflexivity.
Qed.

Lemma C5_calculate_xp_for_level_witness :
  1 <= 7 /\ calculate_xp_for_level 7 = spec_xp_for_level 7 /\
  calculate_xp_for_level 7 = 50 * 7 * (7 + 1) - 100 /\
  calculate_xp_for_level 1 = 0 /\ calculate_xp_for_level 2 = 200 /\
  calculate_xp_for_level 3 = 500 /\ calculate_xp_for_level 4 = 900.
Proof. split; [lia | apply (C5_calculate_xp_for_level 7); lia]. Defined.

(** ** C1 *)

(** C1 (code bug, a divergence): from a fresh user, seven completions on
    seven consecutive days.  The seventh day's streak bonus (35) is
    logged twice, once as the [streak_bonus] entry of [update_streak] and
    again inside the [task_complete] entry, but added to [total_xp] only
    once: the cached total is 112 while the ledger sums to 147. *)
Theorem C1_streak_bonus_logged_twice :
  exists p db,
    award_sequence 8 seven_days fresh_profile fresh_db = Ok (p, db) /\
    total_xp p = 112 /\ total_xp (db_profile db) = 112 /\ ledger_total db = 147.
Proof.
  vm_compute. do 2 eexists. split; [reflexivity|]. vm_compute. repeat split.
Qed.

(** ** C2 *)

Lemma min_time_requirement_spec (d : string) : min_time_requirement d = spec_min_dwell d.
Proof.
  unfold min_time_requirement, spec_min_dwell.
  destruct (String.eqb d "easy"); [reflexivity|].
  destruct (String.eqb d "medium"); [reflexivity|].
  destruct (String.eqb d "hard"); [reflexivity|].
  destruct (String.eqb d "expert"); reflexivity.
Qed.

(** C2 (counterexample): a task without a due date, created at the very
    instant of the check (easy: 15 minutes are required), is completable. *)
Lemma C2_no_due_date_skips_dwell :
  can_complete_task (mkTask 1 "easy" "medium" 1 "Development" (lit 1 1) false None None 0) 0
  = (true, "Task can be completed"%string).
Proof. reflexivity. Qed.

(** C2 (amended): a task WITH a due date is refused exactly when the time
    since [created_at] is below the dwell time of its difficulty (easy 15
    min, medium 1 h, hard 4 h, expert 1 day, 1 h otherwise), with the
    message "Task created too recently. Wait <h> hours and <m> minutes
    (or <m> minutes) before completing this <difficulty> task.", and is
    accepted otherwise; a task without a due date is always accepted. *)
Theorem C2_can_complete_task (t : Task) (now : Z) :
  (due_date t = None -> can_complete_task t now = (true, "Task can be completed"%string)) /\
  (due_date t <> None ->
     let elapsed := now - created_at t in
     (elapsed < spec_min_dwell (difficulty t) ->
        can_complete_task t now =
        (false, ("Task created too recently. Wait "
                 ++ wait_time (spec_min_dwell (difficulty t) - elapsed)
                 ++ " before completing this " ++ difficulty t ++ " task.")%string)) /\
     (spec_min_dwell (difficulty t) <= elapsed ->
        can_complete_task t now = (true, "Task can be completed"%string))).
Proof.
  unfold can_complete_task. rewrite min_time_requirement_spec.
  destruct (due_date t) as [due|]; split; intro H; try congruence.
  cbv zeta. split; intro H'.
  - rewrite (proj2 (Z.ltb_lt _ _) H'). reflexivity.
  - rewrite (proj2 (Z.ltb_ge _ _) H'). reflexivity.
Qed.

(** ** C3 *)

Lemma total_seconds_zero : total_seconds 0 = S754_zero false.
Proof. vm_compute. reflexivity. Qed.

(** C3 (counterexample): a task due at its creation instant makes
    [get_timing_modifier] raise [ZeroDivisionError] instead of returning
    1.0. *)
Lemma C3_due_equals_created_raises :
  get_timing_modifier (mkTask 1 "easy" "medium" 1 "Development" (lit 1 1) false (Some 0) None 0) 0
  = Err ZeroDivisionError.
Proof. vm_compute. reflexivity. Qed.

(** C3 (amended): no guard exists: for a task whose [due_date] equals its
    [created_at], [get_timing_modifier] and [get_timing_status] raise
    [ZeroDivisionError] (division of [time_to_due] by a zero
    [total_time]), and [calculate_task_xp] returns no XP value. *)
Theorem C3_zero_duration_raises (t : Task) (now : Z)
  (H : due_date t = Some (created_at t)) :
  get_timing_modifier t now = Err ZeroDivisionError /\
  get_timing_status t now = Err ZeroDivisionError /\
  (forall xp, calculate_task_xp t now <> Ok xp).
Proof.
  assert (R : time_remaining_ratio t (created_at t) now = Err ZeroDivisionError).
  { unfold time_remaining_ratio. rewrite Z.sub_diag, total_seconds_zero. reflexivity. }
  assert (M : get_timing_modifier t now = Err ZeroDivisionError).
  { unfold get_timing_modifier. rewrite H, R. reflexivity. }
  split; [exact M|]. split.
  - unfold get_timing_status. rewrite H, R. reflexivity.
  - intros xp. unfold calculate_task_xp.
    destruct (mul_trunc (base_xp (difficulty t)) (xp_multiplier t)); [|discriminate].
    simpl. destruct (mul_trunc a (priority_bonus (priority t))); [|discriminate].
    simpl. rewrite M. discriminate.
Qed.

Lemma C3_zero_duration_raises_witness :
  let t := mkTask 1 "hard" "high" 1 "Development" (lit 1 1) false (Some 5) None 5 in
  due_date t = Some (created_at t) /\
  get_timing_modifier t 9 = Err ZeroDivisionError /\
  get_timing_status t 9 = Err ZeroDivisionError /\
  (forall xp, calculate_task_xp t 9 <> Ok xp).
Proof.
  cbv zeta. split; [reflexivity|].
  apply (C3_zero_duration_raises (mkTask 1 "hard" "high" 1 "Development" (lit 1 1) false (Some 5) None 5) 9).
  reflexivity.
Defined.

(** ** C9 *)

(** C9 (code bug, a divergence): seven tasks of the week, each completed
    with two thirds of its time left (all early).  The timing score is
    (7*2/7)*50 = 100 and the productivity score (7/7)*20 = 20, so the
    review's [performance_score] is 120, outside 0..100. *)
Theorem C9_score_above_100 :
  exists r, generate_weekly_review (1006 * us_per_day + 5) early_week_db = Ok r /\
    total_tasks r = 7 /\ early_completions r = 7 /\ performance_score r = 120.
Proof. vm_compute. eexists. split; [reflexivity|]. repeat split. Qed.

(** ** C10 *)

(** C10 (code bug): [update_mission_progress] filters [UserMission] on
    [is_completed], which is no field of the model (it has [status]), so
    the query raises [FieldError] for every input: no progress is recorded,
    no mission is completed or rewarded, nothing is returned. *)
Theorem C10_update_mission_progress_raises
  (fuel : nat) (now user_id : Z) (mission_type : string) (progress_value : Z)
  (rows : list UserMission) (db : DB) :
  update_mission_progress fuel now user_id mission_type progress_value rows db
  = Err (FieldError "is_completed").
Proof. reflexivity. Qed.

(** ** Streak recalculation *)

Lemma nondecreasing_tail (x : Z) (r : list Z) :
  nondecreasing (x :: r) = true -> nondecreasing r = true.
Proof.
  destruct r as [|y r]; [reflexivity|]; simpl.
  intro H; apply andb_prop in H; tauto.
Qed.

Lemma nondecreasing_forall (x : Z) (r : list Z) :
  nondecreasing (x :: r) = true -> Forall (Z.le x) r.
Proof.
  revert x; induction r as [|y r IH]; intros x H; [constructor|].
  simpl in H; apply andb_prop in H as [Hxy Hr]; apply Z.leb_le in Hxy.
  constructor; [lia|].
  specialize (IH y Hr); eapply Forall_impl; [|exact IH]; intros; simpl; lia.
Qed.

Lemma sorted_unique_head (r : list Z) (h : Z) :
  nondecreasing (h :: r) = true ->
  exists s, sorted_unique (h :: r) = h :: s /\ Forall (Z.lt h) s.
Proof.
  revert h; induction r as [|x r IH]; intros h H.
  - exists []; split; [reflexivity | constructor].
  - simpl in H; apply andb_prop in H as [Hhx Hr]; apply Z.leb_le in Hhx.
    destruct (IH x Hr) as [s [Es Fs]].
    change (sorted_unique (h :: x :: r)) with (insert_unique h (sorted_unique (x :: r))).
    rewrite Es; simpl.
    destruct (h <? x) eqn:Lt.
    + apply Z.ltb_lt in Lt; exists (x :: s); split; [reflexivity|].
      constructor; [exact Lt|]; eapply Forall_impl; [|exact Fs]; intros; simpl; lia.
    + apply Z.ltb_ge in Lt; assert (h = x) by lia; subst.
      rewrite Z.eqb_refl; exists s; split; [reflexivity | exact Fs].
Qed.

Lemma sorted_unique_dup (d : Z) (r : list Z) :
  nondecreasing (d :: d :: r) = true ->
  sorted_unique (d :: d :: r) = sorted_unique (d :: r).
Proof.
  intro H; apply nondecreasing_tail in H.
  destruct (sorted_unique_head r d H) as [s [Es _]].
  change (sorted_unique (d :: d :: r)) with (insert_unique d (sorted_unique (d :: r))).
  rewrite Es; simpl; rewrite Z.ltb_irrefl, Z.eqb_refl; reflexivity.
Qed.

Lemma sorted_unique_lt (d : Z) (r : list Z) :
  nondecreasing r = true -> Forall (Z.lt d) r ->
  sorted_unique (d :: r) = d :: sorted_unique r.
Proof.
  intros H F.
  change (sorted_unique (d :: r)) with (insert_unique d (sorted_unique r)).
  destruct r as [|h r]; [reflexivity|].
  destruct (sorted_unique_head r h H) as [s [Es _]].
  inversion F as [|? ? Hdh _]; subst.
  rewrite Es; simpl; apply Z.ltb_lt in Hdh; rewrite Hdh; reflexivity.
Qed.

Lemma streak_day_noop (s : Profile * DB) (d : Z) :
  last_activity_date (fst s) = Some d -> streak_day s d = s.
Proof.
  destruct s as [p db]; unfold streak_day, update_streak; simpl; intro H.
  rewrite H; simpl; rewrite Z.eqb_refl; reflexivity.
Qed.

Lemma streak_day_last (s : Profile * DB) (d : Z) :
  last_activity_date (fst (streak_day s d)) = Some d.
Proof.
  destruct s as [p db]; unfold streak_day, update_streak; simpl.
  destruct (opt_eqZ (last_activity_date p) d) eqn:E.
  - simpl; destruct (last_activity_date p) as [x|]; [|discriminate].
    simpl in E; apply Z.eqb_eq in E; subst; reflexivity.
  - match goal with |- context [if ?b then _ else _] => destruct b end; reflexivity.
Qed.

Lemma streak_day_same (s : Profile * DB) (d : Z) :
  streak_day (streak_day s d) d = streak_day s d.
Proof. apply streak_day_noop, streak_day_last. Qed.

Lemma streak_day_step (p : Profile) (db : DB) (d cur lr : Z) (last : option Z) :
  (forall l, last = Some l -> l < d) ->
  (last = None -> cur = 0 /\ lr = 0) ->
  current_streak p = cur -> last_activity_date p = last ->
  longest_streak p = Z.max lr cur ->
  let q := fst (streak_day (p, db) d) in
  let '(cur', lr', last') := recalc_step (cur, lr, last) d in
  current_streak q = cur' /\ last_activity_date q = last' /\
  longest_streak q = Z.max lr' cur' /\ last' = Some d.
Proof.
  intros Hlt Hnone Hc Hl Hlg; unfold streak_day, update_streak; simpl.
  assert (E : opt_eqZ (last_activity_date p) d = false).
  { rewrite Hl; destruct last as [l|]; [|reflexivity].
    specialize (Hlt l eq_refl); simpl; apply Z.eqb_neq; lia. }
  rewrite E, Hl.
  destruct last as [l|].
  - destruct (l =? d - 1) eqn:E1; destruct (d =? l + 1) eqn:E2;
      try (apply Z.eqb_eq in E1; apply Z.eqb_neq in E2; lia);
      try (apply Z.eqb_neq in E1; apply Z.eqb_eq in E2; lia).
    + match goal with |- context [if ?b then _ else _] => destruct b end;
        simpl; repeat split; try lia;
        destruct (longest_streak p <? current_streak p + 1) eqn:L;
        first [apply Z.ltb_lt in L | apply Z.ltb_ge in L]; lia.
    + match goal with |- context [if ?b then _ else _] => destruct b end;
        simpl; repeat split; try lia;
        destruct (longest_streak p <? 1) eqn:L;
        first [apply Z.ltb_lt in L | apply Z.ltb_ge in L]; lia.
  - destruct (Hnone eq_refl) as [-> ->].
    simpl; repeat split; try lia; rewrite Hlg; reflexivity.
Qed.

Lemma fold_recalc_last (ds : list Z) (st : Z * Z * option Z) :
  ds <> [] -> snd (fold_left recalc_step ds st) = Some (last ds 0).
Proof.
  revert st; induction ds as [|d r IH]; intros st H; [congruence|].
  destruct r as [|x r].
  - destruct st as [[c lg] l]; simpl; destruct l; [destruct (d =? z + 1)|]; reflexivity.
  - change (fold_left recalc_step (d :: x :: r) st)
      with (fold_left recalc_step (x :: r) (recalc_step st d)).
    rewrite IH by discriminate; reflexivity.
Qed.

Lemma streak_days_match (ds : list Z) :
  forall (s : Profile * DB) cur lr last,
  nondecreasing ds = true ->
  (forall l, last = Some l -> Forall (Z.lt l) ds) ->
  (last = None -> cur = 0 /\ lr = 0) ->
  current_streak (fst s) = cur -> last_activity_date (fst s) = last ->
  longest_streak (fst s) = Z.max lr cur ->
  let q := fst (fold_left streak_day ds s) in
  let '(cur', lr', last') := fold_left recalc_step (sorted_unique ds) (cur, lr, last) in
  current_streak q = cur' /\ last_activity_date q = last' /\
  longest_streak q = Z.max lr' cur'.
Proof.
  induction ds as [|d r IH]; intros s cur lr last Hs Hlt Hnone Hc Hl Hlg.
  - simpl; auto.
  - assert (Hr : nondecreasing r = true) by (eapply nondecreasing_tail; eauto).
    assert (Fr : Forall (Z.le d) r) by (apply nondecreasing_forall; exact Hs).
    assert (Hd : forall l, last = Some l -> l < d).
    { intros l E; specialize (Hlt l E); inversion Hlt; assumption. }
    destruct r as [|h r'] eqn:Er.
    + destruct s as [p db].
      pose proof (streak_day_step p db d cur lr last Hd Hnone Hc Hl Hlg) as Hst.
      change (fold_left streak_day [d] (p, db)) with (streak_day (p, db) d).
      change (sorted_unique [d]) with [d].
      change (fold_left recalc_step [d] (cur, lr, last)) with (recalc_step (cur, lr, last) d).
      destruct (recalc_step (cur, lr, last) d) as [[c' l'] o'].
      cbv beta iota zeta in Hst |- *; tauto.
    + assert (Hdh : d <= h) by (inversion Fr; assumption).
      destruct (Z.eq_dec d h) as [<-|Hne].
      * rewrite sorted_unique_dup by exact Hs.
        change (fold_left streak_day (d :: d :: r') s)
          with (fold_left streak_day r' (streak_day (streak_day s d) d)).
        rewrite streak_day_same.
        apply IH; try assumption; try reflexivity.
        intros l E; specialize (Hlt l E); inversion Hlt; assumption.
      * assert (Fdr : Forall (Z.lt d) (h :: r')).
        { constructor; [lia|].
          pose proof (nondecreasing_forall h r' Hr) as Fh.
          eapply Forall_impl; [|exact Fh]; intros; simpl; lia. }
        rewrite sorted_unique_lt by assumption.
        destruct s as [p db].
        pose proof (streak_day_step p db d cur lr last Hd Hnone Hc Hl Hlg) as Hst.
        change (fold_left streak_day (d :: h :: r') (p, db))
          with (fold_left streak_day (h :: r') (streak_day (p, db) d)).
        change (fold_left recalc_step (d :: sorted_unique (h :: r')) (cur, lr, last))
          with (fold_left recalc_step (sorted_unique (h :: r')) (recalc_step (cur, lr, last) d)).
        destruct (recalc_step (cur, lr, last) d) as [[c' l'] o'] eqn:Estep.
        destruct Hst as [H1 [H2 [H3 H4]]].
        apply IH; try assumption.
        -- intros l E; rewrite H4 in E; injection E as <-; exact Fdr.
        -- intro E; rewrite H4 in E; discriminate.
Qed.

Lemma nondecreasing_date_of (cs : list Z) :
  nondecreasing cs = true -> nondecreasing (map date_of cs) = true.
Proof.
  induction cs as [|x r IH]; [reflexivity|].
  destruct r as [|y r]; [reflexivity|].
  intro H; simpl in H; apply andb_prop in H as [Hxy Hr]; apply Z.leb_le in Hxy.
  change (nondecreasing (map date_of (x :: y :: r)))
    with ((date_of x <=? date_of y) && nondecreasing (map date_of (y :: r)))%bool.
  rewrite IH by exact Hr.
  assert (date_of x <= date_of y) by (unfold date_of, us_per_day; apply Z.div_le_mono; lia).
  apply andb_true_intro; split; [apply Z.leb_le; lia | reflexivity].
Qed.

Lemma insert_unique_nonempty (d : Z) (l : list Z) : insert_unique d l <> [].
Proof.
  destruct l as [|x r]; simpl; [discriminate|].
  destruct (d <? x); [discriminate|]; destruct (d =? x); discriminate.
Qed.

Lemma daily_updates_dates (cs : list Z) (p : Profile) (db : DB) :
  daily_updates cs p db = fold_left streak_day (map date_of cs) (p, db).
Proof.
  unfold daily_updates; generalize (p, db); induction cs as [|c r IH]; intro s; simpl; auto.
Qed.

(** C8: for every completion history in [completed_at] order, started
    from a profile with no streak, [recalculate_streak] leaves the same
    current_streak, longest_streak and last_activity_date as one
    [update_streak] call per completion on its day; in particular three
    consecutive days, at least one day without completion, then one day
    give current_streak 1 and longest_streak 3. *)
Theorem C8_recalculate_streak_refines_updates (cs : list Z) (p : Profile) (db : DB)
  (Hsorted : nondecreasing cs = true)
  (Hstart : current_streak p = 0 /\ longest_streak p = 0 /\ last_activity_date p = None) :
  (let '(_, q, _) := recalculate_streak cs p db in
   let q' := fst (daily_updates cs p db) in
   current_streak q = current_streak q' /\ longest_streak q = longest_streak q' /\
   last_activity_date q = last_activity_date q') /\
  (forall c0 c1 c2 c3,
   date_of c1 = date_of c0 + 1 -> date_of c2 = date_of c0 + 2 ->
   date_of c0 + 4 <= date_of c3 ->
   let '(_, q, _) := recalculate_streak [c0; c1; c2; c3] p db in
   current_streak q = 1 /\ longest_streak q = 3).
Proof.
  split.
  - destruct cs as [|c r].
    + simpl; destruct Hstart as [-> [-> ->]]; auto.
    + rewrite daily_updates_dates.
      set (ds := map date_of (c :: r)).
      assert (Hds : nondecreasing ds = true) by (apply nondecreasing_date_of; exact Hsorted).
      assert (Hne : sorted_unique ds <> []) by apply insert_unique_nonempty.
      destruct Hstart as [H1 [H2 H3]].
      pose proof (streak_days_match ds (p, db) 0 0 None Hds
                    ltac:(discriminate) ltac:(auto) H1 H3
                    ltac:(simpl; rewrite H2; reflexivity)) as M.
      pose proof (fold_recalc_last (sorted_unique ds) (0, 0, None) Hne) as L.
      unfold recalculate_streak; fold ds.
      destruct (fold_left recalc_step (sorted_unique ds) (0, 0, None)) as [[cur lg] o].
      simpl in L; subst o.
      cbv beta iota zeta in M |- *; unfold set_streaks; cbn [current_streak longest_streak last_activity_date]; destruct M as [M1 [M2 M3]]; rewrite M1, M2, M3; auto.
  - intros c0 c1 c2 c3 E1 E2 E3.
    unfold recalculate_streak; simpl map; rewrite E1, E2.
    set (d := date_of c0) in *; set (e := date_of c3) in *.
    assert (L1 : (d + 2 <? e) = true) by (apply Z.ltb_lt; lia).
    assert (L2 : (d + 1 <? d + 2) = true) by (apply Z.ltb_lt; lia).
    assert (L3 : (d <? d + 1) = true) by (apply Z.ltb_lt; lia).
    assert (Q1 : (d + 1 =? d + 1) = true) by (apply Z.eqb_eq; lia).
    assert (Q2 : (d + 2 =? d + 1 + 1) = true) by (apply Z.eqb_eq; lia).
    assert (Q3 : (e =? d + 2 + 1) = false) by (apply Z.eqb_neq; lia).
    assert (S : sorted_unique [d; d + 1; d + 2; e] = [d; d + 1; d + 2; e]).
    { unfold sorted_unique; simpl; rewrite L1; simpl; rewrite L2; simpl; rewrite L3; reflexivity. }
    rewrite S; simpl; rewrite Q1; simpl; rewrite Q2; simpl; rewrite Q3; simpl; split; reflexivity.
Qed.

Lemma C8_recalculate_streak_refines_updates_witness :
  let cs := [5; us_per_day + 7; 2 * us_per_day; 5 * us_per_day] in
  nondecreasing cs = true /\
  (let '(_, q, _) := recalculate_streak cs fresh_profile fresh_db in
   let q' := fst (daily_updates cs fresh_profile fresh_db) in
   current_streak q = current_streak q' /\ longest_streak q = longest_streak q' /\
   last_activity_date q = last_activity_date q').
Proof.
  intro cs; split; [reflexivity|].
  refine (proj1 (C8_recalculate_streak_refines_updates cs fresh_profile fresh_db _ _));
    [reflexivity | repeat split].
Defined.

(** ** Task XP *)

Ltac pick_disj := first [left; reflexivity | right; pick_disj | reflexivity].

Lemma base_xp_cases (d : string) :
  base_xp d = 10 \/ base_xp d = 20 \/ base_xp d = 40 \/ base_xp d = 100 \/ base_xp d = 25.
Proof.
  unfold base_xp; repeat match goal with |- context [if ?b then _ else _] => destruct b end;
    pick_disj.
Qed.

Lemma priority_bonus_cases (p : string) :
  priority_bonus p = lit 10 10 \/ priority_bonus p = lit 11 10 \/
  priority_bonus p = lit 125 100 \/ priority_bonus p = lit 25 10.
Proof.
  unfold priority_bonus; repeat match goal with |- context [if ?b then _ else _] => destruct b end;
    pick_disj.
Qed.

Lemma timing_modifier_cases (t : Task) (now : Z) :
  (exists e, get_timing_modifier t now = Err e) \/
  get_timing_modifier t now = Ok (lit 13 10) \/ get_timing_modifier t now = Ok (lit 115 100) \/
  get_timing_modifier t now = Ok (lit 10 10) \/ get_timing_modifier t now = Ok (lit 8 10) \/
  get_timing_modifier t now = Ok (lit 6 10) \/ get_timing_modifier t now = Ok (lit 4 10).
Proof.
  unfold get_timing_modifier.
  destruct (due_date t) as [due|]; [|right; pick_disj].
  destruct (time_remaining_ratio t due now) as [r|e]; simpl; [|left; exists e; reflexivity].
  right; repeat match goal with |- context [if ?b then _ else _] => destruct b end; pick_disj.
Qed.

Lemma timing_modifier_with_multiplier (t : Task) (m : pyfloat) (now : Z) :
  get_timing_modifier (with_multiplier t m) now = get_timing_modifier t now.
Proof. reflexivity. Qed.

(** C6 (amended): for every task and time, running [calculate_task_xp]
    with category multiplier 2.0 instead of 1.0 either raises the same
    error in both runs, or gives a value between twice and twice plus two
    the value of the 1.0 run: truncation after each step loses the
    exact doubling. *)
Theorem C6_multiplier_two_bounds (t : Task) (now : Z) :
  match calculate_task_xp (with_multiplier t (lit 1 1)) now,
        calculate_task_xp (with_multiplier t (lit 2 1)) now with
  | Ok x1, Ok x2 => 2 * x1 <= x2 <= 2 * x1 + 2
  | Err e1, Err e2 => e1 = e2
  | _, _ => False
  end.
Proof.
  unfold calculate_task_xp; rewrite !timing_modifier_with_multiplier.
  unfold with_multiplier; cbn [difficulty priority xp_multiplier].
  destruct (timing_modifier_cases t now) as [[e ->]|[->|[->|[->|[->|[->| ->]]]]]];
  destruct (base_xp_cases (difficulty t)) as [->|[->|[->|[->| ->]]]];
  destruct (priority_bonus_cases (priority t)) as [->|[->|[->| ->]]];
  vm_compute; try reflexivity; split; discriminate.
Qed.

(** C6: an easy, high-priority task without due date earns 12 XP with
    multiplier 1.0 and 25 XP with multiplier 2.0, not 24. *)
Lemma C6_double_is_not_twice :
  let t := mkTask 1 "easy" "high" 1 "Development" (lit 1 1) false None None 0 in
  calculate_task_xp (with_multiplier t (lit 1 1)) 0 = Ok 12 /\
  calculate_task_xp (with_multiplier t (lit 2 1)) 0 = Ok 25 /\ 25 <> 2 * 12.
Proof. vm_compute; split; [reflexivity | split; [reflexivity | discriminate]]. Qed.

Lemma difficulty_rank_cases (d : string) (r : Z) :
  difficulty_rank d = Some r ->
  d = "easy"%string \/ d = "medium"%string \/ d = "hard"%string \/ d = "expert"%string.
Proof.
  unfold difficulty_rank.
  destruct (String.eqb d "easy") eqn:E1; [apply String.eqb_eq in E1; auto|].
  destruct (String.eqb d "medium") eqn:E2; [apply String.eqb_eq in E2; auto|].
  destruct (String.eqb d "hard") eqn:E3; [apply String.eqb_eq in E3; auto|].
  destruct (String.eqb d "expert") eqn:E4; [apply String.eqb_eq in E4; auto|].
  discriminate.
Qed.

Lemma timing_modifier_with_difficulty (t : Task) (d : string) (now : Z) :
  get_timing_modifier (with_difficulty t d) now = get_timing_modifier t now.
Proof. reflexivity. Qed.

(** ** Float products truncated to ints: error bounds *)

Lemma digits2_pos_size (p : positive) : digits2_pos p = Pos.size p.
Proof. induction p; simpl; congruence. Qed.

Lemma Zdigits2_bounds (p : positive) :
  2 ^ (Zdigits2 (Zpos p) - 1) <= Zpos p < 2 ^ Zdigits2 (Zpos p).
Proof.
  cbn [Zdigits2]. rewrite digits2_pos_size.
  induction p as [p IH|p IH|]; cbn [Pos.size]; rewrite ?Pos2Z.inj_succ.
  - rewrite Z.pow_succ_r by lia. replace (Z.succ (Zpos (Pos.size p)) - 1) with (Z.succ (Zpos (Pos.size p) - 1)) by lia.
    rewrite Z.pow_succ_r by lia. rewrite Pos2Z.inj_xI. idtac. lia.
  - rewrite Z.pow_succ_r by lia. replace (Z.succ (Zpos (Pos.size p)) - 1) with (Z.succ (Zpos (Pos.size p) - 1)) by lia.
    rewrite Z.pow_succ_r by lia. rewrite (Pos2Z.inj_xO p). lia.
  - cbn. lia.
Qed.

Lemma Zdigits2_unique (p : positive) (n : Z) :
  2 ^ (n - 1) <= Zpos p < 2 ^ n -> 1 <= n -> Zdigits2 (Zpos p) = n.
Proof.
  intros [H1 H2] Hn. pose proof (Zdigits2_bounds p) as [B1 B2].
  assert (Hd : 1 <= Zdigits2 (Zpos p)) by (cbn; lia).
  destruct (Z.lt_trichotomy (Zdigits2 (Zpos p)) n) as [L|[L|L]]; [|exact L|].
  - assert (2 ^ Zdigits2 (Zpos p) <= 2 ^ (n - 1)) by (apply Z.pow_le_mono_r; lia). lia.
  - assert (2 ^ n <= 2 ^ (Zdigits2 (Zpos p) - 1)) by (apply Z.pow_le_mono_r; lia). lia.
Qed.

Lemma shr_1_m (mrs : shr_record) : 0 <= shr_m mrs -> shr_m (shr_1 mrs) = shr_m mrs / 2.
Proof.
  destruct mrs as [m r s]; cbn [shr_m]. intros Hm.
  destruct m as [|[p|p|]|p]; cbn; try reflexivity; try lia.
  - rewrite Pos2Z.inj_xI. apply Z.div_unique with 1; lia.
  - rewrite (Pos2Z.inj_xO p). apply Z.div_unique with 0; lia.
Qed.

Lemma iter_shr_1_m (p : positive) : forall mrs, 0 <= shr_m mrs ->
  shr_m (iter_pos shr_1 p mrs) = shr_m mrs / 2 ^ Zpos p.
Proof.
  induction p as [p IH|p IH|]; intros mrs Hm; cbn [iter_pos].
  - assert (H1 : 0 <= shr_m (shr_1 mrs)) by (rewrite shr_1_m by lia; apply Z.div_pos; lia).
    assert (H2 : 0 <= shr_m (iter_pos shr_1 p (shr_1 mrs)))
      by (rewrite IH by lia; apply Z.div_pos; lia).
    rewrite IH, IH, shr_1_m by lia.
    rewrite !Z.div_div by lia.
    f_equal. replace (Zpos p~1) with (Zpos p + Zpos p + 1) by lia. rewrite !Z.pow_add_r by lia. ring.
  - assert (H2 : 0 <= shr_m (iter_pos shr_1 p mrs)) by (rewrite IH by lia; apply Z.div_pos; lia).
    rewrite IH, IH by lia. rewrite Z.div_div by lia.
    f_equal. replace (Zpos p~0) with (Zpos p + Zpos p) by lia. rewrite !Z.pow_add_r by lia. ring.
  - apply shr_1_m; exact Hm.
Qed.

Lemma round_nearest_even_cases (m : Z) (l : location) :
  round_nearest_even m l = m \/ round_nearest_even m l = m + 1.
Proof. destruct l as [|[]]; cbn; auto; destruct (Z.even m); auto. Qed.

Lemma round_aux_shape (P : positive) :
  2 ^ 53 <= Zpos P ->
  exists m1,
    (m1 = Zpos P / 2 ^ (Zdigits2 (Zpos P) - 53) \/ m1 = Zpos P / 2 ^ (Zdigits2 (Zpos P) - 53) + 1) /\
    forall e, -1021 <= e ->
    binary_round_aux prec emax false (Zpos P) e loc_Exact = round_out m1 (e + (Zdigits2 (Zpos P) - 53)).
Proof.
  intros HP.
  pose proof (Zdigits2_bounds P) as [B1 B2].
  set (d := Zdigits2 (Zpos P)) in *.
  assert (Hd : 54 <= d).
  { destruct (Z_le_gt_dec 54 d) as [|L]; [lia|].
    assert (2 ^ d <= 2 ^ 53) by (apply Z.pow_le_mono_r; lia). lia. }
  set (k := d - 53).
  assert (Hk2 : 2 ^ d = 2 ^ 53 * 2 ^ k) by (unfold k; rewrite <- Z.pow_add_r by lia; f_equal; lia).
  assert (Hk1 : 2 ^ (d - 1) = 2 ^ 52 * 2 ^ k) by (unfold k; rewrite <- Z.pow_add_r by lia; f_equal; lia).
  assert (Hkp : 0 < 2 ^ k) by (apply Z.pow_pos_nonneg; lia).
  set (q := Zpos P / 2 ^ k).
  assert (Hq : 2 ^ 52 <= q < 2 ^ 53).
  { unfold q; split.
    - apply Z.div_le_lower_bound; lia.
    - apply Z.div_lt_upper_bound; lia. }
  set (mrs := iter_pos shr_1 (Z.to_pos k) (Build_shr_record (Zpos P) false false)).
  assert (Hm : shr_m mrs = q).
  { unfold mrs; rewrite iter_shr_1_m by (cbn; lia). cbn [shr_m]. rewrite Z2Pos.id by lia. reflexivity. }
  exists (round_nearest_even (shr_m mrs) (loc_of_shr_record mrs)).
  split; [rewrite Hm; apply round_nearest_even_cases|].
  intros e He.
  unfold binary_round_aux, shr_fexp. fold d.
  assert (E1 : fexp prec emax (d + e) - e = Zpos (Z.to_pos k))
    by (unfold fexp, emin, prec, emax; rewrite Z2Pos.id by lia; unfold k; lia).
  rewrite E1. cbn [shr shr_record_of_loc]. fold mrs.
  rewrite Z2Pos.id by lia.
  destruct (round_nearest_even_cases (shr_m mrs) (loc_of_shr_record mrs)) as [R|R];
    rewrite R, Hm; clear R.
  - destruct q as [|qp|qp] eqn:Eq; [lia| |lia].
    rewrite (Zdigits2_unique qp 53) by (cbn; lia).
    replace (fexp prec emax (53 + (e + k)) - (e + k)) with 0
      by (unfold fexp, emin, prec, emax; unfold k; lia).
    cbn [shr shr_m]. unfold round_out.
    replace (Zpos qp <? 2 ^ 53) with true by (symmetry; apply Z.ltb_lt; lia).
    reflexivity.
  - destruct (Z.eq_dec (q + 1) (2 ^ 53)) as [Eq|Ne].
    + rewrite Eq.
      replace (Zdigits2 (2 ^ 53)) with 54 by reflexivity.
      replace (fexp prec emax (54 + (e + k)) - (e + k)) with 1
        by (unfold fexp, emin, prec, emax; unfold k; lia).
      unfold round_out. simpl. reflexivity.
    + destruct (q + 1) as [|qp|qp] eqn:Eq; [lia| |lia].
      rewrite (Zdigits2_unique qp 53) by (cbn; lia).
      replace (fexp prec emax (53 + (e + k)) - (e + k)) with 0
        by (unfold fexp, emin, prec, emax; unfold k; lia).
      cbn [shr shr_m]. unfold round_out.
      replace (Zpos qp <? 2 ^ 53) with true by (symmetry; apply Z.ltb_lt; lia).
      reflexivity.
Qed.

Lemma pow2_IZR (n : Z) : 0 <= n -> powerRZ 2 n = IZR (2 ^ n).
Proof.
  intros Hn. destruct n as [|p|p]; [reflexivity| |lia].
  cbn [powerRZ]. rewrite pow_IZR. rewrite positive_nat_Z. reflexivity.
Qed.

Lemma pow2_pos (a : Z) : (0 < powerRZ 2 a)%R.
Proof. apply powerRZ_lt; lra. Qed.

Lemma pow2_add (a b : Z) : powerRZ 2 (a + b) = (powerRZ 2 a * powerRZ 2 b)%R.
Proof. apply powerRZ_add; lra. Qed.

Lemma pow2_neg (n : Z) : 0 <= n -> powerRZ 2 (- n) = (/ IZR (2 ^ n))%R.
Proof. intros Hn. rewrite powerRZ_neg', pow2_IZR by exact Hn. reflexivity. Qed.

Lemma pow2_le (a b : Z) : a <= b -> (powerRZ 2 a <= powerRZ 2 b)%R.
Proof.
  intros H. replace b with (a + (b - a)) by lia. rewrite pow2_add, (pow2_IZR (b - a)) by lia.
  pose proof (pow2_pos a). assert (H1 : 1 <= 2 ^ (b - a)) by (pose proof (Z.pow_pos_nonneg 2 (b - a) ltac:(lia) ltac:(lia)); lia).
  apply IZR_le in H1. nra.
Qed.

Lemma py_int_finite_bounds (M : positive) (E : Z) :
  exists y, py_int (S754_finite false M E) = Ok y /\ 0 <= y /\
    (IZR y <= IZR (Zpos M) * powerRZ 2 E < IZR y + 1)%R /\
    (0 <= E -> (IZR y = IZR (Zpos M) * powerRZ 2 E)%R).
Proof.
  unfold py_int. destruct (0 <=? E) eqn:HE.
  - apply Z.leb_le in HE. rewrite Z.shiftl_mul_pow2 by exact HE.
    eexists; split; [reflexivity|]. rewrite pow2_IZR, <- mult_IZR by exact HE.
    pose proof (Z.pow_pos_nonneg 2 E). split; [nia|]. split; [lra|]. intros; reflexivity.
  - apply Z.leb_gt in HE. rewrite Z.shiftr_div_pow2 by lia.
    eexists; split; [reflexivity|].
    pose proof (Z.pow_pos_nonneg 2 (- E) ltac:(lia) ltac:(lia)) as Hp.
    set (N := 2 ^ (- E)) in *.
    pose proof (Z.mul_div_le (Zpos M) N Hp) as L1.
    pose proof (Z.mul_succ_div_gt (Zpos M) N Hp) as L2.
    replace E with (- (- E)) by lia. rewrite pow2_neg by lia. fold N.
    split; [apply Z.div_pos; lia|]. split; [|intros; lia].
    apply IZR_le in L1. apply IZR_lt in L2. rewrite mult_IZR in L1, L2. rewrite succ_IZR in L2.
    apply IZR_lt in Hp.
    split.
    + apply (Rmult_le_reg_r (IZR N)); [exact Hp|]. rewrite Rmult_assoc, Rinv_l by lra. lra.
    + apply (Rmult_lt_reg_r (IZR N)); [exact Hp|]. rewrite Rmult_assoc, Rinv_l by lra. lra.
Qed.

Lemma round_out_value (m1 e' : Z) : 2 ^ 52 <= m1 <= 2 ^ 53 -> e' <= 970 ->
  exists M E, round_out m1 e' = S754_finite false M E /\
    (IZR (Zpos M) * powerRZ 2 E = IZR m1 * powerRZ 2 e')%R /\
    (E = e' \/ E = e' + 1) /\ 2 ^ 52 <= Zpos M < 2 ^ 53.
Proof.
  intros Hm He. unfold round_out.
  destruct (m1 <? 2 ^ 53) eqn:L.
  - apply Z.ltb_lt in L. replace (e' <=? 971) with true by (symmetry; apply Z.leb_le; lia).
    exists (Z.to_pos m1), e'. rewrite Z2Pos.id by lia. split; [reflexivity|]. split; [reflexivity|]. split; [auto|lia].
  - apply Z.ltb_ge in L. replace (e' + 1 <=? 971) with true by (symmetry; apply Z.leb_le; lia).
    exists (Z.to_pos (2 ^ 52)), (e' + 1). rewrite Z2Pos.id by lia. split; [reflexivity|].
    split; [|split; [auto|lia]].
    replace m1 with (2 ^ 53) by lia. rewrite pow2_add. replace (powerRZ 2 1) with 2%R by (simpl; ring). 
    replace (2 ^ 53) with (2 ^ 52 * 2) by reflexivity. rewrite mult_IZR. ring.
Qed.

Lemma round_core (P : positive) (e : Z) :
  2 ^ 53 <= Zpos P -> -1021 <= e ->
  (IZR (Zpos P) * powerRZ 2 e < powerRZ 2 1022)%R ->
  exists m1 k, binary_round_aux prec emax false (Zpos P) e loc_Exact = round_out m1 (e + k) /\
    1 <= k /\ e + k <= 970 /\
    2 ^ 52 <= Zpos P / 2 ^ k < 2 ^ 53 /\
    (m1 = Zpos P / 2 ^ k \/ m1 = Zpos P / 2 ^ k + 1) /\
    (IZR (Zpos P / 2 ^ k) * powerRZ 2 (e + k) <= IZR (Zpos P) * powerRZ 2 e <
       (IZR (Zpos P / 2 ^ k) + 1) * powerRZ 2 (e + k))%R.
Proof.
  intros HP He HR.
  destruct (round_aux_shape P HP) as (m1 & Hm1 & Hr).
  pose proof (Zdigits2_bounds P) as [B1 B2].
  set (d := Zdigits2 (Zpos P)) in *.
  assert (Hd : 54 <= d).
  { destruct (Z_le_gt_dec 54 d) as [|L]; [lia|].
    assert (2 ^ d <= 2 ^ 53) by (apply Z.pow_le_mono_r; lia). lia. }
  set (k := d - 53) in *.
  assert (Hk2 : 2 ^ d = 2 ^ 53 * 2 ^ k) by (unfold k; rewrite <- Z.pow_add_r by lia; f_equal; lia).
  assert (Hk1 : 2 ^ (d - 1) = 2 ^ 52 * 2 ^ k) by (unfold k; rewrite <- Z.pow_add_r by lia; f_equal; lia).
  assert (Hkp : 0 < 2 ^ k) by (apply Z.pow_pos_nonneg; lia).
  exists m1, k. split; [apply Hr; exact He|].
  split; [lia|].
  assert (Hq : 2 ^ 52 <= Zpos P / 2 ^ k < 2 ^ 53).
  { split. - apply Z.div_le_lower_bound; lia. - apply Z.div_lt_upper_bound; lia. }
  split.
  { (* 2^(d-1+e) <= R < 2^1022 *)
    destruct (Z_le_gt_dec (e + k) 970) as [L|L]; [exact L|exfalso].
    assert (X : (powerRZ 2 1022 <= IZR (2 ^ (d - 1)) * powerRZ 2 e)%R).
    { rewrite <- pow2_IZR by lia. rewrite <- pow2_add. apply pow2_le. unfold k in L. lia. }
    apply IZR_le in B1. pose proof (pow2_pos e). nra. }
  split; [exact Hq|]. split; [exact Hm1|].
  set (q := Zpos P / 2 ^ k) in *.
  pose proof (Z.mul_div_le (Zpos P) (2 ^ k) Hkp) as L1.
  pose proof (Z.mul_succ_div_gt (Zpos P) (2 ^ k) Hkp) as L2. fold q in L1, L2.
  rewrite pow2_add, (pow2_IZR k) by lia.
  apply IZR_le in L1. apply IZR_lt in L2. rewrite mult_IZR in L1, L2. rewrite succ_IZR in L2.
  pose proof (pow2_pos e). split; nra.
Qed.

Lemma round_trunc (P : positive) (e : Z) :
  2 ^ 53 <= Zpos P -> -1021 <= e ->
  (IZR (Zpos P) * powerRZ 2 e < powerRZ 2 1022)%R ->
  exists y, py_int (binary_round_aux prec emax false (Zpos P) e loc_Exact) = Ok y /\ 0 <= y /\
    (IZR y <= IZR (Zpos P) * powerRZ 2 e * (1 + / 4503599627370496))%R /\
    (IZR (Zpos P) * powerRZ 2 e * (1 - / 4503599627370496) < IZR y + 1)%R /\
    (IZR (Zpos P) * powerRZ 2 e < 4503599627370496 -> IZR (Zpos P) * powerRZ 2 e < IZR y + 1)%R.
Proof.
  intros HP He HR.
  destruct (round_core P e HP He HR) as (m1 & k & Hr & Hk & Hek & Hq & Hm1 & HRq).
  set (q := Zpos P / 2 ^ k) in *.
  destruct (round_out_value m1 (e + k) ltac:(lia) Hek) as (M & E & Ho & Hv & _ & _).
  destruct (py_int_finite_bounds M E) as (y & Hy & Hy0 & Hyb & _).
  exists y. rewrite Hr, Ho. split; [exact Hy|]. split; [exact Hy0|].
  rewrite Hv in Hyb.
  set (R := (IZR (Zpos P) * powerRZ 2 e)%R) in *.
  set (T := powerRZ 2 (e + k)) in *.
  assert (HT : (0 < T)%R) by apply pow2_pos.
  assert (Hq52 : (4503599627370496 <= IZR q)%R) by (apply IZR_le; lia).
  assert (Hm1R : (IZR q <= IZR m1 <= IZR q + 1)%R)
    by (destruct Hm1 as [-> | ->]; rewrite ?plus_IZR; lra).
  assert (HTR : (4503599627370496 * T <= R)%R) by nra.
  split; [nra|]. split; [nra|].
  intros Hsmall.
  assert (Hneg : e + k < 0).
  { destruct (Z_lt_le_dec (e + k) 0) as [L|L]; [exact L|exfalso].
    assert (1 <= T)%R.
    { unfold T. rewrite pow2_IZR by exact L. apply IZR_le.
      pose proof (Z.pow_pos_nonneg 2 (e + k) ltac:(lia) L); lia. }
    nra. }
  set (N := 2 ^ (- (e + k))).
  assert (HN : 0 < N) by (apply Z.pow_pos_nonneg; lia).
  assert (HTN : T = (/ IZR N)%R).
  { unfold T, N. replace (e + k) with (- (- (e + k))) at 1 by lia. apply pow2_neg; lia. }
  assert (HNR : (0 < IZR N)%R) by (apply IZR_lt; exact HN).
  assert (Z1 : q < (y + 1) * N).
  { apply lt_IZR. rewrite mult_IZR, plus_IZR.
    assert (IZR q * T < IZR y + 1)%R by nra.
    rewrite HTN in H. apply (Rmult_lt_compat_r (IZR N)) in H; [|exact HNR].
    rewrite Rmult_assoc, Rinv_l in H by lra. lra. }
  assert (Z2 : (IZR q + 1 <= (IZR y + 1) * IZR N)%R)
    by (rewrite <- plus_IZR, <- plus_IZR, <- mult_IZR; apply IZR_le; lia).
  assert (Z3 : ((IZR q + 1) * T <= IZR y + 1)%R).
  { rewrite HTN. apply (Rmult_le_reg_r (IZR N)); [exact HNR|].
    rewrite Rmult_assoc, Rinv_l by lra. lra. }
  lra.
Qed.

Lemma round_aux_exact (m : positive) (e : Z) :
  Zdigits2 (Zpos m) = 53 -> -1021 <= e <= 971 ->
  binary_round_aux prec emax false (Zpos m) e loc_Exact = S754_finite false m e.
Proof.
  intros Hd He. unfold binary_round_aux, shr_fexp. rewrite Hd.
  replace (fexp prec emax (53 + e) - e) with 0 by (unfold fexp, emin, prec, emax; lia).
  cbn [shr shr_record_of_loc loc_of_shr_record shr_m round_nearest_even]. rewrite Hd.
  replace (fexp prec emax (53 + e) - e) with 0 by (unfold fexp, emin, prec, emax; lia).
  cbn [shr shr_m]. replace (e <=? emax - prec) with true by (symmetry; apply Z.leb_le; unfold emax, prec; lia).
  reflexivity.
Qed.

Lemma iter_xO (x n : positive) : Zpos (Pos.iter xO x n) = Zpos x * 2 ^ Zpos n.
Proof.
  induction n as [|n IH] using Pos.peano_ind.
  - cbn. lia.
  - rewrite Pos.iter_succ, Pos2Z.inj_succ, Z.pow_succ_r by lia.
    rewrite (Pos2Z.inj_xO (Pos.iter xO x n)), IH. ring.
Qed.

Lemma float_of_Z_shape (x : Z) : 1 <= x -> (IZR x < powerRZ 2 1022)%R ->
  exists M E, float_of_Z x = S754_finite false M E /\ 2 ^ 52 <= Zpos M < 2 ^ 53 /\ -52 <= E /\
    (IZR x * (1 - / 4503599627370496) <= IZR (Zpos M) * powerRZ 2 E <= IZR x * (1 + / 4503599627370496))%R /\
    (x < 2 ^ 53 -> (IZR (Zpos M) * powerRZ 2 E = IZR x)%R).
Proof.
  intros Hx HR. destruct x as [|xp|xp]; try lia.
  unfold float_of_Z, binary_normalize, binary_round.
  pose proof (Zdigits2_bounds xp) as [B1 B2]. cbn [Zdigits2] in B1, B2.
  set (d := Zpos (digits2_pos xp)) in *.
  replace (fexp prec emax (d + 0)) with (d - 53) by (unfold fexp, emin, prec, emax; lia).
  destruct (Z_le_gt_dec d 53) as [Ld|Ld].
  - (* exact: the integer is shifted left to 53 digits *)
    assert (Hpow : 2 ^ d <= 2 ^ 53) by (apply Z.pow_le_mono_r; lia).
    assert (Hlt : Zpos xp < 2 ^ 53) by lia.
    assert (Hsh : exists mz, Zpos mz = Zpos xp * 2 ^ (53 - d) /\ shl_align xp 0 (d - 53) = (mz, d - 53)).
    { unfold shl_align. replace (d - 53 - 0) with (d - 53) by lia.
      destruct (d - 53) as [|p|p] eqn:Ed; [| lia |].
      - exists xp. replace (53 - d) with 0 by lia. split; [lia|]. reflexivity.
      - exists (Pos.iter xO xp p). split; [rewrite iter_xO; f_equal; f_equal; lia|]. reflexivity. }
    destruct Hsh as (mz & Hmz & ->).
    assert (Hd : Zdigits2 (Zpos mz) = 53).
    { apply Zdigits2_unique; [|lia]. rewrite Hmz.
      assert (2 ^ (53 - 1) = 2 ^ (d - 1) * 2 ^ (53 - d)) by (rewrite <- Z.pow_add_r by lia; f_equal; lia).
      assert (2 ^ 53 = 2 ^ d * 2 ^ (53 - d)) by (rewrite <- Z.pow_add_r by lia; f_equal; lia).
      pose proof (Z.pow_pos_nonneg 2 (53 - d) ltac:(lia) ltac:(lia)). nia. }
    rewrite round_aux_exact by (exact Hd || lia).
    exists mz, (d - 53). split; [reflexivity|].
    pose proof (Zdigits2_bounds mz) as [C1 C2]. rewrite Hd in C1, C2.
    split; [lia|]. split; [lia|].
    assert (Hv : (IZR (Zpos mz) * powerRZ 2 (d - 53) = IZR (Zpos xp))%R).
    { rewrite Hmz, mult_IZR. replace (d - 53) with (- (53 - d)) by lia.
      rewrite pow2_neg by lia. pose proof (Z.pow_pos_nonneg 2 (53 - d) ltac:(lia) ltac:(lia)) as Hp.
      apply IZR_lt in Hp. field. lra. }
    rewrite Hv. assert (0 < IZR (Zpos xp))%R by (apply IZR_lt; lia).
    split; [lra|]. intros; reflexivity.
  - (* rounded: more than 53 digits *)
    unfold shl_align. replace (d - 53 - 0) with (d - 53) by lia.
    destruct (d - 53) as [|p|p] eqn:Ed; try lia.
    assert (HP : 2 ^ 53 <= Zpos xp).
    { assert (2 ^ 53 <= 2 ^ (d - 1)) by (apply Z.pow_le_mono_r; lia). lia. }
    assert (HR' : (IZR (Zpos xp) * powerRZ 2 0 < powerRZ 2 1022)%R) by (replace (powerRZ 2 0) with 1%R by reflexivity; lra).
    destruct (round_core xp 0 HP ltac:(lia) HR') as (m1 & k & Hr & Hk & Hek & Hq & Hm1 & HRq).
    rewrite Hr.
    destruct (round_out_value m1 (0 + k) ltac:(lia) Hek) as (M & E & Ho & Hv & HE & HM).
    exists M, E. rewrite Ho. split; [reflexivity|]. split; [exact HM|]. split; [lia|].
    split; [|intros; lia].
    rewrite Hv. replace (powerRZ 2 0) with 1%R in HRq by reflexivity. rewrite Rmult_1_r in HRq.
    set (q := Zpos xp / 2 ^ k) in *. set (T := powerRZ 2 (0 + k)) in *.
    assert (HT : (0 < T)%R) by apply pow2_pos.
    assert (Hq52 : (4503599627370496 <= IZR q)%R) by (apply IZR_le; lia).
    assert (Hm1R : (IZR q <= IZR m1 <= IZR q + 1)%R)
      by (destruct Hm1 as [-> | ->]; rewrite ?plus_IZR; lra).
    split; nra.
Qed.

Lemma mul_trunc_bounds (x : Z) (Mc : positive) (Ec : Z) :
  2 ^ 52 <= Zpos Mc < 2 ^ 53 -> -54 <= Ec <= -51 -> 1 <= x <= 2 ^ 1021 ->
  (IZR x * (IZR (Zpos Mc) * powerRZ 2 Ec) <= powerRZ 2 1021)%R ->
  exists y, mul_trunc x (S754_finite false Mc Ec) = Ok y /\ 0 <= y /\
    (IZR y <= IZR x * (IZR (Zpos Mc) * powerRZ 2 Ec) * ((1 + / 4503599627370496) * (1 + / 4503599627370496)))%R /\
    (IZR x * (IZR (Zpos Mc) * powerRZ 2 Ec) * ((1 - / 4503599627370496) * (1 - / 4503599627370496)) < IZR y + 1)%R /\
    (x <= 2 ^ 50 -> (IZR x * (IZR (Zpos Mc) * powerRZ 2 Ec) < IZR y + 1)%R).
Proof.
  intros HMc HEc Hx HxR.
  assert (Hx1022 : (IZR x < powerRZ 2 1022)%R).
  { rewrite pow2_IZR by lia. apply IZR_lt. assert (2 ^ 1021 < 2 ^ 1022) by (apply Z.pow_lt_mono_r; lia). lia. }
  destruct (float_of_Z_shape x ltac:(lia) Hx1022) as (Mx & Ex & Hf & HMx & HEx & HF & HFe).
  unfold mul_trunc. rewrite Hf.
  change (fmul (S754_finite false Mx Ex) (S754_finite false Mc Ec))
    with (binary_round_aux prec emax false (Zpos (Mx * Mc)) (Ex + Ec) loc_Exact).
  set (F := (IZR (Zpos Mx) * powerRZ 2 Ex)%R) in *.
  set (c := (IZR (Zpos Mc) * powerRZ 2 Ec)%R) in *.
  assert (HRc : (IZR (Zpos (Mx * Mc)) * powerRZ 2 (Ex + Ec) = F * c)%R)
    by (rewrite Pos2Z.inj_mul, mult_IZR, pow2_add; unfold F, c; ring).
  assert (Hc0 : (0 < c)%R).
  { unfold c. apply Rmult_lt_0_compat; [apply IZR_lt; lia | apply pow2_pos]. }
  assert (Hc4 : (c < 4)%R).
  { unfold c. replace Ec with (- (- Ec)) by lia. rewrite pow2_neg by lia.
    assert (HS : 2 ^ 51 <= 2 ^ (- Ec)) by (apply Z.pow_le_mono_r; lia).
    apply IZR_le in HS. destruct HMc as [_ HMc]. apply IZR_lt in HMc.
    assert (0 < IZR (2 ^ (- Ec)))%R by (eapply Rlt_le_trans; [|exact HS]; apply IZR_lt; lia).
    apply (Rmult_lt_reg_r (IZR (2 ^ (- Ec)))); [lra|].
    rewrite Rmult_assoc, Rinv_l by lra. replace (2 ^ 53) with (4 * 2 ^ 51) in HMc by reflexivity.
    rewrite mult_IZR in HMc. lra. }
  assert (Hx0 : (1 <= IZR x)%R) by (apply IZR_le; lia).
  assert (Heps : (0 < / 4503599627370496 < 1 / 2)%R) by lra.
  assert (H1021 : (powerRZ 2 1021 * 2 = powerRZ 2 1022)%R)
    by (replace 1022 with (1021 + 1) by lia; rewrite pow2_add; replace (powerRZ 2 1) with 2%R by (simpl; ring); ring).
  assert (HP : 2 ^ 53 <= Zpos (Mx * Mc)) by (rewrite Pos2Z.inj_mul; nia).
  assert (HR : (IZR (Zpos (Mx * Mc)) * powerRZ 2 (Ex + Ec) < powerRZ 2 1022)%R).
  { rewrite HRc. pose proof (pow2_pos 1021). nra. }
  destruct (round_trunc (Mx * Mc) (Ex + Ec) HP ltac:(lia) HR) as (y & Hy & Hy0 & U & L & T).
  rewrite HRc in U, L, T.
  exists y. split; [exact Hy|]. split; [exact Hy0|].
  split; [|split].
  - nra.
  - nra.
  - intros Hs. rewrite HFe in T by lia. apply T.
    assert (IZR x <= IZR (2 ^ 50))%R by (apply IZR_le; lia).
    replace (IZR (2 ^ 50)) with 1125899906842624%R in H by reflexivity. nra.
Qed.

Lemma mul_trunc_Z (x : Z) (Mc : positive) (sc : Z) :
  2 ^ 52 <= Zpos Mc < 2 ^ 53 -> 51 <= sc <= 54 -> 1 <= x <= 2 ^ 1021 ->
  x * Zpos Mc <= 2 ^ 1021 * 2 ^ sc ->
  exists y, mul_trunc x (S754_finite false Mc (- sc)) = Ok y /\ 0 <= y /\
    y * 2 ^ sc * 4503599627370496 * 4503599627370496 <=
      x * Zpos Mc * 4503599627370497 * 4503599627370497 /\
    x * Zpos Mc * 4503599627370495 * 4503599627370495 <
      (y + 1) * 2 ^ sc * 4503599627370496 * 4503599627370496 /\
    (x <= 2 ^ 50 -> x * Zpos Mc < (y + 1) * 2 ^ sc).
Proof.
  intros HMc Hsc Hx Hprod.
  assert (HS : 0 < 2 ^ sc) by (apply Z.pow_pos_nonneg; lia).
  set (S := 2 ^ sc) in *.
  assert (HSR : (0 < IZR S)%R) by (apply IZR_lt; exact HS).
  assert (Hc : (IZR (Zpos Mc) * powerRZ 2 (- sc) = IZR (Zpos Mc) / IZR S)%R)
    by (rewrite pow2_neg by lia; reflexivity).
  assert (HxR : (IZR x * (IZR (Zpos Mc) * powerRZ 2 (- sc)) <= powerRZ 2 1021)%R).
  { rewrite Hc, pow2_IZR by lia. apply IZR_le in Hprod. rewrite !mult_IZR in Hprod.
    apply (Rmult_le_reg_r (IZR S)); [exact HSR|].
    replace (IZR x * (IZR (Zpos Mc) / IZR S) * IZR S)%R with (IZR x * IZR (Zpos Mc))%R by (field; lra).
    lra. }
  destruct (mul_trunc_bounds x Mc (- sc) HMc ltac:(lia) Hx HxR) as (y & Hy & Hy0 & U & L & T).
  rewrite Hc in U, L, T.
  exists y. split; [exact Hy|]. split; [exact Hy0|].
  split; [|split].
  - apply le_IZR. rewrite !mult_IZR.
    apply (Rmult_le_compat_r (IZR S * 4503599627370496 * 4503599627370496)) in U; [|nra].
    replace (IZR x * (IZR (Zpos Mc) / IZR S) * ((1 + / 4503599627370496) * (1 + / 4503599627370496)) *
             (IZR S * 4503599627370496 * 4503599627370496))%R
      with (IZR x * IZR (Zpos Mc) * 4503599627370497 * 4503599627370497)%R in U by (field; lra).
    lra.
  - apply lt_IZR. rewrite !mult_IZR, plus_IZR.
    apply (Rmult_lt_compat_r (IZR S * 4503599627370496 * 4503599627370496)) in L; [|nra].
    replace (IZR x * (IZR (Zpos Mc) / IZR S) * ((1 - / 4503599627370496) * (1 - / 4503599627370496)) *
             (IZR S * 4503599627370496 * 4503599627370496))%R
      with (IZR x * IZR (Zpos Mc) * 4503599627370495 * 4503599627370495)%R in L by (field; lra).
    lra.
  - intros Hs. specialize (T Hs). apply lt_IZR. rewrite !mult_IZR, plus_IZR.
    apply (Rmult_lt_compat_r (IZR S)) in T; [|exact HSR].
    replace (IZR x * (IZR (Zpos Mc) / IZR S) * IZR S)%R with (IZR x * IZR (Zpos Mc))%R in T by (field; lra).
    lra.
Qed.

Lemma round_out_double (m1 e' : Z) : 2 ^ 52 <= m1 <= 2 ^ 53 -> e' + 1 <= 970 ->
  exists y1 y2, py_int (round_out m1 e') = Ok y1 /\ py_int (round_out m1 (e' + 1)) = Ok y2 /\
    2 * y1 <= y2 <= 2 * y1 + 1.
Proof.
  intros Hm He.
  destruct (round_out_value m1 e' Hm ltac:(lia)) as (M1 & E1 & H1 & V1 & _).
  destruct (round_out_value m1 (e' + 1) Hm He) as (M2 & E2 & H2 & V2 & _).
  destruct (py_int_finite_bounds M1 E1) as (y1 & Y1 & _ & B1 & _).
  destruct (py_int_finite_bounds M2 E2) as (y2 & Y2 & _ & B2 & _).
  exists y1, y2. rewrite H1, H2. split; [exact Y1|]. split; [exact Y2|].
  rewrite V1 in B1. rewrite V2, pow2_add in B2.
  replace (powerRZ 2 1) with 2%R in B2 by (simpl; ring).
  set (v := (IZR m1 * powerRZ 2 e')%R) in *.
  assert (B2' : (IZR y2 <= 2 * v < IZR y2 + 1)%R) by (unfold v in *; lra).
  split.
  - assert (2 * y1 < y2 + 1) by (apply lt_IZR; rewrite ?plus_IZR, ?mult_IZR; lra). lia.
  - assert (y2 < 2 * y1 + 2) by (apply lt_IZR; rewrite ?plus_IZR, ?mult_IZR; lra). lia.
Qed.

Lemma float_of_Z_10 : float_of_Z 10 = S754_finite false 5629499534213120 (-49).
Proof. reflexivity. Qed.
Lemma float_of_Z_20 : float_of_Z 20 = S754_finite false 5629499534213120 (-48).
Proof. reflexivity. Qed.
Lemma float_of_Z_40 : float_of_Z 40 = S754_finite false 5629499534213120 (-47).
Proof. reflexivity. Qed.
Lemma float_of_Z_100 : float_of_Z 100 = S754_finite false 7036874417766400 (-46).
Proof. reflexivity. Qed.

Lemma base_doubling (M : positive) (E : Z) : 2 ^ 52 <= Zpos M < 2 ^ 53 -> -54 <= E <= 960 ->
  exists x10 x20 x40,
    mul_trunc 10 (S754_finite false M E) = Ok x10 /\ mul_trunc 20 (S754_finite false M E) = Ok x20 /\
    mul_trunc 40 (S754_finite false M E) = Ok x40 /\
    2 * x10 <= x20 <= 2 * x10 + 1 /\ 2 * x20 <= x40 <= 2 * x20 + 1.
Proof.
  intros HM HE.
  set (P := (5629499534213120 * M)%positive).
  assert (HP : 2 ^ 53 <= Zpos P) by (unfold P; rewrite Pos2Z.inj_mul; lia).
  destruct (round_aux_shape P HP) as (m1 & Hm1 & Hr).
  pose proof (Zdigits2_bounds P) as [B1 B2].
  set (d := Zdigits2 (Zpos P)) in *.
  assert (Hd1 : 54 <= d).
  { destruct (Z_le_gt_dec 54 d) as [|L]; [lia|].
    assert (2 ^ d <= 2 ^ 53) by (apply Z.pow_le_mono_r; lia). lia. }
  assert (Hd2 : d <= 106).
  { destruct (Z_le_gt_dec d 106) as [|L]; [lia|].
    assert (2 ^ 106 <= 2 ^ (d - 1)) by (apply Z.pow_le_mono_r; lia).
    unfold P in B1. rewrite Pos2Z.inj_mul in B1. lia. }
  assert (Hk : 1 <= d - 53) by lia.
  assert (Hkp : 0 < 2 ^ (d - 53)) by (apply Z.pow_pos_nonneg; lia).
  assert (Hq : 2 ^ 52 <= Zpos P / 2 ^ (d - 53) < 2 ^ 53).
  { assert (2 ^ (d - 1) = 2 ^ 52 * 2 ^ (d - 53)) by (rewrite <- Z.pow_add_r by lia; f_equal; lia).
    assert (2 ^ d = 2 ^ 53 * 2 ^ (d - 53)) by (rewrite <- Z.pow_add_r by lia; f_equal; lia).
    split. - apply Z.div_le_lower_bound; lia. - apply Z.div_lt_upper_bound; lia. }
  assert (Hm1r : 2 ^ 52 <= m1 <= 2 ^ 53) by lia.
  unfold mul_trunc. rewrite float_of_Z_10, float_of_Z_20, float_of_Z_40.
  change (fmul (S754_finite false 5629499534213120 ?e) (S754_finite false M E))
    with (binary_round_aux prec emax false (Zpos P) (e + E) loc_Exact).
  rewrite !Hr by lia.
  destruct (round_out_double m1 (-49 + E + (d - 53)) Hm1r ltac:(lia)) as (y1 & y2 & Y1 & Y2 & R12).
  destruct (round_out_double m1 (-48 + E + (d - 53)) Hm1r ltac:(lia)) as (y2' & y3 & Y2' & Y3 & R23).
  replace (-49 + E + (d - 53) + 1) with (-48 + E + (d - 53)) in Y2 by lia.
  replace (-48 + E + (d - 53) + 1) with (-47 + E + (d - 53)) in Y3 by lia.
  rewrite Y2 in Y2'. injection Y2' as <-.
  exists y1, y2, y3. split; [exact Y1|]. split; [exact Y2|]. split; [exact Y3|]. lia.
Qed.

Lemma base_bounds (M : positive) (E b : Z) (Mb : positive) (Eb : Z) :
  float_of_Z b = S754_finite false Mb Eb -> 2 ^ 52 <= Zpos Mb < 2 ^ 53 -> -49 <= Eb <= -46 ->
  (IZR (Zpos Mb) * powerRZ 2 Eb = IZR b)%R ->
  2 ^ 52 <= Zpos M < 2 ^ 53 -> -54 <= E ->
  (IZR b * (IZR (Zpos M) * powerRZ 2 E) < powerRZ 2 1022)%R ->
  exists x, mul_trunc b (S754_finite false M E) = Ok x /\
    (IZR x <= IZR b * (IZR (Zpos M) * powerRZ 2 E) * (1 + / 4503599627370496))%R /\
    (IZR b * (IZR (Zpos M) * powerRZ 2 E) * (1 - / 4503599627370496) < IZR x + 1)%R /\
    (IZR b * (IZR (Zpos M) * powerRZ 2 E) < 4503599627370496 ->
     IZR b * (IZR (Zpos M) * powerRZ 2 E) < IZR x + 1)%R.
Proof.
  intros Hf HMb HEb Hb HM HE HR.
  unfold mul_trunc. rewrite Hf.
  change (fmul (S754_finite false Mb Eb) (S754_finite false M E))
    with (binary_round_aux prec emax false (Zpos (Mb * M)) (Eb + E) loc_Exact).
  assert (HRe : (IZR (Zpos (Mb * M)) * powerRZ 2 (Eb + E) = IZR b * (IZR (Zpos M) * powerRZ 2 E))%R)
    by (rewrite Pos2Z.inj_mul, mult_IZR, pow2_add, <- Hb; ring).
  rewrite <- HRe in HR |- *.
  destruct (round_trunc (Mb * M) (Eb + E)) as (x & Hx & _ & U & L & T);
    [rewrite Pos2Z.inj_mul; nia | lia | exact HR |].
  exists x. split; [exact Hx|]. split; [exact U|]. split; [exact L|exact T].
Qed.

Lemma IZR_pow_lit (n : Z) (c : Z) : 0 <= n -> 2 ^ n = c -> powerRZ 2 n = IZR c.
Proof. intros Hn <-. apply pow2_IZR; exact Hn. Qed.

Lemma base_values (M : positive) (E : Z) : 2 ^ 52 <= Zpos M < 2 ^ 53 -> -54 <= E ->
  (/ 4 <= IZR (Zpos M) * powerRZ 2 E <= IZR (2 ^ 1012))%R ->
  exists x10 x20 x40 x100,
    mul_trunc 10 (S754_finite false M E) = Ok x10 /\ mul_trunc 20 (S754_finite false M E) = Ok x20 /\
    mul_trunc 40 (S754_finite false M E) = Ok x40 /\ mul_trunc 100 (S754_finite false M E) = Ok x100 /\
    2 <= x10 /\ 2 * x10 <= x20 <= 2 * x10 + 1 /\ 5 <= x20 /\ 2 * x20 <= x40 <= 2 * x20 + 1 /\
    2 * x40 <= x100 <= 3 * x40 + 3 /\ 25 <= x100 /\ x100 <= 2 ^ 1019.
Proof.
  intros HM HE Hm.
  set (m := (IZR (Zpos M) * powerRZ 2 E)%R) in *.
  assert (HE2 : E <= 960).
  { destruct (Z_le_gt_dec E 960) as [|L]; [assumption|exfalso].
    assert (X : (powerRZ 2 1013 <= m)%R).
    { unfold m. replace 1013 with (52 + (1013 - 52)) by lia. rewrite pow2_add, (pow2_IZR 52) by lia.
      apply Rmult_le_compat; [apply IZR_le; lia | apply Rlt_le, pow2_pos | apply IZR_le; lia | apply pow2_le; lia]. }
    rewrite pow2_IZR in X by lia.
    assert (IZR (2 ^ 1013) = 2 * IZR (2 ^ 1012))%R by (rewrite <- mult_IZR; reflexivity).
    assert (0 < IZR (2 ^ 1012))%R by (apply IZR_lt; lia). lra. }
  destruct (base_doubling M E HM ltac:(lia)) as (x10 & x20 & x40 & X10 & X20 & X40 & D1 & D2).
  set (A := IZR (2 ^ 1012)) in *.
  assert (H1022 : powerRZ 2 1022 = (1024 * A)%R)
    by (unfold A; rewrite (pow2_IZR 1022) by lia; rewrite <- mult_IZR; reflexivity).
  assert (HA : (0 < A)%R) by (apply IZR_lt; lia).
  assert (Hm0 : (0 < m)%R) by lra.
  destruct (base_bounds M E 10 5629499534213120 (-49)) as (y10 & Y10 & U10 & L10 & T10);
    [exact float_of_Z_10 | lia | lia | change (-49) with (- (49)); rewrite (pow2_neg 49) by lia; change (2 ^ 49) with 562949953421312; lra | exact HM | exact HE | rewrite H1022; fold m; lra |].
  destruct (base_bounds M E 40 5629499534213120 (-47)) as (y40 & Y40 & U40 & L40 & T40);
    [exact float_of_Z_40 | lia | lia | change (-47) with (- (47)); rewrite (pow2_neg 47) by lia; change (2 ^ 47) with 140737488355328; lra | exact HM | exact HE | rewrite H1022; fold m; lra |].
  destruct (base_bounds M E 20 5629499534213120 (-48)) as (y20 & Y20 & U20 & L20 & T20);
    [exact float_of_Z_20 | lia | lia | change (-48) with (- (48)); rewrite (pow2_neg 48) by lia; change (2 ^ 48) with 281474976710656; lra | exact HM | exact HE | rewrite H1022; fold m; lra |].
  destruct (base_bounds M E 100 7036874417766400 (-46)) as (x100 & X100 & U100 & L100 & T100);
    [exact float_of_Z_100 | lia | lia | change (-46) with (- (46)); rewrite (pow2_neg 46) by lia; change (2 ^ 46) with 70368744177664; lra | exact HM | exact HE | rewrite H1022; fold m; lra |].
  fold m in U10, L10, T10, U20, L20, T20, U40, L40, T40, U100, L100, T100.
  rewrite X10 in Y10. injection Y10 as <-.
  rewrite X20 in Y20. injection Y20 as <-.
  rewrite X40 in Y40. injection Y40 as <-.
  assert (B10 : 1 < x10) by (apply lt_IZR; lra).
  assert (B20 : 4 < x20).
  { destruct (Rlt_le_dec (IZR 20 * m) 4503599627370496).
    - specialize (T20 r). apply lt_IZR; lra.
    - apply lt_IZR; lra. }
  assert (B100 : 24 < x100).
  { destruct (Rlt_le_dec (IZR 100 * m) 4503599627370496).
    - specialize (T100 r). apply lt_IZR; lra.
    - apply lt_IZR; lra. }
  assert (C1 : 2 * x40 < x100 + 1) by (apply lt_IZR; rewrite ?plus_IZR, ?mult_IZR; lra).
  assert (C2 : x100 < 3 * x40 + 4) by (apply lt_IZR; rewrite ?plus_IZR, ?mult_IZR; lra).
  assert (C3 : x100 <= 2 ^ 1019).
  { apply le_IZR. replace (IZR (2 ^ 1019)) with (128 * A)%R by (unfold A; rewrite <- mult_IZR; reflexivity).
    lra. }
  exists x10, x20, x40, x100.
  do 4 (split; [assumption|]). lia.
Qed.

Lemma lit_10_10 : lit 10 10 = S754_finite false 4503599627370496 (-52). Proof. reflexivity. Qed.
Lemma lit_11_10 : lit 11 10 = S754_finite false 4953959590107546 (-52). Proof. reflexivity. Qed.
Lemma lit_125_100 : lit 125 100 = S754_finite false 5629499534213120 (-52). Proof. reflexivity. Qed.
Lemma lit_25_10 : lit 25 10 = S754_finite false 5629499534213120 (-51). Proof. reflexivity. Qed.
Lemma lit_13_10 : lit 13 10 = S754_finite false 5854679515581645 (-52). Proof. reflexivity. Qed.
Lemma lit_115_100 : lit 115 100 = S754_finite false 5179139571476070 (-52). Proof. reflexivity. Qed.
Lemma lit_8_10 : lit 8 10 = S754_finite false 7205759403792794 (-53). Proof. reflexivity. Qed.
Lemma lit_6_10 : lit 6 10 = S754_finite false 5404319552844595 (-53). Proof. reflexivity. Qed.
Lemma lit_4_10 : lit 4 10 = S754_finite false 7205759403792794 (-54). Proof. reflexivity. Qed.

Ltac mul_trunc_step :=
  match goal with
  | |- context [mul_trunc ?x (S754_finite false ?M (Zneg ?s))] =>
      let y := fresh "y" in let Ey := fresh "Ey" in
      destruct (mul_trunc_Z x M (Zpos s)) as (y & Ey & ?Hy0 & ?Uy & ?Ly & ?Ty); [lia | lia | lia | lia |];
      cbn [Z.opp] in Ey; rewrite Ey; cbn [bind]
  end.

Lemma priority_stage_ok (x : Z) (p : pyfloat) :
  p = lit 10 10 \/ p = lit 11 10 \/ p = lit 125 100 \/ p = lit 25 10 ->
  1 <= x <= 2 ^ 1019 -> exists y, mul_trunc x p = Ok y.
Proof.
  intros Hp Hx.
  destruct Hp as [->|[->|[->| ->]]];
    rewrite ?lit_10_10, ?lit_11_10, ?lit_125_100, ?lit_25_10;
    [destruct (mul_trunc_Z x 4503599627370496 52) as (y & Ey & _)
    |destruct (mul_trunc_Z x 4953959590107546 52) as (y & Ey & _)
    |destruct (mul_trunc_Z x 5629499534213120 52) as (y & Ey & _)
    |destruct (mul_trunc_Z x 5629499534213120 51) as (y & Ey & _)]; try lia; exists y; exact Ey.
Qed.

Lemma chain_strict (xa xb : Z) (p : pyfloat) (tmr : res pyfloat) :
  p = lit 10 10 \/ p = lit 11 10 \/ p = lit 125 100 \/ p = lit 25 10 ->
  (exists e, tmr = Err e) \/ tmr = Ok (lit 13 10) \/ tmr = Ok (lit 115 100) \/
  tmr = Ok (lit 10 10) \/ tmr = Ok (lit 8 10) \/ tmr = Ok (lit 6 10) \/ tmr = Ok (lit 4 10) ->
  2 <= xa -> 2 * xa <= xb -> 5 <= xb -> xb <= 2 ^ 1019 ->
  match (let* x := mul_trunc xa p in let* tm := tmr in let* x := mul_trunc x tm in Ok (Z.max x 1)),
        (let* x := mul_trunc xb p in let* tm := tmr in let* x := mul_trunc x tm in Ok (Z.max x 1)) with
  | Ok x1, Ok x2 => x1 < x2
  | Err e1, Err e2 => e1 = e2
  | _, _ => False
  end.
Proof.
  intros Hp Ht H1 H2 H3 H4.
  destruct Ht as [[e ->]|Ht].
  - destruct (priority_stage_ok xa p Hp ltac:(lia)) as [ya ->].
    destruct (priority_stage_ok xb p Hp ltac:(lia)) as [yb ->].
    reflexivity.
  - destruct Hp as [->|[->|[->| ->]]];
    destruct Ht as [->|[->|[->|[->|[->| ->]]]]];
    rewrite ?lit_10_10, ?lit_11_10, ?lit_125_100, ?lit_25_10, ?lit_13_10, ?lit_115_100,
      ?lit_8_10, ?lit_6_10, ?lit_4_10;
    cbn [bind];
    do 4 mul_trunc_step; lia.
Qed.

Lemma float_of_Z_2_1012 : float_of_Z (2 ^ 1012) = S754_finite false 4503599627370496 960.
Proof. vm_compute. reflexivity. Qed.

Lemma lit_25_100 : lit 25 100 = S754_finite false 4503599627370496 (-54).
Proof. reflexivity. Qed.

Lemma canonical_digits (M : positive) (E : Z) :
  valid_binary prec emax (S754_finite false M E) = true -> -54 <= E -> 2 ^ 52 <= Zpos M < 2 ^ 53.
Proof.
  intros Hv HE.
  assert (HD : Zdigits2 (Zpos M) = 53).
  { cbn [valid_binary bounded canonical_mantissa] in Hv.
    apply andb_prop in Hv as [Hv _]. apply Z.eqb_eq in Hv.
    unfold fexp, emin, prec, emax in Hv. cbn [Zdigits2]. lia. }
  pose proof (Zdigits2_bounds M) as HB. rewrite HD in HB. exact HB.
Qed.

Lemma multiplier_decode_lit (m : pyfloat) :
  valid_binary prec emax m = true ->
  SFleb (S754_finite false 4503599627370496 (-54)) m = true ->
  SFleb m (S754_finite false 4503599627370496 960) = true ->
  exists M E, m = S754_finite false M E /\ 2 ^ 52 <= Zpos M < 2 ^ 53 /\ -54 <= E /\
    (E < 960 \/ E = 960 /\ Zpos M <= 2 ^ 52).
Proof.
  unfold SFleb.
  intros Hv Hlo Hhi.
  destruct m as [s|s| |s M E]; try (destruct s); try discriminate.
  exists M, E.
  cbn [SFcompare] in Hlo, Hhi.
  assert (HE : -54 <= E) by (destruct (Z.compare_spec (-54) E); [lia|lia|discriminate]).
  split; [reflexivity|]. split; [exact (canonical_digits M E Hv HE)|]. split; [exact HE|].
  destruct (Z.compare_spec E 960) as [->|L|L]; [right; split; [reflexivity|] | left; exact L | discriminate].
  assert (Hpow : 2 ^ 52 = Zpos 4503599627370496) by reflexivity. rewrite Hpow.
  destruct (Pos.compare_cont Eq M 4503599627370496) eqn:Q; [ | | discriminate];
    rewrite Pos.compare_cont_spec in Q;
    destruct (Pos.compare M 4503599627370496) eqn:Q2; cbn [Pos.switch_Eq] in Q; try discriminate.
  - apply Pos.compare_eq in Q2. rewrite Q2. apply Z.le_refl.
  - apply Z.lt_le_incl. apply Pos2Z.pos_lt_pos. exact Q2.
Qed.
Lemma multiplier_decode (m : pyfloat) :
  valid_binary prec emax m = true -> fge m (lit 25 100) = true ->
  fge (float_of_Z (2 ^ 1012)) m = true ->
  exists M E, m = S754_finite false M E /\ 2 ^ 52 <= Zpos M < 2 ^ 53 /\ -54 <= E /\
    (E < 960 \/ E = 960 /\ Zpos M <= 2 ^ 52).
Proof.
  unfold fge. rewrite lit_25_100, float_of_Z_2_1012. apply multiplier_decode_lit.
Qed.

Lemma multiplier_range (M : positive) (E : Z) :
  2 ^ 52 <= Zpos M < 2 ^ 53 -> -54 <= E -> (E < 960 \/ E = 960 /\ Zpos M <= 2 ^ 52) ->
  (/ 4 <= IZR (Zpos M) * powerRZ 2 E <= IZR (2 ^ 1012))%R.
Proof.
  intros HM HE HU. split.
  - assert (Q : (/ 4 = IZR (2 ^ 52) * powerRZ 2 (- (54)))%R).
    { rewrite (pow2_neg 54) by lia.
      assert (P52 : 2 ^ 52 = 4503599627370496) by reflexivity.
      assert (P54 : 2 ^ 54 = 18014398509481984) by reflexivity.
      rewrite P52, P54. lra. }
    rewrite Q.
    apply Rmult_le_compat; [apply IZR_le; lia | apply Rlt_le, pow2_pos | apply IZR_le; lia | apply pow2_le; lia].
  - destruct HU as [L|[-> HM']].
    + apply Rle_trans with (IZR (2 ^ 53) * powerRZ 2 959)%R.
      * apply Rmult_le_compat; [apply IZR_le; lia | apply Rlt_le, pow2_pos | apply IZR_le; lia | apply pow2_le; lia].
      * rewrite (pow2_IZR 959) by lia. rewrite <- mult_IZR. apply IZR_le. lia.
    + rewrite (pow2_IZR 960) by lia. rewrite <- mult_IZR. apply IZR_le.
      apply Z.le_trans with (2 ^ 52 * 2 ^ 960); [apply Z.mul_le_mono_nonneg_r; lia | lia].
Qed.

(** C7 (amended): for every task whose category multiplier is a finite
    binary64 number between 0.25 and 2^1012, every time and difficulties
    d1 < d2 (easy < medium < hard < expert), the two [calculate_task_xp]
    calls raise the same error or the d1 value is strictly below the d2
    value. *)
Theorem C7_difficulty_strictly_monotone (t : Task) (now : Z) (d1 d2 : string)
  (Hv : valid_binary prec emax (xp_multiplier t) = true)
  (Hlo : fge (xp_multiplier t) (lit 25 100) = true)
  (Hhi : fge (float_of_Z (2 ^ 1012)) (xp_multiplier t) = true)
  (Hlt : difficulty_lt d1 d2 = true) :
  match calculate_task_xp (with_difficulty t d1) now,
        calculate_task_xp (with_difficulty t d2) now with
  | Ok x1, Ok x2 => x1 < x2
  | Err e1, Err e2 => e1 = e2
  | _, _ => False
  end.
Proof.
  assert (R1 : exists r, difficulty_rank d1 = Some r)
    by (unfold difficulty_lt in Hlt; destruct (difficulty_rank d1); [eauto | discriminate]).
  assert (R2 : exists r, difficulty_rank d2 = Some r)
    by (unfold difficulty_lt in Hlt; destruct (difficulty_rank d1), (difficulty_rank d2);
        [eauto | discriminate ..]).
  destruct R1 as [r1 R1], R2 as [r2 R2].
  destruct (multiplier_decode _ Hv Hlo Hhi) as (M & E & Hm & HM & HE & HU).
  pose proof (multiplier_range M E HM HE HU) as Hr.
  destruct (base_values M E HM HE Hr)
    as (x10 & x20 & x40 & x100 & X10 & X20 & X40 & X100 & B).
  unfold calculate_task_xp; rewrite !timing_modifier_with_difficulty.
  unfold with_difficulty; cbn [difficulty priority xp_multiplier].
  rewrite Hm.
  pose proof (priority_bonus_cases (priority t)) as Hp.
  pose proof (timing_modifier_cases t now) as Ht.
  destruct (difficulty_rank_cases d1 r1 R1) as [->|[->|[->| ->]]];
  destruct (difficulty_rank_cases d2 r2 R2) as [->|[->|[->| ->]]];
  try discriminate Hlt; cbn [base_xp String.eqb Ascii.eqb Bool.eqb];
  rewrite ?X10, ?X20, ?X40, ?X100; cbn [bind];
  apply chain_strict; auto; lia.
Qed.

Lemma C7_difficulty_strictly_monotone_witness :
  let t := with_multiplier (easy_task 0) (lit 25 100) in
  (valid_binary prec emax (xp_multiplier t) = true /\
   fge (xp_multiplier t) (lit 25 100) = true /\
   fge (float_of_Z (2 ^ 1012)) (xp_multiplier t) = true /\
   difficulty_lt "easy" "expert" = true) /\
  match calculate_task_xp (with_difficulty t "easy") 0,
        calculate_task_xp (with_difficulty t "expert") 0 with
  | Ok x1, Ok x2 => x1 < x2
  | Err e1, Err e2 => e1 = e2
  | _, _ => False
  end.
Proof.
  cbv zeta.
  split; [split; [vm_compute; reflexivity | split; [vm_compute; reflexivity | split; vm_compute; reflexivity]]|].
  apply C7_difficulty_strictly_monotone; vm_compute; reflexivity.
Defined.

(** C7: just below 0.25 (the multiplier 0x1.fffffffffffffp-3) an easy and
    a medium task of low priority completed very late both earn the floor
    of 1 XP; at the other end, with the multiplier 1e307 the easy task
    earns XP while the expert one raises OverflowError. *)
Lemma C7_below_quarter_ties :
  let m := S754_finite false 9007199254740991 (-55) in
  let t := mkTask 0 "easy" "low" 1 "Development" m false (Some 1000000) None 0 in
  let big := with_multiplier (easy_task 0) (float_of_Z (10 ^ 307)) in
  valid_binary prec emax m = true /\ fge (lit 25 100) m = true /\ fge m (lit 25 100) = false /\
  get_timing_modifier t 3000000 = Ok (lit 4 10) /\
  calculate_task_xp (with_difficulty t "easy") 3000000 = Ok 1 /\
  calculate_task_xp (with_difficulty t "medium") 3000000 = Ok 1 /\
  valid_binary prec emax (xp_multiplier big) = true /\
  (exists x, calculate_task_xp (with_difficulty big "easy") 0 = Ok x) /\
  calculate_task_xp (with_difficulty big "expert") 0 = Err OverflowError.
Proof. vm_compute. repeat split; try reflexivity. eexists; reflexivity. Qed.

(** ** Level caching *)

Lemma update_level_result (fuel : nat) (p : Profile) (db : DB) (p' : Profile) (db' : DB) :
  update_level fuel p db = Ok (p', db') -> p' = set_level p (level_of (total_xp p)).
Proof.
  destruct fuel as [|f]; cbn [update_level];
    destruct (current_level p <? current_level (set_level p (level_of (total_xp p))));
    intro H; try discriminate; try (injection H as <- _; reflexivity).
  unfold bind in H.
  destruct (check_level_with _ _ _ _ _) as [[q d]|e]; [|discriminate].
  injection H as <- _; reflexivity.
Qed.

Lemma update_level_consistent (fuel : nat) (p : Profile) (db : DB) (p' : Profile) (db' : DB) :
  update_level fuel p db = Ok (p', db') ->
  current_level p' = level_of (total_xp p') /\ total_xp p' = total_xp p.
Proof. intro H; apply update_level_result in H; subst p'; split; reflexivity. Qed.

Lemma unlock_achievement_consistent (fuel : nat) (p : Profile) (db : DB) (a : Achievement)
  (p' : Profile) (db' : DB) :
  unlock_achievement fuel p db a = Ok (p', db') -> current_level p' = level_of (total_xp p').
Proof.
  unfold unlock_achievement, unlock_with.
  destruct (unlocked db a); [discriminate|].
  intro H; apply update_level_consistent in H; tauto.
Qed.

Lemma check_all_loop_consistent (fuel : nat) (l : list Achievement) :
  forall p db newly p' db',
  current_level p = level_of (total_xp p) ->
  check_all_loop fuel l p db = Ok (newly, p', db') ->
  current_level p' = level_of (total_xp p').
Proof.
  induction l as [|a r IH]; intros p db newly p' db' Hp H; simpl in H.
  - injection H as _ <- _; exact Hp.
  - destruct (negb (unlocked db a) && (threshold a <=? get_achievement_progress p db a))%bool.
    + unfold bind in H.
      destruct (unlock_achievement fuel p db a) as [[q d]|e] eqn:U; [|discriminate].
      destruct (check_all_loop fuel r q d) as [[[n q'] d']|e] eqn:C; [|discriminate].
      injection H as _ <- _.
      exact (IH q d n q' d' (unlock_achievement_consistent fuel p db a q d U) C).
    + exact (IH p db newly p' db' Hp H).
Qed.

Lemma award_task_xp_consistent (fuel : nat) (t : Task) (now : Z) (p : Profile) (db : DB)
  (xp : Z) (msg : string) (p' : Profile) (db' : DB) :
  fst (can_complete_task t now) = true ->
  award_task_xp fuel t now p db = Ok (xp, msg, p', db') ->
  current_level p' = level_of (total_xp p').
Proof.
  intro Hc; unfold award_task_xp.
  destruct (can_complete_task t now) as [b m]; simpl in Hc; subst b; simpl.
  unfold bind.
  destruct (calculate_task_xp t now) as [x|e]; [|discriminate].
  destruct (update_streak (date_of now) p db) as [[bonus q] d].
  destruct (get_timing_status t now) as [ts|e]; [|discriminate].
  match goal with |- context [update_level fuel ?q0 ?d0] =>
    destruct (update_level fuel q0 d0) as [[q1 d1]|e] eqn:U; [|discriminate] end.
  destruct (check_all_achievements fuel q1 d1) as [[[n q2] d2]|e] eqn:C; [|discriminate].
  intro H; injection H as _ _ <- _.
  apply update_level_consistent in U as [U _].
  exact (check_all_loop_consistent fuel _ q1 d1 n q2 d2 U C).
Qed.

Lemma update_streak_keeps_level (today : Z) (p : Profile) (db : DB) :
  let '(_, p', _) := update_streak today p db in
  current_level p' = current_level p /\ total_xp p' = total_xp p.
Proof.
  unfold update_streak.
  destruct (opt_eqZ (last_activity_date p) today); [split; reflexivity|].
  match goal with |- context [if ?b then _ else _] => destruct b end; split; reflexivity.
Qed.

(** C4 (amended): a fresh profile has current_level 0 (the field
    default) with total_xp 0; [level_of total] is the largest L with
    [calculate_xp_for_level L <= total] for every total >= 0; and right
    after [award_task_xp] (on a task that may be completed) or
    [unlock_achievement] returns, the engine's profile has
    current_level = [level_of total_xp], while [update_streak] changes
    neither field. *)
Theorem C4_level_after_operations :
  current_level fresh_profile = 0 /\ total_xp fresh_profile = 0 /\
  (forall total, 0 <= total -> is_level_for total (level_of total)) /\
  (forall fuel t now p db xp msg p' db',
     fst (can_complete_task t now) = true ->
     award_task_xp fuel t now p db = Ok (xp, msg, p', db') ->
     current_level p' = level_of (total_xp p')) /\
  (forall fuel p db a p' db',
     unlock_achievement fuel p db a = Ok (p', db') ->
     current_level p' = level_of (total_xp p')) /\
  (forall today p db,
     let '(_, p', _) := update_streak today p db in
     current_level p' = current_level p /\ total_xp p' = total_xp p).
Proof.
  split; [reflexivity|]; split; [reflexivity|].
  split; [exact level_of_largest|].
  split; [exact award_task_xp_consistent|].
  split; [exact unlock_achievement_consistent|].
  exact update_streak_keeps_level.
Qed.

(** C4: the fresh profile's level is 0, while the largest level reached by
    its 0 XP is 1. *)
Lemma C4_fresh_profile_level_zero : current_level fresh_profile = 0 /\ level_of (total_xp fresh_profile) = 1.
Proof. split; reflexivity. Qed.

(** ** Derived profile and weekly-review quantities *)


Lemma div_core_self (m : Z) :
  0 < m -> SFdiv_core_binary prec emax m 0 m 0 = (2 ^ 53, -53, loc_Exact).
Proof.
  intro Hm. unfold SFdiv_core_binary.
  replace (Zdigits2 m + 0 - (Zdigits2 m + 0)) with 0 by lia.
  change (Z.min (fexp prec emax 0) (0 - 0)) with (-53).
  change (0 - 0 - -53) with 53.
  rewrite Z.shiftl_mul_pow2 by lia.
  rewrite (surjective_pairing (Z.div_eucl (m * 2 ^ 53) m)).
  change (fst (Z.div_eucl (m * 2 ^ 53) m)) with ((m * 2 ^ 53) / m).
  change (snd (Z.div_eucl (m * 2 ^ 53) m)) with ((m * 2 ^ 53) mod m).
  rewrite Z.mul_comm, Z.div_mul, Z.mod_mul by lia.
  unfold new_location; destruct (Z.even m); reflexivity.
Qed.

Lemma int_truediv_self (t : Z) : t <> 0 -> int_truediv t t = Ok (float_of_Z 1).
Proof.
  intro Ht. unfold int_truediv.
  rewrite (proj2 (Z.eqb_neq t 0) Ht).
  destruct t as [|q|q]; [congruence| |];
    rewrite div_core_self by lia; vm_compute; reflexivity.
Qed.

Lemma int_truediv_zero (t : Z) : t <> 0 -> exists s, int_truediv 0 t = Ok (S754_zero s).
Proof.
  intro Ht. unfold int_truediv. rewrite (proj2 (Z.eqb_neq t 0) Ht). eexists; reflexivity.
Qed.

Lemma rate_of_self (t : Z) : t <> 0 ->
  (let* q := int_truediv t t in py_int (fmul q (float_of_Z 100))) = Ok 100.
Proof. intro Ht; rewrite int_truediv_self by exact Ht; vm_compute; reflexivity. Qed.

Lemma rate_of_zero (t : Z) : t <> 0 ->
  (let* q := int_truediv 0 t in py_int (fmul q (float_of_Z 100))) = Ok 0.
Proof.
  intro Ht; destruct (int_truediv_zero t Ht) as [s ->]; destruct s; reflexivity.
Qed.

(** Extra: [Profile.punctuality_rate] returns 100 when nothing was completed on a deadline,
    100 when there are no late completions, and 0 when all completions were late. *)
Theorem punctuality_rate_edges (p : Profile) :
  let e := total_early_completions p in
  let o := total_on_time_completions p in
  let l := total_late_completions p in
  (e + o + l = 0 -> punctuality_rate p = Ok 100) /\
  (l = 0 -> e + o <> 0 -> punctuality_rate p = Ok 100) /\
  (e + o = 0 -> l <> 0 -> punctuality_rate p = Ok 0).
Proof.
  cbv zeta; unfold punctuality_rate; repeat split; intros H1.
  - rewrite H1; reflexivity.
  - intro H2. rewrite H1, Z.add_0_r, (proj2 (Z.eqb_neq _ 0) H2). apply rate_of_self, H2.
  - intro H2. rewrite H1, Z.add_0_l, (proj2 (Z.eqb_neq _ 0) H2). apply rate_of_zero, H2.
Qed.

(** Extra: edge values of [WeeklyReview.completion_rate] and [punctuality_score]: 0 and 100
    for an empty week, 100 when nothing was late, 0 when everything was late, and a
    punctuality score of 100 when every completion was early. *)
Theorem weekly_rates_edges (r : WeeklyReview) :
  let e := early_completions r in
  let o := on_time_completions r in
  let l := late_completions r in
  (e + o + l = 0 -> completion_rate r = Ok 0 /\ punctuality_score r = Ok 100) /\
  (l = 0 -> e + o <> 0 -> completion_rate r = Ok 100) /\
  (e = 0 -> o = 0 -> l <> 0 -> completion_rate r = Ok 0 /\ punctuality_score r = Ok 0) /\
  (o = 0 -> l = 0 -> e <> 0 -> punctuality_score r = Ok 100).
Proof.
  cbv zeta; unfold completion_rate, punctuality_score.
  split; [|split; [|split]].
  - intro H1; rewrite H1; split; reflexivity.
  - intros H1 H2. rewrite H1, Z.add_0_r, (proj2 (Z.eqb_neq _ 0) H2). apply rate_of_self, H2.
  - intros H1 H2 H3. rewrite H1, H2; cbn [Z.add Z.mul]. rewrite (proj2 (Z.eqb_neq _ 0) H3). split.
    + apply rate_of_zero, H3.
    + apply rate_of_zero. lia.
  - intros H1 H2 H3. rewrite H1, H2, !Z.add_0_r.
    rewrite (proj2 (Z.eqb_neq _ 0) H3). apply rate_of_self. lia.
Qed.

(** Extra: [WeeklyReview.performance_grade] is monotone in the performance score with
    respect to the order F < D < C < C+ < B < B+ < A < A+. *)
Theorem performance_grade_monotone (r1 r2 : WeeklyReview) :
  performance_score r1 <= performance_score r2 ->
  (grade_rank (performance_grade r1) <= grade_rank (performance_grade r2))%nat.
Proof.
  unfold performance_grade.
  generalize (performance_score r1) (performance_score r2); intros s1 s2 H.
  repeat match goal with |- context [if ?b then _ else _] =>
    let E := fresh "E" in destruct b eqn:E end;
  repeat match goal with
  | H : (_ <=? _) = true |- _ => apply Z.leb_le in H
  | H : (_ <=? _) = false |- _ => apply Z.leb_gt in H
  end; cbv; lia.
Qed.

Lemma performance_grade_monotone_witness :
  performance_score (mkWeeklyReview 0 7 5 1 2 2 65) <= performance_score (mkWeeklyReview 0 7 5 4 1 0 95) /\
  (grade_rank (performance_grade (mkWeeklyReview 0 7 5 1 2 2 65)) <=
   grade_rank (performance_grade (mkWeeklyReview 0 7 5 4 1 0 95)))%nat.
Proof.
  assert (H : performance_score (mkWeeklyReview 0 7 5 1 2 2 65) <= performance_score (mkWeeklyReview 0 7 5 4 1 0 95))
    by (simpl; lia).
  split; [exact H|exact (performance_grade_monotone _ _ H)].
Defined.

Lemma level_of_exact (total l : Z) :
  1 <= l -> calculate_xp_for_level l <= total < calculate_xp_for_level (l + 1) ->
  level_of total = l.
Proof.
  intros H1 [H2 H3].
  assert (H0 : 0 <= total) by (pose proof (calc_xp_nonneg l); lia).
  destruct (level_of_spec total H0) as (M1 & M2 & M3).
  destruct (Z.lt_trichotomy (level_of total) l) as [Hlt|[Heq|Hgt]]; [|exact Heq|].
  - pose proof (calc_xp_mono (level_of total + 1) l ltac:(lia)); lia.
  - pose proof (calc_xp_mono (l + 1) (level_of total) ltac:(lia)); lia.
Qed.

(** Extra: the level [update_level] computes ([level_of]) is monotone in the total XP,
    and every level L >= 1 is reached exactly at XP [calculate_xp_for_level L] and kept up
    to one XP below [calculate_xp_for_level (L+1)]. *)
Theorem level_of_monotone_and_thresholds :
  (forall t1 t2, 0 <= t1 <= t2 -> level_of t1 <= level_of t2) /\
  (forall l, 1 <= l -> level_of (calculate_xp_for_level l) = l /\
                       level_of (calculate_xp_for_level (l + 1) - 1) = l).
Proof.
  split.
  - intros t1 t2 H. destruct (level_of_spec t1 ltac:(lia)) as (_ & H2 & _).
    destruct (level_of_largest t2 ltac:(lia)) as [_ L]. apply L. lia.
  - intros l Hl. rewrite !calc_xp_formula by lia. split; apply level_of_exact; try lia;
      rewrite !calc_xp_formula by lia; nia.
Qed.

(** Extra: for a profile whose level is consistent with its total XP, the current level
    segment spans 100*(L+1) XP, the progress inside it lies in [0, segment) and the XP
    still needed for the next level lies in (0, 100*(L+1)]. *)
Theorem profile_level_progress (p : Profile)
  (H0 : 0 <= total_xp p) (Hl : current_level p = level_of (total_xp p)) :
  xp_for_next_level p - xp_for_current_level p = 100 * (current_level p + 1) /\
  0 <= xp_progress_in_current_level p < xp_for_next_level p - xp_for_current_level p /\
  0 < xp_needed_for_next_level p <= 100 * (current_level p + 1).
Proof.
  destruct (level_of_spec (total_xp p) H0) as (L1 & L2 & L3).
  rewrite <- Hl in L1, L2, L3.
  unfold xp_needed_for_next_level, xp_progress_in_current_level, xp_for_next_level, xp_for_current_level in *.
  rewrite !calc_xp_formula in * by lia.
  repeat split; nia.
Qed.

Lemma profile_level_progress_witness :
  let p := mkProfile 250 2 0 0 None 0 0 0 in
  (0 <= total_xp p /\ current_level p = level_of (total_xp p)) /\
  (xp_for_next_level p - xp_for_current_level p = 100 * (current_level p + 1) /\
   0 <= xp_progress_in_current_level p < xp_for_next_level p - xp_for_current_level p /\
   0 < xp_needed_for_next_level p <= 100 * (current_level p + 1)).
Proof.
  cbv zeta. split; [split; [simpl; lia | vm_compute; reflexivity]|].
  apply profile_level_progress; [simpl; lia | vm_compute; reflexivity].
Defined.

(** Extra: a profile at level 0 or below has both level thresholds at 0, a progress
    percentage of 100.0 and needs minus its total XP for the next level. *)
Theorem progress_percentage_unlevelled (p : Profile) (H : current_level p <= 0) :
  xp_for_current_level p = 0 /\ xp_for_next_level p = 0 /\
  progress_percentage p = Ok (float_of_Z 100) /\
  xp_needed_for_next_level p = - total_xp p.
Proof.
  unfold progress_percentage, xp_needed_for_next_level, xp_for_next_level, xp_for_current_level.
  rewrite !calc_xp_low by lia. repeat split; reflexivity || lia.
Qed.

Lemma progress_percentage_unlevelled_witness :
  current_level fresh_profile <= 0 /\
  xp_for_current_level fresh_profile = 0 /\ xp_for_next_level fresh_profile = 0 /\
  progress_percentage fresh_profile = Ok (float_of_Z 100) /\
  xp_needed_for_next_level fresh_profile = - total_xp fresh_profile.
Proof. split; [simpl; lia | apply progress_percentage_unlevelled; simpl; lia]. Defined.

(** ** Streaks, reviews, achievements, missions, rankings, settings *)

(** Extra: On a day other than the last active one, [update_streak] sets
    the streak to one more than before if the last activity was
    yesterday and to 1 otherwise; the longest streak never decreases and
    bounds the current one; total XP and level are unchanged; a bonus of
    5 XP per day, logged once, is paid exactly on multiples of 7; a
    second call on the same day pays nothing and changes nothing. *)

Theorem update_streak_new_day (today : Z) (p : Profile) (db : DB)
  (Hc : 0 <= current_streak p) (Hd : last_activity_date p <> Some today) :
  let '(bonus, p', db') := update_streak today p db in
  let cur := current_streak p' in
  cur = (if opt_eqZ (last_activity_date p) (today - 1) then current_streak p + 1 else 1) /\
  1 <= cur <= longest_streak p' /\ longest_streak p <= longest_streak p' /\
  last_activity_date p' = Some today /\
  total_xp p' = total_xp p /\ current_level p' = current_level p /\
  bonus = (if cur mod 7 =? 0 then cur * 5 else 0) /\
  xp_logs db' = xp_logs db ++ (if cur mod 7 =? 0 then [mkXPLog "streak_bonus" (cur * 5) None] else []) /\
  db_profile db' = p' /\
  update_streak today p' db' = (0, p', db').
Proof.
  unfold update_streak.
  assert (E : opt_eqZ (last_activity_date p) today = false).
  { destruct (last_activity_date p) as [d|]; [simpl|reflexivity].
    apply Z.eqb_neq; congruence. }
  rewrite E.
  remember (match last_activity_date p with
              | Some d => if d =? today - 1 then current_streak p + 1 else 1
              | None => 1 end) as cur eqn:Hcdef.
  assert (Hcur : cur = (if opt_eqZ (last_activity_date p) (today - 1) then current_streak p + 1 else 1))
    by (rewrite Hcdef; destruct (last_activity_date p); reflexivity).
  assert (H1 : 1 <= cur) by (rewrite Hcur; destruct (opt_eqZ (last_activity_date p) (today - 1)); lia).
  assert (Hb : (0 <? cur) = true) by (apply Z.ltb_lt; lia). rewrite Hb; cbn [andb].
  clear Hcdef.
  destruct (cur mod 7 =? 0) eqn:H7; destruct (longest_streak p <? cur) eqn:L;
    cbn; rewrite ?Z.eqb_refl, ?H7;
    (split; [exact Hcur|]);
    (try apply Z.ltb_lt in L); (try apply Z.ltb_ge in L);
    repeat split; try reflexivity; try lia; symmetry; apply app_nil_r.
Qed.

Lemma update_streak_new_day_witness :
  let p := mkProfile 0 1 6 6 (Some 4) 0 0 0 in
  let db := mkDB p [] [] [] [] in
  ((0 <= current_streak p /\ last_activity_date p <> Some 5) /\
  (let '(bonus, p', db') := update_streak 5 p db in
  let cur := current_streak p' in
  cur = (if opt_eqZ (last_activity_date p) (5 - 1) then current_streak p + 1 else 1) /\
  1 <= cur <= longest_streak p' /\ longest_streak p <= longest_streak p' /\
  last_activity_date p' = Some 5 /\
  total_xp p' = total_xp p /\ current_level p' = current_level p /\
  bonus = (if cur mod 7 =? 0 then cur * 5 else 0) /\
  xp_logs db' = xp_logs db ++ (if cur mod 7 =? 0 then [mkXPLog "streak_bonus" (cur * 5) None] else []) /\
  db_profile db' = p' /\
  update_streak 5 p' db' = (0, p', db'))) /\
  (let '(bonus, p', _) := update_streak 5 p db in (bonus, current_streak p')) = (35, 7).
Proof.
  cbv zeta.
  split; [split; [split; [simpl; lia | discriminate]|]|].
  - apply update_streak_new_day; [simpl; lia | discriminate].
  - vm_compute; reflexivity.
Defined.

Lemma insert_unique_In (d x : Z) (l : list Z) : In x (insert_unique d l) <-> x = d \/ In x l.
Proof.
  induction l as [|y r IH]; simpl; [firstorder congruence|].
  destruct (d <? y) eqn:E1; [simpl; firstorder congruence|].
  destruct (d =? y) eqn:E2; [apply Z.eqb_eq in E2; subst; simpl; firstorder congruence|].
  simpl; rewrite IH; firstorder congruence.
Qed.

Lemma sorted_unique_In (x : Z) (l : list Z) : In x (sorted_unique l) <-> In x l.
Proof.
  induction l as [|y r IH]; simpl; [tauto|].
  rewrite insert_unique_In, IH; firstorder congruence.
Qed.

Lemma insert_unique_sorted (d : Z) (l : list Z) :
  StronglySorted Z.lt l -> StronglySorted Z.lt (insert_unique d l).
Proof.
  induction l as [|y r IH]; intro H; simpl.
  - repeat constructor.
  - inversion H as [|? ? Hr Hy]; subst.
    destruct (d <? y) eqn:E1.
    + apply Z.ltb_lt in E1. constructor; [exact H|].
      constructor; [exact E1|]. eapply Forall_impl; [|exact Hy]; intros; simpl; lia.
    + destruct (d =? y) eqn:E2; [exact H|].
      apply Z.ltb_ge in E1; apply Z.eqb_neq in E2.
      constructor; [apply IH, Hr|].
      apply Forall_forall; intros x Hx. apply insert_unique_In in Hx as [->|Hx]; [lia|].
      rewrite Forall_forall in Hy; apply Hy, Hx.
Qed.

Lemma sorted_unique_sorted (l : list Z) : StronglySorted Z.lt (sorted_unique l).
Proof. induction l; simpl; [constructor|apply insert_unique_sorted; assumption]. Qed.

Lemma strongly_sorted_last (l : list Z) (x : Z) :
  StronglySorted Z.lt l -> In x l -> x <= last l 0.
Proof.
  induction l as [|y r IH]; intros H Hx; [inversion Hx|].
  inversion H as [|? ? Hr Hy]; subst.
  destruct r as [|z r].
  - destruct Hx as [->|[]]; simpl; lia.
  - change (last (y :: z :: r) 0) with (last (z :: r) 0).
    destruct Hx as [->|Hx]; [|apply IH; assumption].
    assert (Hz : In (last (z :: r) 0) (z :: r)).
    { clear. revert z; induction r as [|w r IH]; intro z; [left; reflexivity|].
      right; apply IH. }
    rewrite Forall_forall in Hy; specialize (Hy _ Hz); lia.
Qed.

Lemma last_In (l : list Z) : l <> [] -> In (last l 0) l.
Proof.
  induction l as [|y r IH]; intro H; [congruence|].
  destruct r as [|z r]; [left; reflexivity|].
  right; apply IH; discriminate.
Qed.

Lemma recalc_fold_bounds (ds : list Z) (c l : Z) (last : option Z) (k : Z) :
  0 <= c <= k -> 0 <= l <= k -> (last <> None -> 1 <= c) ->
  let '(c', l', last') := fold_left recalc_step ds (c, l, last) in
  0 <= c' <= k + Z.of_nat (List.length ds) /\ 0 <= l' <= k + Z.of_nat (List.length ds) /\
  (last' <> None -> 1 <= c').
Proof.
  revert c l last k; induction ds as [|d r IH]; intros c l last k Hc Hl Hs.
  - simpl; split; [lia|split; [lia|exact Hs]].
  - cbn [fold_left List.length]. rewrite Nat2Z.inj_succ.
    replace (k + Z.succ (Z.of_nat (List.length r))) with ((k + 1) + Z.of_nat (List.length r)) by lia.
    unfold recalc_step at 2.
    destruct last as [x|].
    + destruct (d =? x + 1).
      * apply IH; [lia|lia|intros _; lia].
      * apply IH; [lia| |intros _; lia].
        assert (1 <= c) by (apply Hs; discriminate). lia.
    + apply IH; [lia|lia|intros _; lia].
Qed.

(** Extra: On a non-empty list of completion times, [recalculate_streak]
    yields a current streak between 1 and the longest streak, a longest
    streak at most the number of distinct completion days, and the
    latest completion day as last activity, and saves exactly these
    values. *)

Theorem recalculate_streak_bounds (cs : list Z) (p : Profile) (db : DB) (H : cs <> []) :
  let ds := sorted_unique (map date_of cs) in
  let '(r, p', db') := recalculate_streak cs p db in
  exists cur longest last,
    r = Some (cur, longest, Some last) /\
    1 <= cur <= longest /\ longest <= Z.of_nat (List.length ds) /\
    In last (map date_of cs) /\ Forall (fun d => d <= last) (map date_of cs) /\
    p' = set_streaks p cur longest (Some last) /\ db' = save p' db.
Proof.
  cbv zeta. unfold recalculate_streak.
  destruct cs as [|c0 cs]; [congruence|].
  set (ds := sorted_unique (map date_of (c0 :: cs))).
  assert (Hne : ds <> []) by (unfold ds; simpl; apply insert_unique_nonempty).
  pose proof (fold_recalc_last ds (0, 0, None) Hne) as HL.
  pose proof (recalc_fold_bounds ds 0 0 None 0 ltac:(lia) ltac:(lia) ltac:(congruence)) as HB.
  destruct (fold_left recalc_step ds (0, 0, None)) as [[c l] lst] eqn:F.
  simpl in HL; subst lst.
  destruct HB as (B1 & B2 & B3). specialize (B3 ltac:(discriminate)).
  exists c, (Z.max l c), (last ds 0). repeat split; try reflexivity; try lia.
  - apply sorted_unique_In. apply last_In, Hne.
  - apply Forall_forall; intros x Hx. apply strongly_sorted_last.
    + apply sorted_unique_sorted.
    + apply sorted_unique_In, Hx.
Qed.

Lemma recalculate_streak_bounds_witness :
  [3 * us_per_day; 4 * us_per_day; 9 * us_per_day] <> [] /\
  (let ds := sorted_unique (map date_of [3 * us_per_day; 4 * us_per_day; 9 * us_per_day]) in
  let '(r, p', db') := recalculate_streak [3 * us_per_day; 4 * us_per_day; 9 * us_per_day] fresh_profile fresh_db in
  exists cur longest last,
    r = Some (cur, longest, Some last) /\
    1 <= cur <= longest /\ longest <= Z.of_nat (List.length ds) /\
    In last (map date_of [3 * us_per_day; 4 * us_per_day; 9 * us_per_day]) /\
    Forall (fun d => d <= last) (map date_of [3 * us_per_day; 4 * us_per_day; 9 * us_per_day]) /\
    p' = set_streaks fresh_profile cur longest (Some last) /\ db' = save p' fresh_db).
Proof. split; [discriminate | apply recalculate_streak_bounds; discriminate]. Defined.

(** Extra: [get_timing_modifier] and [get_timing_status] fail together
    with the same error, or succeed on one of the seven matching
    (modifier, status) pairs. *)

Theorem timing_status_matches_modifier (t : Task) (now : Z) :
  (exists e, get_timing_modifier t now = Err e /\ get_timing_status t now = Err e) \/
  (exists m s, get_timing_modifier t now = Ok m /\ get_timing_status t now = Ok s /\
               In (m, s) timing_pairs).
Proof.
  unfold get_timing_modifier, get_timing_status.
  destruct (due_date t) as [due|].
  - destruct (time_remaining_ratio t due now) as [r|e]; simpl.
    + right. do 2 eexists; split; [reflexivity|split; [reflexivity|]].
      unfold timing_pairs.
      destruct (fge r (lit 5 10)); [simpl; tauto|].
      destruct (fge r (lit 25 100)); [simpl; tauto|].
      destruct (fge r (lit 0 1)); [simpl; tauto|].
      destruct (fge r (lit (-25) 100)); [simpl; tauto|].
      destruct (fge r (lit (-5) 10)); simpl; tauto.
    + left; exists e; split; reflexivity.
  - right; do 2 eexists; split; [reflexivity|split; [reflexivity|left; reflexivity]].
Qed.

Lemma timing_step_count (c : Z * Z * Z) (t : Task) (c' : Z * Z * Z) :
  timing_step c t = Ok c' ->
  let '(e, o, l) := c in let '(e', o', l') := c' in
  e <= e' /\ o <= o' /\ l <= l' /\
  e' + o' + l' = e + o + l + (if has_due_date t && (if completed_at t then true else false) then 1 else 0).
Proof.
  destruct c as [[e o] l]; destruct c' as [[e' o'] l'].
  unfold timing_step, has_due_date.
  destruct (completed_at t) as [comp|]; destruct (due_date t) as [due|]; simpl;
    try (intro H; inversion H; subst; lia).
  destruct (comp <=? due); [|intro H; inversion H; subst; lia].
  destruct (fdiv _ _) as [r|err]; simpl; [|discriminate].
  destruct (fge r (lit 25 100)); intro H; inversion H; subst; lia.
Qed.

Lemma timing_loop_count (l : list Task) (c c' : Z * Z * Z) :
  timing_loop c l = Ok c' ->
  let '(e, o, la) := c in let '(e', o', la') := c' in
  e <= e' /\ o <= o' /\ la <= la' /\
  e' + o' + la' = e + o + la +
    Z.of_nat (List.length (filter (fun t => has_due_date t && (if completed_at t then true else false)) l)).
Proof.
  revert c; induction l as [|t r IH]; intros c H.
  - simpl in H; inversion H; subst. destruct c' as [[e o] la]; simpl; lia.
  - simpl in H. destruct (timing_step c t) as [c1|err] eqn:S; simpl in H; [|discriminate].
    specialize (IH c1 H). pose proof (timing_step_count c t c1 S) as HS.
    destruct c as [[e o] la]; destruct c1 as [[e1 o1] la1]; destruct c' as [[e' o'] la'].
    cbn [filter].
    destruct (has_due_date t && (if completed_at t then true else false)); cbn [List.length]; lia.
Qed.

Lemma filter_length_le {A} (f : A -> bool) (l : list A) : (List.length (filter f l) <= List.length l)%nat.
Proof. induction l; simpl; [lia|destruct (f a); simpl; lia]. Qed.

(** Extra: A weekly review spans the 7 days up to today; its early,
    on-time and late counters are non-negative, add up to the number of
    the week's tasks with a due date, and never exceed its task count. *)

Theorem weekly_review_counters (now : Z) (db : DB) (r : WeeklyReview)
  (H : generate_weekly_review now db = Ok r) :
  week_end r = date_of now /\ week_end r - week_start r = 7 /\
  0 <= early_completions r /\ 0 <= on_time_completions r /\ 0 <= late_completions r /\
  early_completions r + on_time_completions r + late_completions r =
    Z.of_nat (List.length (filter has_due_date (filter (in_week (week_start r) (week_end r)) (tasks db)))) /\
  early_completions r + on_time_completions r + late_completions r <= total_tasks r.
Proof.
  unfold generate_weekly_review in H.
  set (wk := filter (in_week (date_of now - 7) (date_of now)) (tasks db)) in H.
  destruct (timing_loop (0, 0, 0) (filter has_due_date wk)) as [[[e o] l]|err] eqn:TL;
    simpl in H; [|discriminate].
  destruct (performance_score_of _ e o) as [sc|err]; simpl in H; [|discriminate].
  inversion H; subst r; clear H; cbn [week_start week_end total_tasks early_completions
    on_time_completions late_completions].
  pose proof (timing_loop_count _ _ _ TL) as C; cbn beta iota in C.
  assert (Hf : filter (fun t => has_due_date t && (if completed_at t then true else false))
                 (filter has_due_date wk) = filter has_due_date wk).
  { assert (Hc : forall t, In t wk -> completed_at t <> None).
    { intros t Ht. unfold wk in Ht. apply filter_In in Ht as [_ Ht].
      unfold in_week in Ht. destruct (completed_at t); [discriminate|].
      rewrite andb_false_r in Ht; discriminate. }
    generalize Hc; clear. induction wk as [|t r IH]; intro Hc; [reflexivity|].
    cbn [filter]. destruct (has_due_date t) eqn:Hd.
    - cbn [filter andb]. rewrite Hd. cbn [andb].
      destruct (completed_at t) eqn:Ec; [|exfalso; apply (Hc t); [left; reflexivity|exact Ec]].
      f_equal. apply IH. intros; apply Hc; right; assumption.
    - apply IH. intros; apply Hc; right; assumption. }
  rewrite Hf in C.
  pose proof (filter_length_le has_due_date wk).
  fold wk; repeat split; lia.
Qed.

Lemma weekly_review_counters_witness :
  generate_weekly_review (1006 * us_per_day + 5) early_week_db =
    Ok (mkWeeklyReview 999 1006 7 7 0 0 120) /\
  (let r := mkWeeklyReview 999 1006 7 7 0 0 120 in
  week_end r = date_of (1006 * us_per_day + 5) /\ week_end r - week_start r = 7 /\
  0 <= early_completions r /\ 0 <= on_time_completions r /\ 0 <= late_completions r /\
  early_completions r + on_time_completions r + late_completions r =
    Z.of_nat (List.length (filter has_due_date (filter (in_week (week_start r) (week_end r)) (tasks early_week_db)))) /\
  early_completions r + on_time_completions r + late_completions r <= total_tasks r).
Proof.
  assert (H : generate_weekly_review (1006 * us_per_day + 5) early_week_db = Ok (mkWeeklyReview 999 1006 7 7 0 0 120))
    by (vm_compute; reflexivity).
  split; [exact H|]. exact (weekly_review_counters _ _ _ H).
Defined.

Lemma bump_count_bound (k n : Z) (cs : list (Z * Z)) : 0 <= n ->
  Forall (fun kv => 1 <= snd kv <= n) cs ->
  Forall (fun kv => 1 <= snd kv <= n + 1) (bump_count k cs).
Proof.
  intro Hn0; induction cs as [|[k' m] r IH]; intro H; simpl.
  - constructor; [simpl; lia|constructor].
  - inversion H as [|? ? Hm Hr]; subst; simpl in Hm.
    destruct (k =? k'); constructor; simpl; try lia.
    + eapply Forall_impl; [|exact Hr]; intros ? Ha; simpl in *; lia.
    + apply IH, Hr.
Qed.

Lemma bump_count_nonempty (k : Z) (cs : list (Z * Z)) : bump_count k cs <> [].
Proof. destruct cs as [|[k' m] r]; simpl; [discriminate|destruct (k =? k'); discriminate]. Qed.

Lemma category_counts_bound (ts : list Task) (cs : list (Z * Z)) (n : Z) : 0 <= n ->
  Forall (fun kv => 1 <= snd kv <= n) cs ->
  let cs' := fold_left (fun c t => bump_count (category_id t) c) ts cs in
  Forall (fun kv => 1 <= snd kv <= n + Z.of_nat (List.length ts)) cs' /\
  (cs' = [] -> cs = [] /\ ts = []).
Proof.
  revert cs n; induction ts as [|t r IH]; intros cs n Hn0 H.
  - simpl; split; [rewrite Z.add_0_r; exact H|tauto].
  - destruct (IH (bump_count (category_id t) cs) (n + 1) ltac:(lia) (bump_count_bound _ _ _ Hn0 H)) as [H1 H2].
    split.
    + replace (n + Z.of_nat (List.length (t :: r))) with (n + 1 + Z.of_nat (List.length r))
        by (cbn [List.length]; lia).
      exact H1.
    + intro E; destruct (H2 E) as [E' _]; exfalso; exact (bump_count_nonempty _ _ E').
Qed.

Lemma fold_max_bounds (l : list Z) (n lo hi : Z) :
  lo <= n <= hi -> Forall (fun x => lo <= x <= hi) l -> lo <= fold_left Z.max l n <= hi.
Proof.
  revert n; induction l as [|x r IH]; intros n Hn H; simpl; [exact Hn|].
  inversion H; subst. apply IH; [lia|assumption].
Qed.

(** Extra: Task-count progress is the number of completed tasks; timing
    progress lies between 0 and it; category progress is 0 without
    completions and otherwise between 1 and the number of completions. *)

Theorem achievement_progress_bounds (p : Profile) (db : DB) (i th x : Z) :
  let tc := get_achievement_progress p db (mkAchievement i "task_count" th x) in
  let cat := get_achievement_progress p db (mkAchievement i "category" th x) in
  let tim := get_achievement_progress p db (mkAchievement i "timing" th x) in
  tc = Z.of_nat (List.length (completed_tasks db)) /\
  0 <= tim <= tc /\
  (tc = 0 -> cat = 0) /\ (0 < tc -> 1 <= cat <= tc).
Proof.
  cbv zeta. unfold get_achievement_progress; cbn [achievement_type String.eqb Ascii.eqb Bool.eqb andb].
  split; [reflexivity|]. split.
  - pose proof (filter_length_le completed_early (completed_tasks db)); lia.
  - destruct (category_counts_bound (completed_tasks db) [] 0 ltac:(lia) (Forall_nil _)) as [H1 H2].
    destruct (fold_left _ (completed_tasks db) []) as [|[k n] r] eqn:F.
    + destruct (H2 eq_refl) as [_ ->]; simpl; split; intro; lia.
    + inversion H1 as [|? ? Hn Hr]; subst; simpl in Hn.
      split.
      * intro E. destruct (completed_tasks db); simpl in E, Hn; [lia|lia].
      * intros _. apply fold_max_bounds; [lia|].
        rewrite Forall_map. eapply Forall_impl; [|exact Hr]; intros ? Ha; simpl in *; lia.
Qed.

Lemma db_extends_refl (db : DB) : db_extends db db.
Proof.
  repeat split; try reflexivity; [exists []|exists []|]; rewrite ?app_nil_r; auto.
Qed.

Lemma db_extends_trans (a b c : DB) : db_extends a b -> db_extends b c -> db_extends a c.
Proof.
  intros (A1 & A2 & [l1 A3] & [u1 A4] & A5) (B1 & B2 & [l2 B3] & [u2 B4] & B5).
  repeat split; try congruence.
  - exists (l1 ++ l2); rewrite B3, A3, app_assoc; reflexivity.
  - exists (u1 ++ u2); rewrite B4, A4, app_assoc; reflexivity.
  - tauto.
Qed.

Lemma db_extends_save (p : Profile) (db : DB) : db_extends db (save p db).
Proof. exact (db_extends_refl db). Qed.

Lemma db_extends_add_log (l : XPLog) (db : DB) : db_extends db (add_log l db).
Proof.
  repeat split; [exists [l]; reflexivity|exists []; rewrite app_nil_r; reflexivity|auto].
Qed.

Lemma unlocked_false_notin (db : DB) (a : Achievement) :
  unlocked db a = false -> ~ In (achievement_id a) (unlocked_ids db).
Proof.
  unfold unlocked, unlocked_ids. intros H Hin.
  apply in_map_iff in Hin as [[k v] [Hk Hin]]; simpl in Hk; subst k.
  assert (existsb (fun ua => fst ua =? achievement_id a) (user_achievements db) = true)
    by (apply existsb_exists; exists (achievement_id a, v); split; [exact Hin|apply Z.eqb_refl]).
  congruence.
Qed.

Lemma db_extends_add_ua (a : Achievement) (v : Z) (db : DB) :
  unlocked db a = false -> db_extends db (add_user_achievement (achievement_id a, v) db).
Proof.
  intro H. repeat split; [exists []; rewrite app_nil_r; reflexivity|exists [(achievement_id a, v)]; reflexivity|].
  intro N. unfold unlocked_ids; simpl. rewrite map_app; simpl.
  apply NoDup_app; [exact N|repeat constructor; simpl; tauto|].
  intros x Hx [Hy|[]]; subst x. exact (unlocked_false_notin db a H Hx).
Qed.

Lemma unlocked_extends (db db' : DB) (a : Achievement) :
  db_extends db db' -> unlocked db a = true -> unlocked db' a = true.
Proof.
  intros (_ & _ & _ & [u E] & _). unfold unlocked. rewrite E, existsb_app. intros ->; reflexivity.
Qed.

Section Growth.

Variable ul : Profile -> DB -> res (Profile * DB).
Hypothesis ul_extends : forall p db p' db', ul p db = Ok (p', db') -> db_extends db db'.

Lemma unlock_with_extends (p : Profile) (db : DB) (a : Achievement) (p' : Profile) (db' : DB) :
  unlock_with ul p db a = Ok (p', db') -> db_extends db db'.
Proof.
  unfold unlock_with. destruct (unlocked db a) eqn:U; [discriminate|].
  intro H; apply ul_extends in H.
  eapply db_extends_trans; [apply (db_extends_add_ua a (get_achievement_progress p db a) db U)|].
  eapply db_extends_trans; [apply db_extends_add_log|].
  eapply db_extends_trans; [apply db_extends_save|exact H].
Qed.

Lemma unlock_each_extends (l : list Achievement) :
  forall p db p' db', unlock_each ul l p db = Ok (p', db') -> db_extends db db'.
Proof.
  induction l as [|a r IH]; intros p db p' db' H; simpl in H.
  - injection H as _ <-; apply db_extends_refl.
  - destruct (unlocked db a); [exact (IH _ _ _ _ H)|].
    unfold bind in H. destruct (unlock_with ul p db a) as [[q d]|e] eqn:U; [|discriminate].
    eapply db_extends_trans; [exact (unlock_with_extends _ _ _ _ _ U)|exact (IH _ _ _ _ H)].
Qed.

End Growth.

Lemma update_level_extends (fuel : nat) :
  forall p db p' db', update_level fuel p db = Ok (p', db') -> db_extends db db'.
Proof.
  induction fuel as [|f IH]; intros p db p' db' H; cbn [update_level] in H.
  - destruct (_ <? _); [discriminate|injection H as _ <-; apply db_extends_refl].
  - destruct (_ <? _); [|injection H as _ <-; apply db_extends_refl].
    unfold bind in H.
    match type of H with context [check_level_with ?u ?q0 ?d0 ?o ?n] =>
      destruct (check_level_with u q0 d0 o n) as [[q d]|e] eqn:C; [|discriminate] end.
    injection H as _ <-.
    eapply db_extends_trans; [apply db_extends_save|].
    exact (unlock_each_extends _ IH _ _ _ _ _ C).
Qed.

Lemma check_all_loop_extends (fuel : nat) (l : list Achievement) :
  forall p db newly p' db', check_all_loop fuel l p db = Ok (newly, p', db') ->
  db_extends db db' /\ incl newly l.
Proof.
  induction l as [|a r IH]; intros p db newly p' db' H; simpl in H.
  - injection H as <- _ <-; split; [apply db_extends_refl|intros x []].
  - destruct (negb (unlocked db a) && (threshold a <=? get_achievement_progress p db a))%bool.
    + unfold bind in H.
      destruct (unlock_achievement fuel p db a) as [[q d]|e] eqn:U; [|discriminate].
      destruct (check_all_loop fuel r q d) as [[[n q'] d']|e] eqn:C; [|discriminate].
      injection H as <- _ <-.
      destruct (IH _ _ _ _ _ C) as [E I]. split.
      * eapply db_extends_trans; [exact (unlock_with_extends _ (update_level_extends fuel) _ _ _ _ _ U)|exact E].
      * intros x [->|Hx]; [left; reflexivity|right; apply I, Hx].
    + destruct (IH _ _ _ _ _ H) as [E I]; split; [exact E|intros x Hx; right; apply I, Hx].
Qed.

Lemma update_streak_extends (today : Z) (p : Profile) (db : DB) :
  let '(_, _, db') := update_streak today p db in db_extends db db'.
Proof.
  unfold update_streak.
  destruct (opt_eqZ (last_activity_date p) today); [apply db_extends_refl|].
  match goal with |- context [if ?b then _ else _] => destruct b end;
    (eapply db_extends_trans; [|apply db_extends_save]); [apply db_extends_add_log|apply db_extends_refl].
Qed.

Lemma award_task_xp_db_extends (fuel : nat) (t : Task) (now : Z) (p : Profile) (db : DB)
  (xp : Z) (msg : string) (p' : Profile) (db' : DB)
  (H : award_task_xp fuel t now p db = Ok (xp, msg, p', db')) :
  db_extends db db'.
Proof.
  revert H; unfold award_task_xp.
  destruct (can_complete_task t now) as [b m]; destruct b; simpl;
    [|intro H; injection H as _ _ _ <-; apply db_extends_refl].
  unfold bind.
  destruct (calculate_task_xp t now) as [x|e]; [|discriminate].
  pose proof (update_streak_extends (date_of now) p db) as S.
  destruct (update_streak (date_of now) p db) as [[bonus q] d].
  destruct (get_timing_status t now) as [ts|e]; [|discriminate].
  match goal with |- context [update_level fuel ?q0 ?d0] =>
    destruct (update_level fuel q0 d0) as [[q1 d1]|e] eqn:U; [|discriminate] end.
  destruct (check_all_achievements fuel q1 d1) as [[[n q2] d2]|e] eqn:C; [|discriminate].
  intro H; injection H as _ _ _ <-.
  eapply db_extends_trans; [exact S|].
  eapply db_extends_trans; [apply db_extends_add_log|].
  eapply db_extends_trans; [apply db_extends_save|].
  eapply db_extends_trans; [exact (update_level_extends _ _ _ _ _ U)|].
  exact (proj1 (check_all_loop_extends _ _ _ _ _ _ _ C)).
Qed.

Lemma replace_mission_In (m : UserMission) (rows : list UserMission) : In m (replace_mission m rows).
Proof.
  induction rows as [|x r IH]; simpl; [left; reflexivity|].
  destruct (mission_id x =? mission_id m); [left; reflexivity|right; exact IH].
Qed.

Lemma inactive_mission_final (m : UserMission) (st : MissionStore) (now inc : Z) :
  is_active m = false ->
  complete_mission now m st = (Ok false, m, st) /\
  update_progress now inc m st = (Ok false, m, st) /\
  fail_mission m st = (Ok false, m, st).
Proof. intro H; unfold complete_mission, update_progress, fail_mission; rewrite H; repeat split. Qed.

(** Extra: On an active mission [complete_mission] stores it as
    completed at [now] and then raises [AttributeError] on
    [award_mission_xp], creating no notification; the stored mission is
    final: no mission method changes it again. *)

Theorem complete_mission_raises_after_saving (now : Z) (m : UserMission) (st : MissionStore)
  (H : is_active m = true) :
  let '(r, m', st') := complete_mission now m st in
  r = Err (AttributeError "award_mission_xp") /\
  mission_status m' = "completed"%string /\ mission_completed_at m' = Some now /\
  mission_id m' = mission_id m /\ mission_current_progress m' = mission_current_progress m /\
  In m' (mission_rows st') /\ notifications st' = notifications st /\
  (forall now' inc, complete_mission now' m' st' = (Ok false, m', st') /\
                    update_progress now' inc m' st' = (Ok false, m', st') /\
                    fail_mission m' st' = (Ok false, m', st')).
Proof.
  unfold complete_mission at 1. rewrite H; cbn [negb].
  repeat split; try reflexivity; apply replace_mission_In.
Qed.

(** Extra: On an active mission [update_progress] adds the increment and
    stores the mission; when the target is reached it goes through
    [complete_mission] and raises, otherwise it returns true with status
    and completion time unchanged. *)

Theorem update_progress_cases (now inc : Z) (m : UserMission) (st : MissionStore)
  (H : is_active m = true) :
  let '(r, m', st') := update_progress now inc m st in
  mission_current_progress m' = mission_current_progress m + inc /\
  In m' (mission_rows st') /\ notifications st' = notifications st /\
  (mission_target_value m <= mission_current_progress m + inc ->
     r = Err (AttributeError "award_mission_xp") /\
     mission_status m' = "completed"%string /\ mission_completed_at m' = Some now) /\
  (mission_current_progress m + inc < mission_target_value m ->
     r = Ok true /\ mission_status m' = mission_status m /\
     mission_completed_at m' = mission_completed_at m).
Proof.
  unfold update_progress. rewrite H; cbn [negb].
  cbn [mission_target_value mission_current_progress set_progress].
  destruct (mission_target_value m <=? mission_current_progress m + inc) eqn:E.
  - apply Z.leb_le in E. unfold complete_mission.
    replace (is_active (set_progress m (mission_current_progress m + inc) (mission_completed_at m)))
      with true by (symmetry; exact H).
    cbn [negb].
    repeat split; try reflexivity; try (intros; lia).
    apply replace_mission_In.
  - apply Z.leb_gt in E.
    repeat split; try reflexivity; try (intros; lia).
    apply replace_mission_In.
Qed.

(** Extra: On an active mission [fail_mission] stores it as failed,
    creates one 'mission_failed' notification for it and returns true;
    the failed mission is final. *)

Theorem fail_mission_notifies (m : UserMission) (st : MissionStore) (H : is_active m = true) :
  let '(r, m', st') := fail_mission m st in
  r = Ok true /\ mission_status m' = "failed"%string /\ mission_id m' = mission_id m /\
  In m' (mission_rows st') /\
  notifications st' = notifications st ++ [("mission_failed"%string, mission_id m)] /\
  (forall now' inc, complete_mission now' m' st' = (Ok false, m', st') /\
                    update_progress now' inc m' st' = (Ok false, m', st') /\
                    fail_mission m' st' = (Ok false, m', st')).
Proof.
  unfold fail_mission at 1. rewrite H; cbn [negb].
  repeat split; try reflexivity; apply replace_mission_In.
Qed.

(** Extra: A mission's progress percentage is 100 when its target is not
    positive or reached exactly, and 0 when no progress was made. *)

Theorem mission_progress_percentage_edges (m : UserMission) :
  let c := mission_current_progress m in let tv := mission_target_value m in
  (tv <= 0 -> mission_progress_percentage m = Ok 100) /\
  (0 < tv -> c = tv -> mission_progress_percentage m = Ok 100) /\
  (0 < tv -> c = 0 -> mission_progress_percentage m = Ok 0).
Proof.
  cbv zeta; unfold mission_progress_percentage; split; [|split].
  - intro H; apply Z.leb_le in H; rewrite H; reflexivity.
  - intros H1 H2. rewrite (proj2 (Z.leb_gt _ _) H1), H2, int_truediv_self by lia.
    vm_compute; reflexivity.
  - intros H1 H2. rewrite (proj2 (Z.leb_gt _ _) H1), H2.
    unfold int_truediv. rewrite (proj2 (Z.eqb_neq (mission_target_value m) 0) ltac:(lia)).
    destruct (mission_target_value m <? 0); reflexivity.
Qed.

Lemma replace_task_In (t : Task) (ts : list Task) : In t (replace_task t ts).
Proof.
  induction ts as [|x r IH]; simpl; [left; reflexivity|].
  destruct (task_id x =? task_id t); [left; reflexivity|right; exact IH].
Qed.

Lemma award_task_xp_tasks (fuel : nat) (t : Task) (now : Z) (p : Profile) (db : DB)
  (xp : Z) (msg : string) (p' : Profile) (db' : DB) :
  award_task_xp fuel t now p db = Ok (xp, msg, p', db') -> tasks db' = tasks db.
Proof. intro H; exact (proj1 (proj2 (award_task_xp_db_extends _ _ _ _ _ _ _ _ _ H))). Qed.

(** Extra: [Task.complete_task] returns false with the task and store
    unchanged, or true after marking the task completed at [now] and
    storing it, which it only does for a task that was not completed and
    may be completed; a second call then returns false with 'Task is
    already completed'. *)

Theorem complete_task_once (fuel : nat) (t : Task) (now : Z) (db : DB)
  (b : bool) (msg : string) (t' : Task) (db' : DB)
  (H : complete_task fuel t now db = Ok (b, msg, t', db')) :
  (b = false -> t' = t /\ db' = db) /\
  (b = true -> is_completed t = false /\ fst (can_complete_task t now) = true /\
     t' = mark_completed t now /\ In t' (tasks db') /\
     forall now', complete_task fuel t' now' db' = Ok (false, "Task is already completed"%string, t', db')).
Proof.
  revert H; unfold complete_task.
  destruct (is_completed t) eqn:C.
  - intro H; injection H as <- _ <- <-; split; [tauto|discriminate].
  - destruct (can_complete_task t now) as [cc m] eqn:CC. destruct cc; cbn [negb].
    + unfold bind.
      destruct (award_task_xp fuel (mark_completed t now) now (db_profile db)
                  (save_task (mark_completed t now) db)) as [[[[x xm] q] d]|e] eqn:A; [|discriminate].
      intro H; injection H as <- _ <- <-. split; [discriminate|intros _].
      repeat split; try reflexivity.
      rewrite (award_task_xp_tasks _ _ _ _ _ _ _ _ _ A). apply replace_task_In.
    + intro H; injection H as <- _ <- <-; split; [tauto|discriminate].
Qed.

(** Extra: [assign_daily_missions] returns [] without a profile and
    otherwise raises FieldError on [assigned_date]; [get_user_missions]
    always raises FieldError, on [mission_type] when a non-empty type is
    given and on [assigned_date] otherwise. *)

Theorem mission_service_queries (order_rows : list UserMission -> list UserMission)
  (today user_id : Z) (mission_type : option string) (rows : list UserMission) :
  assign_daily_missions today user_id false rows = Ok [] /\
  assign_daily_missions today user_id true rows = Err (FieldError "assigned_date") /\
  get_user_missions order_rows user_id mission_type rows =
    Err (FieldError (match mission_type with
                     | Some mt => if String.eqb mt "" then "assigned_date" else "mission_type"
                     | None => "assigned_date" end)).
Proof.
  split; [reflexivity|split; [reflexivity|]].
  destruct mission_type as [mt|]; [|reflexivity].
  unfold get_user_missions; cbn [bind usermission_filter resolve_all resolves_usermission].
  destruct (String.eqb mt ""); reflexivity.
Qed.

Lemma assign_loop_zero (today : Z) (users : list (Z * bool)) (rows : list UserMission) :
  assign_loop today users rows 0 =
  (0, if existsb snd users then Some (FieldError "assigned_date") else None).
Proof.
  induction users as [|[uid hp] r IH]; [reflexivity|].
  destruct hp; [reflexivity|]. exact IH.
Qed.

(** Extra: [run_daily_maintenance] never assigns a mission; a failing
    ranking update is reported and stops it; otherwise one user with a
    profile makes it stop with FieldError [assigned_date] before the
    notification cleanup, and without such a user it completes. *)

Theorem run_daily_maintenance_outcome (rankings_outcome : res unit) (today : Z)
  (active_users : list (Z * bool)) (rows : list UserMission) (old_notifications : Z) :
  let r := run_daily_maintenance rankings_outcome today active_users rows old_notifications in
  missions_assigned r = 0 /\
  (forall e, rankings_outcome = Err e ->
     leaderboards_updated r = false /\ maintenance_error r = Some e) /\
  (rankings_outcome = Ok tt -> existsb snd active_users = true ->
     leaderboards_updated r = true /\
     maintenance_error r = Some (FieldError "assigned_date") /\
     notifications_cleaned r = 0 /\ old_notifications_deleted r = false /\
     last_maintenance_run_set r = false) /\
  (rankings_outcome = Ok tt -> existsb snd active_users = false ->
     leaderboards_updated r = true /\ maintenance_error r = None /\
     notifications_cleaned r = old_notifications /\ old_notifications_deleted r = true /\
     last_maintenance_run_set r = true).
Proof.
  cbv zeta; unfold run_daily_maintenance; rewrite assign_loop_zero.
  destruct rankings_outcome as [[]|e].
  - destruct (existsb snd active_users); repeat split; try discriminate; intros; discriminate.
  - repeat split; intros; try discriminate; try congruence.
    injection H as ->; reflexivity.
Qed.

Lemma insert_desc_perm (x : Z * ScoreData) (l : list (Z * ScoreData)) : Permutation (insert_desc x l) (x :: l).
Proof.
  induction l as [|y r IH]; simpl; [reflexivity|].
  destruct (total_score (snd y) <? total_score (snd x)); [reflexivity|].
  rewrite IH; apply perm_swap.
Qed.

Lemma sort_desc_perm_aux (l acc : list (Z * ScoreData)) :
  Permutation (fold_left (fun acc x => insert_desc x acc) l acc) (rev l ++ acc).
Proof.
  revert acc; induction l as [|x r IH]; intro acc; simpl; [reflexivity|].
  rewrite IH, insert_desc_perm, <- app_assoc; simpl. reflexivity.
Qed.

Lemma sort_desc_perm (l : list (Z * ScoreData)) : Permutation (sort_desc l) l.
Proof.
  unfold sort_desc; rewrite sort_desc_perm_aux, app_nil_r. apply Permutation_sym, Permutation_rev.
Qed.

Lemma insert_desc_sorted (x : Z * ScoreData) (l : list (Z * ScoreData)) :
  Sorted score_ge l -> Sorted score_ge (insert_desc x l).
Proof.
  induction l as [|y r IH]; intro H; simpl.
  - repeat constructor.
  - destruct (total_score (snd y) <? total_score (snd x)) eqn:E.
    + apply Z.ltb_lt in E. constructor; [exact H|constructor; unfold score_ge; lia].
    + apply Z.ltb_ge in E. inversion H as [|? ? Hr Hy]; subst.
      constructor; [apply IH, Hr|].
      destruct r as [|z r]; simpl.
      * constructor; unfold score_ge; lia.
      * inversion Hy; subst.
        destruct (total_score (snd z) <? total_score (snd x)); constructor; unfold score_ge in *; lia.
Qed.

Lemma sort_desc_sorted (l : list (Z * ScoreData)) : Sorted score_ge (sort_desc l).
Proof.
  unfold sort_desc. assert (H : Sorted score_ge ([] : list (Z * ScoreData))) by constructor.
  revert H; generalize ([] : list (Z * ScoreData)).
  induction l as [|x r IH]; intros acc H; simpl; [exact H|apply IH, insert_desc_sorted, H].
Qed.

Lemma dict_set_keys {A} (k : Z) (v : A) (d : list (Z * A)) (x : Z) :
  In x (map fst (dict_set k v d)) <-> x = k \/ In x (map fst d).
Proof.
  induction d as [|[k' v'] r IH]; simpl; [firstorder congruence|].
  destruct (k =? k') eqn:E; simpl.
  - apply Z.eqb_eq in E; subst; firstorder congruence.
  - rewrite IH; firstorder congruence.
Qed.

Lemma dict_set_nodup {A} (k : Z) (v : A) (d : list (Z * A)) :
  NoDup (map fst d) -> NoDup (map fst (dict_set k v d)).
Proof.
  induction d as [|[k' v'] r IH]; intro H; simpl; [repeat constructor; simpl; tauto|].
  inversion H as [|? ? Hn Hr]; subst.
  destruct (k =? k') eqn:E; simpl.
  - apply Z.eqb_eq in E; subst. constructor; assumption.
  - apply Z.eqb_neq in E. constructor; [|apply IH, Hr].
    rewrite dict_set_keys. intros [->|Hx]; [congruence|contradiction].
Qed.

Lemma scores_loop_keys (activity : Z -> UserActivity) (users : list Z) :
  forall d d', scores_loop activity users d = Ok d' ->
  NoDup (map fst d) -> NoDup (map fst d') /\
  (forall x, In x (map fst d') <-> In x users \/ In x (map fst d)).
Proof.
  induction users as [|u r IH]; intros d d' H N; simpl in H.
  - injection H as <-; split; [exact N|intro x; simpl; tauto].
  - destruct (score_of (activity u)) as [s|e]; simpl in H; [|discriminate].
    destruct (IH _ _ H (dict_set_nodup u s d N)) as [N' K]; split; [exact N'|].
    intro x; rewrite K, dict_set_keys; simpl. split.
    + intros [Hx|[Hx|Hx]]; [left; right; exact Hx|left; left; symmetry; exact Hx|right; exact Hx].
    + intros [[Hx|Hx]|Hx]; [right; left; symmetry; exact Hx|left; exact Hx|right; right; exact Hx].
Qed.

Lemma py_range_length (a b : Z) : List.length (py_range a b) = Z.to_nat (b - a).
Proof. unfold py_range; rewrite length_map, length_seq; reflexivity. Qed.

Lemma rank_entries_shape (scores : list (Z * ScoreData)) :
  map (fun e => snd (fst e)) (rank_entries scores) = py_range 1 (Z.of_nat (List.length scores) + 1) /\
  map (fun e => fst (fst e)) (rank_entries scores) = map fst scores /\
  map snd (rank_entries scores) = map (fun x => total_score (snd x)) scores.
Proof.
  unfold rank_entries.
  assert (L : List.length (py_range 1 (Z.of_nat (List.length scores) + 1)) = List.length scores)
    by (rewrite py_range_length; lia).
  revert L; generalize (py_range 1 (Z.of_nat (List.length scores) + 1)).
  induction scores as [|[u s] r IH]; intros rk L; destruct rk as [|k rk]; simpl in *; try discriminate.
  - repeat split; reflexivity.
  - injection L as L. destruct (IH rk L) as (A & B & C). rewrite A, B, C. repeat split; reflexivity.
Qed.

Lemma Sorted_map_scores (l : list (Z * ScoreData)) :
  Sorted score_ge l -> Sorted Z.ge (map (fun x => total_score (snd x)) l).
Proof.
  induction l as [|x r IH]; intro H; simpl; [constructor|].
  inversion H as [|? ? Hr Hx]; subst. constructor; [apply IH, Hr|].
  destruct r as [|y r]; simpl; constructor. inversion Hx; subst. unfold score_ge in *; lia.
Qed.

(** Extra: The entries of [update_rankings] carry the ranks 1..n in
    order, non-increasing scores, and each active user exactly once. *)

Theorem update_rankings_ranks (activity : Z -> UserActivity) (active_users : list Z)
  (entries : list (Z * Z * Z)) (H : update_rankings activity active_users = Ok entries) :
  map (fun e => snd (fst e)) entries = py_range 1 (Z.of_nat (List.length entries) + 1) /\
  Sorted Z.ge (map snd entries) /\
  NoDup (map (fun e => fst (fst e)) entries) /\
  (forall uid, In uid (map (fun e => fst (fst e)) entries) <-> In uid active_users).
Proof.
  unfold update_rankings, calculate_user_scores in H.
  destruct (scores_loop activity active_users []) as [d|e] eqn:S; simpl in H; [|discriminate].
  injection H as <-.
  destruct (scores_loop_keys _ _ _ _ S (NoDup_nil _)) as [N K].
  destruct (rank_entries_shape (sort_desc d)) as (A & B & C).
  assert (Le : List.length (rank_entries (sort_desc d)) = List.length (sort_desc d))
    by (rewrite <- (length_map snd), C, length_map; reflexivity).
  rewrite Le, A, B, C.
  assert (P : Permutation (map fst (sort_desc d)) (map fst d)) by (apply Permutation_map, sort_desc_perm).
  repeat split.
  - apply Sorted_map_scores, sort_desc_sorted.
  - eapply Permutation_NoDup; [apply Permutation_sym, P|exact N].
  - intro Hi. apply (Permutation_in _ P) in Hi. apply K in Hi as [Hi|[]]; exact Hi.
  - intro Hi. apply (Permutation_in _ (Permutation_sym P)). apply K; left; exact Hi.
Qed.

Lemma digit_val_char (k : nat) : (k < 10)%nat -> digit_val (ascii_of_nat (48 + k)) = Some (Z.of_nat k).
Proof.
  intro H. do 10 (destruct k as [|k]; [reflexivity|]). lia.
Qed.

Lemma parse_digits_app (ds rest : list ascii) (acc : Z) :
  Forall (fun c => digit_val c <> None) ds ->
  parse_digits (ds ++ rest) acc = parse_digits rest (fold_left digit_step ds acc).
Proof.
  revert acc; induction ds as [|c r IH]; intros acc H; [reflexivity|].
  inversion H as [|? ? Hc Hr]; subst. simpl.
  unfold digit_step at 2. destruct (digit_val c); [apply IH, Hr|congruence].
Qed.

Lemma digits_of_nat_spec (f : nat) :
  forall n acc, (1 <= f)%nat -> 0 <= n < 10 ^ Z.of_nat f ->
  exists c ds, list_ascii_of_string (digits_of_nat f n acc) = c :: ds ++ list_ascii_of_string acc /\
    Forall (fun c => digit_val c <> None) (c :: ds) /\
    fold_left digit_step ds (match digit_val c with Some d => d | None => 0 end) = n.
Proof.
  induction f as [|f IH]; intros n acc Hf Hn; [lia|].
  cbn [digits_of_nat].
  assert (Hd : 0 <= n mod 10 < 10) by (apply Z.mod_pos_bound; lia).
  assert (Hc : digit_val (ascii_of_nat (48 + Z.to_nat (n mod 10))) = Some (n mod 10)).
  { rewrite digit_val_char by lia. f_equal; lia. }
  destruct (n <? 10) eqn:E.
  - apply Z.ltb_lt in E. exists (ascii_of_nat (48 + Z.to_nat (n mod 10))), [].
    split; [reflexivity|]. split; [constructor; [congruence|constructor]|].
    rewrite Hc; simpl. apply Z.mod_small; lia.
  - apply Z.ltb_ge in E.
    destruct f as [|f']; [rewrite Nat2Z.inj_succ in Hn; simpl in Hn; lia|].
    assert (Hn' : 0 <= n / 10 < 10 ^ Z.of_nat (S f')).
    { split; [apply Z.div_pos; lia|].
      rewrite Nat2Z.inj_succ, Z.pow_succ_r in Hn by lia.
      apply Z.div_lt_upper_bound; lia. }
    destruct (IH (n / 10) (String (ascii_of_nat (48 + Z.to_nat (n mod 10))) acc) ltac:(lia) Hn')
      as (c & ds & L & F & V).
    exists c, (ds ++ [ascii_of_nat (48 + Z.to_nat (n mod 10))]).
    split; [rewrite L, <- app_assoc; reflexivity|].
    split.
    + inversion F as [|? ? Fc Fr]; subst. constructor; [exact Fc|].
      apply Forall_app; split; [exact Fr|constructor; [congruence|constructor]].
    + rewrite fold_left_app, V; cbn [fold_left]. unfold digit_step at 1; rewrite Hc.
      pose proof (Z.div_mod n 10); lia.
Qed.

Lemma parse_digits_nil (acc : Z) : parse_digits [] acc = (acc, []).
Proof. reflexivity. Qed.

Lemma py_int_of_string_str_of_Z (n : Z) (H : Z.abs n < 10 ^ 64) :
  py_int_of_string (str_of_Z n) = Ok n.
Proof.
  unfold str_of_Z.
  assert (Hpos : forall m, 0 <= m < 10 ^ 64 -> forall neg : bool,
    (let '(neg', l) := (neg, list_ascii_of_string (digits_of_nat 64 m EmptyString)) in
     match l with
     | c :: r =>
         match digit_val c with
         | Some d =>
             let '(n, rest) := parse_digits r d in
             if forallb is_py_space rest then Ok (if neg' then - n else n) else Err ValueError
         | None => Err ValueError
         end
     | [] => Err ValueError
     end) = Ok (if neg then - m else m)).
  { intros m Hm neg. destruct (digits_of_nat_spec 64 m EmptyString ltac:(lia) Hm) as (c & ds & L & F & V).
    rewrite L. simpl list_ascii_of_string. rewrite app_nil_r.
    apply Forall_cons_iff in F as [Fc Fr].
    destruct (digit_val c) as [d|] eqn:Dc; [|congruence].
    rewrite <- (app_nil_r ds), parse_digits_app by exact Fr. rewrite parse_digits_nil. simpl.
    rewrite V; reflexivity. }
  destruct (n <? 0) eqn:E.
  - apply Z.ltb_lt in E. unfold py_int_of_string.
    cbn [list_ascii_of_string drop_spaces].
    change (is_py_space (ascii_of_nat 45)) with false. cbn iota.
    change (Ascii.eqb (ascii_of_nat 45) "-"%char) with true. cbn iota.
    rewrite (Hpos (- n) ltac:(lia) true). f_equal; lia.
  - apply Z.ltb_ge in E. unfold py_int_of_string.
    destruct (digits_of_nat_spec 64 n EmptyString ltac:(lia) ltac:(lia)) as (c & ds & L & F & V).
    pose proof (Hpos n ltac:(lia) false) as HP. rewrite L in HP |- *.
    apply Forall_cons_iff in F as [Fc Fr].
    destruct (digit_val c) as [d|] eqn:Dc; [|congruence].
    assert (Sc : is_py_space c = false).
    { unfold digit_val in Dc. unfold is_py_space.
      destruct ((48 <=? nat_of_ascii c) && (nat_of_ascii c <=? 57))%nat eqn:R; [|discriminate].
      apply andb_prop in R as [R1 R2]. apply Nat.leb_le in R1.
      destruct ((9 <=? nat_of_ascii c) && (nat_of_ascii c <=? 13))%nat eqn:R3;
        [apply andb_prop in R3 as [_ R3]; apply Nat.leb_le in R3; lia|].
      destruct ((28 <=? nat_of_ascii c) && (nat_of_ascii c <=? 32))%nat eqn:R4;
        [apply andb_prop in R4 as [_ R4]; apply Nat.leb_le in R4; lia|reflexivity]. }
    assert (Mc : Ascii.eqb c "-"%char = false /\ Ascii.eqb c "+"%char = false).
    { unfold digit_val in Dc.
      destruct (Ascii.eqb c "-"%char) eqn:M1; [apply Ascii.eqb_eq in M1; subst; discriminate|].
      destruct (Ascii.eqb c "+"%char) eqn:M2; [apply Ascii.eqb_eq in M2; subst; discriminate|].
      split; reflexivity. }
    cbn [drop_spaces]. rewrite Sc. destruct Mc as [-> ->]. cbn iota. rewrite Dc. exact HP.
Qed.

Lemma find_setting_update (key k : string) (v d : string) (st : list SystemSetting) :
  find_setting k (update_setting key v d st) =
  if String.eqb k key then
    match find_setting key st with
    | Some s => Some (mkSystemSetting key v d (setting_data_type s))
    | None => None
    end
  else find_setting k st.
Proof.
  unfold find_setting; induction st as [|s r IH]; cbn [update_setting find].
  - destruct (String.eqb k key); reflexivity.
  - destruct (String.eqb_spec (setting_key s) key) as [E|E].
    + cbn [find setting_key]. destruct (String.eqb_spec k key) as [E2|E2].
      * subst. rewrite String.eqb_refl; reflexivity.
      * destruct (String.eqb_spec key k); [congruence|].
        destruct (String.eqb_spec (setting_key s) k); [congruence|reflexivity].
    + cbn [find]. destruct (String.eqb_spec (setting_key s) k) as [E3|E3].
      * subst. destruct (String.eqb_spec (setting_key s) key); [congruence|].
        reflexivity.
      * rewrite IH. destruct (String.eqb k key); reflexivity.
Qed.

Lemma find_app' {A} (f : A -> bool) (l1 l2 : list A) :
  find f (l1 ++ l2) = match find f l1 with Some x => Some x | None => find f l2 end.
Proof. induction l1 as [|x r IH]; simpl; [reflexivity|destruct (f x); [reflexivity|exact IH]]. Qed.

Lemma find_setting_app_new (key k : string) (v d : string) (st : list SystemSetting) :
  find_setting key st = None ->
  find_setting k (st ++ [mkSystemSetting key v d "string"]) =
  if String.eqb k key then Some (mkSystemSetting key v d "string") else find_setting k st.
Proof.
  unfold find_setting; intro H. rewrite find_app'.
  destruct (find (fun s => String.eqb (setting_key s) k) st) as [s|] eqn:F.
  - destruct (String.eqb k key) eqn:E; [|reflexivity].
    apply String.eqb_eq in E; subst. congruence.
  - simpl. rewrite String.eqb_sym. destruct (String.eqb k key); reflexivity.
Qed.

(** Extra: After [set_setting], other keys read as before; a new key, or
    an existing key of type 'string', reads back [str(value)]; an
    existing 'integer' key set to an int of at most 64 digits reads back
    that int, and an existing 'boolean' key set to a bool reads back
    that bool. *)

Theorem set_setting_then_get (json : Type) (pf : string -> res pyfloat) (jl : string -> res json)
  (key : string) (v : py_value) (desc : string) (st : list SystemSetting) :
  let st' := set_setting key v desc st in
  (forall k d, k <> key -> get_setting json pf jl k d st' = get_setting json pf jl k d st) /\
  (forall d, find_setting key st = None ->
     get_setting json pf jl key d st' = Ok (Some (RStr json (py_str v)))) /\
  (forall d s, find_setting key st = Some s -> setting_data_type s = "string"%string ->
     get_setting json pf jl key d st' = Ok (Some (RStr json (py_str v)))) /\
  (forall d s n, find_setting key st = Some s -> setting_data_type s = "integer"%string ->
     v = PyInt n -> Z.abs n < 10 ^ 64 ->
     get_setting json pf jl key d st' = Ok (Some (RInt json n))) /\
  (forall d s b, find_setting key st = Some s -> setting_data_type s = "boolean"%string ->
     v = PyBool b -> get_setting json pf jl key d st' = Ok (Some (RBool json b))).
Proof.
  cbv zeta. unfold set_setting, get_setting.
  split; [|split; [|split; [|split]]].
  - intros k d Hk. apply String.eqb_neq in Hk.
    destruct (find_setting key st) eqn:F.
    + rewrite find_setting_update, Hk; reflexivity.
    + rewrite find_setting_app_new, Hk by exact F; reflexivity.
  - intros d F. rewrite F, find_setting_app_new, String.eqb_refl by exact F. reflexivity.
  - intros d s F Dt. rewrite F, find_setting_update, String.eqb_refl, F.
    unfold get_value; cbn [setting_data_type setting_value]. rewrite Dt. reflexivity.
  - intros d s n F Dt -> Hn. rewrite F, find_setting_update, String.eqb_refl, F.
    unfold get_value; cbn [setting_data_type setting_value]. rewrite Dt.
    cbn [String.eqb Ascii.eqb Bool.eqb andb]. cbn [py_str].
    rewrite py_int_of_string_str_of_Z by exact Hn. reflexivity.
  - intros d s b F Dt ->. rewrite F, find_setting_update, String.eqb_refl, F.
    unfold get_value; cbn [setting_data_type setting_value]. rewrite Dt.
    destruct b; reflexivity.
Qed.

Lemma timing_suggestions_length (e o l : Z) (s : list string) :
  timing_suggestions e o l = Ok s -> (List.length s <= 2)%nat.
Proof.
  unfold timing_suggestions. destruct (0 <? e + o + l); [|intro H; injection H as <-; simpl; lia].
  destruct (int_truediv l _) as [lq|err]; [|discriminate]; cbn [bind].
  destruct (int_truediv e _) as [eq|err]; [|discriminate]; cbn [bind].
  intro H; injection H as <-.
  destruct (flt _ _); [simpl; lia|]. destruct (flt _ _); [simpl; lia|].
  destruct (_ && _); simpl; lia.
Qed.

(** Extra: [generate_suggestions], when it returns, returns between 1
    and 5 suggestions. *)

Theorem generate_suggestions_count (total early on_time late : Z) (cp : list (string * (Z * Z)))
  (l : list string) (H : generate_suggestions total early on_time late cp = Ok l) :
  (1 <= List.length l <= 5)%nat.
Proof.
  revert H; unfold generate_suggestions.
  destruct (timing_suggestions early on_time late) as [ts|err] eqn:T; [|discriminate]; cbn [bind].
  apply timing_suggestions_length in T.
  assert (L1 : (List.length (productivity_suggestions total) <= 1)%nat).
  { unfold productivity_suggestions. destruct (total <? 5); [simpl; lia|]. destruct (20 <=? total); simpl; lia. }
  assert (L3 : (List.length (category_suggestions cp) <= 2)%nat).
  { unfold category_suggestions. destruct (py_max_by_count cp), (py_min_by_count cp); simpl; try lia.
    rewrite length_app. destruct (3 <=? _); destruct (_ && _); simpl; lia. }
  intro H; injection H as <-.
  destruct (productivity_suggestions total ++ ts ++ category_suggestions cp) as [|x r] eqn:E; [simpl; lia|].
  assert (Hl : (1 <= List.length (x :: r))%nat) by (simpl; lia).
  rewrite <- E in Hl |- *. rewrite !length_app in *. lia.
Qed.

(** Extra: after any sequence of [mark_as_read] and [archive] calls, a
    notification is read iff it was read or some call marked it; its
    [read_at] is the one it had if it was already read, else the time of
    the first [mark_as_read] call (later calls, also after [archive], keep
    it); it is archived iff it was or some call archived it; and
    [is_expired] gives the same answer as before at every time. *)

Theorem notification_ops_keep_first_read (ops : list NotificationOp) (n : Notification) :
  let n' := run_notification_ops ops n in
  notification_is_read n' = (notification_is_read n || match first_read_time ops with Some _ => true | None => false end) /\
  notification_read_at n' =
    (if notification_is_read n then notification_read_at n
     else match first_read_time ops with Some t => Some t | None => notification_read_at n end) /\
  notification_is_archived n' = (notification_is_archived n || has_archive ops) /\
  (forall now, notification_is_expired now n' = notification_is_expired now n).
Proof.
  cbv zeta. unfold run_notification_ops.
  revert n; induction ops as [|op ops IH]; intros [r ra a e].
  - destruct r; cbn; rewrite ?orb_false_r; repeat split; intros; reflexivity.
  - destruct op as [t|].
    + specialize (IH (mark_as_read t (mkNotification r ra a e))).
      destruct IH as (H1 & H2 & H3 & H4).
      cbn [fold_left apply_notification_op first_read_time].
      rewrite H1, H2, H3.
      destruct r; cbn in *; repeat split; intros; rewrite ?H4; reflexivity.
    + specialize (IH (archive (mkNotification r ra a e))).
      destruct IH as (H1 & H2 & H3 & H4).
      cbn [fold_left apply_notification_op first_read_time].
      rewrite H1, H2, H3.
      destruct r; cbn in *; repeat split; intros; rewrite ?H4, ?orb_true_r; reflexivity.
Qed.

Lemma generate_suggestions_count_witness :
  generate_suggestions 7 1 1 2 [("Work"%string, (3, 30)); ("Home"%string, (1, 10))] =
    Ok [sugg_late_deadlines; sugg_late_chunks; sugg_most_category "Work"; sugg_least_category "Home"] /\
  (1 <= List.length [sugg_late_deadlines; sugg_late_chunks; sugg_most_category "Work"; sugg_least_category "Home"] <= 5)%nat.
Proof.
  assert (H : generate_suggestions 7 1 1 2 [("Work"%string, (3, 30)); ("Home"%string, (1, 10))] =
    Ok [sugg_late_deadlines; sugg_late_chunks; sugg_most_category "Work"; sugg_least_category "Home"])
    by (vm_compute; reflexivity).
  split; [exact H|exact (generate_suggestions_count _ _ _ _ _ _ H)].
Defined.

(** Extra: A run of [award_task_xp] calls that succeeds leaves
    achievements and tasks unchanged, only appends to the XP ledger and
    to the unlocked achievements, and never unlocks an achievement
    twice. *)

Theorem award_sequence_only_appends (fuel : nat) (ops : list (Task * Z)) (p : Profile) (db : DB)
  (p' : Profile) (db' : DB) (H : award_sequence fuel ops p db = Ok (p', db')) :
  db_extends db db'.
Proof.
  revert p db H; induction ops as [|[t now] r IH]; intros p db H; simpl in H.
  - injection H as _ <-; apply db_extends_refl.
  - unfold bind in H.
    destruct (award_task_xp fuel t now p db) as [[[[x m] q] d]|e] eqn:A; [|discriminate].
    eapply db_extends_trans; [exact (award_task_xp_db_extends _ _ _ _ _ _ _ _ _ A)|exact (IH _ _ H)].
Qed.

Lemma award_sequence_only_appends_witness :
  exists p' db', award_sequence 10 seven_days fresh_profile two_achievements_db = Ok (p', db') /\
    db_extends two_achievements_db db'.
Proof.
  destruct (award_sequence 10 seven_days fresh_profile two_achievements_db) as [[p' db']|e] eqn:E;
    [|vm_compute in E; discriminate].
  exists p', db'; split; [reflexivity|exact (award_sequence_only_appends _ _ _ _ _ _ E)].
Defined.

Lemma complete_task_once_witness :
  exists b msg t' db', complete_task 10 open_task (100 * us_per_day + 1000) fresh_db = Ok (b, msg, t', db') /\
  ((b = false -> t' = open_task /\ db' = fresh_db) /\
   (b = true -> is_completed open_task = false /\ fst (can_complete_task open_task (100 * us_per_day + 1000)) = true /\
     t' = mark_completed open_task (100 * us_per_day + 1000) /\ In t' (tasks db') /\
     forall now', complete_task 10 t' now' db' = Ok (false, "Task is already completed"%string, t', db'))).
Proof.
  destruct (complete_task 10 open_task (100 * us_per_day + 1000) fresh_db) as [[[[b msg] t'] db']|e] eqn:E;
    [|vm_compute in E; discriminate].
  exists b, msg, t', db'; split; [reflexivity|exact (complete_task_once _ _ _ _ _ _ _ _ E)].
Defined.

Lemma complete_mission_raises_after_saving_witness :
  is_active active_mission = true /\
  (let '(r, m', st') := complete_mission 7 active_mission empty_store in
  r = Err (AttributeError "award_mission_xp") /\
  mission_status m' = "completed"%string /\ mission_completed_at m' = Some 7 /\
  mission_id m' = mission_id active_mission /\ mission_current_progress m' = mission_current_progress active_mission /\
  In m' (mission_rows st') /\ notifications st' = notifications empty_store /\
  (forall now' inc, complete_mission now' m' st' = (Ok false, m', st') /\
                    update_progress now' inc m' st' = (Ok false, m', st') /\
                    fail_mission m' st' = (Ok false, m', st'))).
Proof. split; [reflexivity|apply complete_mission_raises_after_saving; reflexivity]. Defined.

Lemma update_progress_cases_witness :
  is_active active_mission = true /\
  (let '(r, m', st') := update_progress 7 1 active_mission empty_store in
  mission_current_progress m' = mission_current_progress active_mission + 1 /\
  In m' (mission_rows st') /\ notifications st' = notifications empty_store /\
  (mission_target_value active_mission <= mission_current_progress active_mission + 1 ->
     r = Err (AttributeError "award_mission_xp") /\
     mission_status m' = "completed"%string /\ mission_completed_at m' = Some 7) /\
  (mission_current_progress active_mission + 1 < mission_target_value active_mission ->
     r = Ok true /\ mission_status m' = mission_status active_mission /\
     mission_completed_at m' = mission_completed_at active_mission)).
Proof. split; [reflexivity|apply update_progress_cases; reflexivity]. Defined.

Lemma fail_mission_notifies_witness :
  is_active active_mission = true /\
  (let '(r, m', st') := fail_mission active_mission empty_store in
  r = Ok true /\ mission_status m' = "failed"%string /\ mission_id m' = mission_id active_mission /\
  In m' (mission_rows st') /\
  notifications st' = notifications empty_store ++ [("mission_failed"%string, mission_id active_mission)] /\
  (forall now' inc, complete_mission now' m' st' = (Ok false, m', st') /\
                    update_progress now' inc m' st' = (Ok false, m', st') /\
                    fail_mission m' st' = (Ok false, m', st'))).
Proof. split; [reflexivity|apply fail_mission_notifies; reflexivity]. Defined.

Lemma update_rankings_ranks_witness :
  exists entries, update_rankings sample_activity [1; 2; 1; 3] = Ok entries /\
  (map (fun e => snd (fst e)) entries = py_range 1 (Z.of_nat (List.length entries) + 1) /\
  Sorted Z.ge (map snd entries) /\
  NoDup (map (fun e => fst (fst e)) entries) /\
  (forall uid, In uid (map (fun e => fst (fst e)) entries) <-> In uid [1; 2; 1; 3])).
Proof.
  destruct (update_rankings sample_activity [1; 2; 1; 3]) as [entries|e] eqn:E;
    [|vm_compute in E; discriminate].
  exists entries; split; [reflexivity|exact (update_rankings_ranks _ _ _ E)].
Defined.
